(** * CoherencePLM: generation pipeline, selective regeneration and graph persistence

    A shallow embedding of the backend of the requirement pipeline:
    - [src/backend/nodes.py]: the output normalizer ([safe_json_parse],
      [extract_json_from_text]), the stage operations ([generate_keywords],
      [generate_requirements], [generate_risks], [generate_fallback_risks]) and
      the single-item regenerators;
    - [src/backend/api/routes/project/*.py]: the route handlers that drive them;
    - [src/backend/tools/tools.py], [neo4j_operations.py] and [risks.py]: the
      Cypher statements that write, read and overwrite the persisted graph;
    - [src/backend/graph.py] and [src/backend/api/dependencies.py]: the routing
      function of the workflow graph and the cleaning of log messages.

    Conventions.  A Python [str] is a [string]; its characters are read as code
    points below 256.  Python integers are [Z]; list positions follow Python
    (a negative index counts from the end).  Exceptions are values of [exn]
    carried by a state-and-error monad; the external generator is an oracle
    indexed by the number of calls made so far, so that quantifying over the
    oracle covers every behaviour of the service. *)

From Stdlib Require Import String Ascii ZArith List Lia Bool DecimalString.
From stdpp Require Import base option list gmap strings.

Open Scope Z_scope.

(** ** Python string primitives *)

Module Py.

Definition code (c : ascii) : nat := nat_of_ascii c.

(** [str.isspace] on one character, which is also what [\s] matches in a
    [str] pattern: TAB..CR, FS..US, space, NEL and NBSP. *)
Definition isspace (c : ascii) : bool :=
  let n := code c in
  ((9 <=? n) && (n <=? 13))%nat || ((28 <=? n) && (n <=? 32))%nat
  || (n =? 133)%nat || (n =? 160)%nat.

Definition len (s : string) : Z := Z.of_nat (String.length s).

(** [bool(s)] for a string. *)
Definition truthy (s : string) : bool :=
  match s with EmptyString => false | _ => true end.

Fixpoint lstrip_by (p : ascii -> bool) (s : string) : string :=
  match s with
  | String c r => if p c then lstrip_by p r else s
  | EmptyString => EmptyString
  end.

(** Removes a trailing run of characters satisfying [p]. *)
Fixpoint rstrip_by (p : ascii -> bool) (s : string) : string :=
  match s with
  | EmptyString => EmptyString
  | String c r =>
      match rstrip_by p r with
      | EmptyString => if p c then EmptyString else String c EmptyString
      | r' => String c r'
      end
  end.

Definition strip_by (p : ascii -> bool) (s : string) : string :=
  rstrip_by p (lstrip_by p s).

(** [s.strip()] *)
Definition strip (s : string) : string := strip_by isspace s.

(** [s.strip(c)] for a one-character argument. *)
Definition strip_char (c : ascii) (s : string) : string :=
  strip_by (Ascii.eqb c) s.

(** [c in s] for a one-character [c]. *)
Fixpoint mem (c : ascii) (s : string) : bool :=
  match s with
  | EmptyString => false
  | String a r => Ascii.eqb a c || mem c r
  end.

Fixpoint find_from (c : ascii) (s : string) (i : Z) : Z :=
  match s with
  | EmptyString => -1
  | String a r => if Ascii.eqb a c then i else find_from c r (i + 1)
  end.

(** [s.find(c)]: position of the first [c], or -1. *)
Definition find (c : ascii) (s : string) : Z := find_from c s 0.

Fixpoint rfind_from (c : ascii) (s : string) (i : Z) : Z :=
  match s with
  | EmptyString => -1
  | String a r =>
      let k := rfind_from c r (i + 1) in
      if 0 <=? k then k else if Ascii.eqb a c then i else -1
  end.

(** [s.rfind(c)]: position of the last [c], or -1. *)
Definition rfind (c : ascii) (s : string) : Z := rfind_from c s 0.

Fixpoint take (n : nat) (s : string) : string :=
  match n, s with
  | S n', String c r => String c (take n' r)
  | _, _ => EmptyString
  end.

Fixpoint drop (n : nat) (s : string) : string :=
  match n, s with
  | S n', String _ r => drop n' r
  | _, _ => s
  end.

(** A slice bound as Python normalises it: negative bounds count from the
    end, and the result is clamped to [0, len]. *)
Definition clamp (n i : Z) : Z :=
  let j := if i <? 0 then i + n else i in
  Z.max 0 (Z.min n j).

(** [s[start:stop]] *)
Definition slice (s : string) (start stop : Z) : string :=
  let a := clamp (len s) start in
  let b := clamp (len s) stop in
  take (Z.to_nat (b - a)) (drop (Z.to_nat a) s).

Fixpoint prefix (p s : string) : bool :=
  match p, s with
  | EmptyString, _ => true
  | String a p', String b s' => Ascii.eqb a b && prefix p' s'
  | _, _ => false
  end.

(** [sub in s] *)
Fixpoint contains (sub s : string) : bool :=
  prefix sub s ||
  match s with
  | EmptyString => false
  | String _ r => contains sub r
  end.

(** The text that follows the first occurrence of [sub], when there is one. *)
Fixpoint after_first (sub s : string) : option string :=
  if prefix sub s then Some (drop (String.length sub) s)
  else match s with
       | EmptyString => None
       | String _ r => after_first sub r
       end.

(** The text that precedes the first occurrence of [sub]. *)
Fixpoint before_first (sub s : string) : option string :=
  if prefix sub s then Some EmptyString
  else match s with
       | EmptyString => None
       | String c r => option_map (String c) (before_first sub r)
       end.

(** [s.startswith(c)] and [s.endswith(c)] for a one-character [c]. *)
Definition startswith (c : ascii) (s : string) : bool :=
  match s with String a _ => Ascii.eqb a c | EmptyString => false end.

Fixpoint endswith (c : ascii) (s : string) : bool :=
  match s with
  | EmptyString => false
  | String a EmptyString => Ascii.eqb a c
  | String _ r => endswith c r
  end.

(** [str(n)] for a natural number. *)
Definition str_of_nat (n : nat) : string :=
  NilEmpty.string_of_uint (Nat.to_uint n).

(** [xs[i]]: [None] stands for [IndexError]. *)
Definition getitem {A} (xs : list A) (i : Z) : option A :=
  let n := Z.of_nat (length xs) in
  if (0 <=? i) && (i <? n) then xs !! Z.to_nat i
  else if (i <? 0) && (- n <=? i) then xs !! Z.to_nat (i + n)
  else None.

(** [xs[i] = v]: [None] stands for [IndexError]. *)
Definition setitem {A} (xs : list A) (i : Z) (v : A) : option (list A) :=
  let n := Z.of_nat (length xs) in
  if (0 <=? i) && (i <? n) then Some (<[Z.to_nat i := v]> xs)
  else if (i <? 0) && (- n <=? i) then Some (<[Z.to_nat (i + n) := v]> xs)
  else None.

End Py.


(** ** The [json] library

    [json.loads] is not code of this repository; this is a model of its
    decoder (the grammar of RFC 8259 with the decoder's [NaN], [Infinity] and
    [-Infinity] extensions, strict mode).  An integer literal is decoded to its
    value, any other number is kept as its lexeme.  A [\u] escape that denotes
    a code point outside the alphabet of the model is not decoded. *)

Module Json.

#[local] Unset Elimination Schemes.
Inductive json : Type :=
| JNull
| JBool (b : bool)
| JInt (z : Z)
| JFloat (lexeme : string)
| JStr (s : string)
| JArr (items : list json)
| JObj (members : list (string * json)).
#[local] Set Elimination Schemes.

(** The decoder's whitespace: space, TAB, LF, CR. *)
Definition is_ws (c : ascii) : bool :=
  let n := Py.code c in
  ((n =? 32) || (n =? 9) || (n =? 10) || (n =? 13))%nat.

Definition skip_ws (s : string) : string := Py.lstrip_by is_ws s.

Definition is_digit (c : ascii) : bool :=
  let n := Py.code c in ((48 <=? n) && (n <=? 57))%nat.

Definition digit_val (c : ascii) : Z := Z.of_nat (Py.code c) - 48.

Definition hex_val (c : ascii) : option nat :=
  let n := Py.code c in
  if ((48 <=? n) && (n <=? 57))%nat then Some (n - 48)%nat
  else if ((97 <=? n) && (n <=? 102))%nat then Some (n - 87)%nat
  else if ((65 <=? n) && (n <=? 70))%nat then Some (n - 55)%nat
  else None.

(** The four hexadecimal digits of a [\u] escape. *)
Definition hex4 (a b c d : ascii) : option nat :=
  match hex_val a, hex_val b, hex_val c, hex_val d with
  | Some x, Some y, Some z, Some w => Some (((x * 16 + y) * 16 + z) * 16 + w)%nat
  | _, _, _, _ => None
  end.

Definition escape_char (c : ascii) : option ascii :=
  let n := Py.code c in
  if (n =? 34)%nat then Some c
  else if (n =? 92)%nat then Some c
  else if (n =? 47)%nat then Some c
  else if (n =? 98)%nat then Some (ascii_of_nat 8)
  else if (n =? 102)%nat then Some (ascii_of_nat 12)
  else if (n =? 110)%nat then Some (ascii_of_nat 10)
  else if (n =? 114)%nat then Some (ascii_of_nat 13)
  else if (n =? 116)%nat then Some (ascii_of_nat 9)
  else None.

(** The body of a string literal, after its opening quote: the decoded text
    and what follows the closing quote. *)
Fixpoint scan_string (s : string) : option (string * string) :=
  match s with
  | EmptyString => None
  | String c r =>
      let n := Py.code c in
      if (n =? 34)%nat then Some (EmptyString, r)
      else if (n <? 32)%nat then None
      else if (n =? 92)%nat then
        match r with
        | String e r1 =>
            if (Py.code e =? 117)%nat then
              match r1 with
              | String h1 (String h2 (String h3 (String h4 r2))) =>
                  match hex4 h1 h2 h3 h4 with
                  | Some v =>
                      if (v <? 256)%nat then
                        match scan_string r2 with
                        | Some (t, rest) => Some (String (ascii_of_nat v) t, rest)
                        | None => None
                        end
                      else None
                  | None => None
                  end
              | _ => None
              end
            else
              match escape_char e with
              | Some d =>
                  match scan_string r1 with
                  | Some (t, rest) => Some (String d t, rest)
                  | None => None
                  end
              | None => None
              end
        | EmptyString => None
        end
      else
        match scan_string r with
        | Some (t, rest) => Some (String c t, rest)
        | None => None
        end
  end.

(** A maximal run of digits and what follows it. *)
Fixpoint span_digits (s : string) : string * string :=
  match s with
  | String c r =>
      if is_digit c then let '(d, rest) := span_digits r in (String c d, rest)
      else (EmptyString, s)
  | EmptyString => (EmptyString, EmptyString)
  end.

Fixpoint digits_value (acc : Z) (s : string) : Z :=
  match s with
  | String c r => digits_value (10 * acc + digit_val c) r
  | EmptyString => acc
  end.

(** The integer part, an optional minus sign then 0 or a run of digits that
    does not start with 0: sign, digits, rest. *)
Definition scan_int (s : string) : option (bool * string * string) :=
  let '(neg, s1) :=
    match s with
    | String c r => if (Py.code c =? 45)%nat then (true, r) else (false, s)
    | EmptyString => (false, s)
    end in
  match s1 with
  | String c r =>
      if (Py.code c =? 48)%nat then Some (neg, String c EmptyString, r)
      else if is_digit c then
        let '(d, rest) := span_digits s1 in Some (neg, d, rest)
      else None
  | EmptyString => None
  end.

(** The optional fraction: a dot and at least one digit. *)
Definition scan_frac (s : string) : string * string :=
  match s with
  | String c r =>
      if (Py.code c =? 46)%nat then
        match span_digits r with
        | (EmptyString, _) => (EmptyString, s)
        | (d, rest) => (String c d, rest)
        end
      else (EmptyString, s)
  | EmptyString => (EmptyString, s)
  end.

(** The optional exponent: e or E, an optional sign, at least one digit. *)
Definition scan_exp (s : string) : string * string :=
  match s with
  | String c r =>
      if ((Py.code c =? 101) || (Py.code c =? 69))%nat then
        let '(sign, r1) :=
          match r with
          | String g r' =>
              if ((Py.code g =? 43) || (Py.code g =? 45))%nat
              then (String g EmptyString, r') else (EmptyString, r)
          | EmptyString => (EmptyString, r)
          end in
        match span_digits r1 with
        | (EmptyString, _) => (EmptyString, s)
        | (d, rest) => (String c (sign +:+ d), rest)
        end
      else (EmptyString, s)
  | EmptyString => (EmptyString, s)
  end.

Definition scan_number (s : string) : option (json * string) :=
  match scan_int s with
  | None => None
  | Some (neg, d, r) =>
      let '(frac, r1) := scan_frac r in
      let '(ex, r2) := scan_exp r1 in
      match frac, ex with
      | EmptyString, EmptyString =>
          Some (JInt (if neg then - digits_value 0 d else digits_value 0 d), r2)
      | _, _ =>
          Some (JFloat ((if neg then "-" else "") +:+ d +:+ frac +:+ ex), r2)
      end
  end.

(** A keyword at the head of the text. *)
Definition scan_lit (kw : string) (v : json) (s : string) : option (json * string) :=
  if Py.prefix kw s then Some (v, Py.drop (String.length kw) s) else None.

Definition first_some {A} (x y : option A) : option A :=
  match x with Some _ => x | None => y end.

(** One value at the head of the text ([scan_once]); [fuel] bounds the
    nesting of calls. *)
Fixpoint scan_value (fuel : nat) (s : string) : option (json * string) :=
  match fuel with
  | O => None
  | S fuel' =>
      match s with
      | EmptyString => None
      | String c r =>
          let n := Py.code c in
          if (n =? 34)%nat then
            match scan_string r with
            | Some (t, rest) => Some (JStr t, rest)
            | None => None
            end
          else if (n =? 123)%nat then
            match skip_ws r with
            | String c1 r1 =>
                if (Py.code c1 =? 125)%nat then Some (JObj [], r1)
                else
                  match scan_members fuel' (skip_ws r) with
                  | Some (ms, rest) => Some (JObj ms, rest)
                  | None => None
                  end
            | EmptyString => None
            end
          else if (n =? 91)%nat then
            match skip_ws r with
            | String c1 r1 =>
                if (Py.code c1 =? 93)%nat then Some (JArr [], r1)
                else
                  match scan_items fuel' (skip_ws r) with
                  | Some (vs, rest) => Some (JArr vs, rest)
                  | None => None
                  end
            | EmptyString => None
            end
          else
            first_some (scan_lit "null" JNull s)
            (first_some (scan_lit "true" (JBool true) s)
            (first_some (scan_lit "false" (JBool false) s)
            (first_some (scan_number s)
            (first_some (scan_lit "NaN" (JFloat "NaN") s)
            (first_some (scan_lit "Infinity" (JFloat "Infinity") s)
                        (scan_lit "-Infinity" (JFloat "-Infinity") s))))))
      end
  end

(** The items of a non-empty array, up to and including its closing bracket. *)
with scan_items (fuel : nat) (s : string) : option (list json * string) :=
  match fuel with
  | O => None
  | S fuel' =>
      match scan_value fuel' s with
      | None => None
      | Some (v, r) =>
          match skip_ws r with
          | String c r1 =>
              if (Py.code c =? 93)%nat then Some ([v], r1)
              else if (Py.code c =? 44)%nat then
                match scan_items fuel' (skip_ws r1) with
                | Some (vs, rest) => Some (v :: vs, rest)
                | None => None
                end
              else None
          | EmptyString => None
          end
      end
  end

(** The members of a non-empty object, up to and including its closing brace. *)
with scan_members (fuel : nat) (s : string) : option (list (string * json) * string) :=
  match fuel with
  | O => None
  | S fuel' =>
      match s with
      | String q r =>
          if (Py.code q =? 34)%nat then
            match scan_string r with
            | None => None
            | Some (k, r1) =>
                match skip_ws r1 with
                | String c r2 =>
                    if (Py.code c =? 58)%nat then
                      match scan_value fuel' (skip_ws r2) with
                      | None => None
                      | Some (v, r3) =>
                          match skip_ws r3 with
                          | String d r4 =>
                              if (Py.code d =? 125)%nat then Some ([(k, v)], r4)
                              else if (Py.code d =? 44)%nat then
                                match scan_members fuel' (skip_ws r4) with
                                | Some (ms, rest) => Some ((k, v) :: ms, rest)
                                | None => None
                                end
                              else None
                          | EmptyString => None
                          end
                      end
                    else None
                | EmptyString => None
                end
            end
          else None
      | EmptyString => None
      end
  end.

(** [json.loads(s)]: [None] stands for [JSONDecodeError]. *)
Definition loads (s : string) : option json :=
  match scan_value (2 * String.length s + 2) (skip_ws s) with
  | Some (v, rest) =>
      match skip_ws rest with
      | EmptyString => Some v
      | _ => None
      end
  | None => None
  end.

(** [d[k]] on a decoded object: a repeated key keeps its last value. *)
Fixpoint dict_get (k : string) (ms : list (string * json)) : option json :=
  match ms with
  | [] => None
  | (k', v) :: r =>
      match dict_get k r with
      | Some w => Some w
      | None => if String.eqb k' k then Some v else None
      end
  end.

(** A number lexeme denotes zero when its mantissa has no non-zero digit. *)
Fixpoint mantissa_zero (s : string) : bool :=
  match s with
  | EmptyString => true
  | String c r =>
      let n := Py.code c in
      if ((n =? 101) || (n =? 69))%nat then true
      else if ((49 <=? n) && (n <=? 57))%nat then false
      else if ((n =? 78) || (n =? 73))%nat then false
      else mantissa_zero r
  end.

(** [bool(v)] for a decoded value. *)
Definition truthy (v : json) : bool :=
  match v with
  | JNull => false
  | JBool b => b
  | JInt z => negb (z =? 0)
  | JFloat lx => negb (mantissa_zero lx)
  | JStr s => Py.truthy s
  | JArr l => match l with [] => false | _ => true end
  | JObj l => match l with [] => false | _ => true end
  end.

End Json.
Export Json(json(..)).

(** ** Output normalizer ([nodes.py]) *)

(** Does the text match [\s*c] at its head? *)
Fixpoint ws_then (c : ascii) (s : string) : bool :=
  match s with
  | EmptyString => false
  | String a r => if Ascii.eqb a c then true else Py.isspace a && ws_then c r
  end.

(** [re.sub(r',\s*c', 'c', s)] for a closing bracket [c].  A match starts at a
    comma that is followed by white space and then [c]; while [skipping], the
    scan is inside such a match and drops it up to [c]. *)
Fixpoint re_sub_comma (c : ascii) (skipping : bool) (s : string) : string :=
  match s with
  | EmptyString => EmptyString
  | String a r =>
      if skipping then
        if Ascii.eqb a c then String c (re_sub_comma c false r)
        else re_sub_comma c true r
      else if Ascii.eqb a "," && ws_then c r then re_sub_comma c true r
      else String a (re_sub_comma c false r)
  end.

(** The two repairs of [safe_json_parse], in its order. *)
Definition strip_trailing_commas (s : string) : string :=
  re_sub_comma "]" false (re_sub_comma "}" false s).

(** [safe_json_parse(json_str)] with its default [None], which is [JNull]
    here, as [json.loads("null")] is. *)
Definition safe_json_parse (json_str : string) : json :=
  match Json.loads json_str with
  | Some v => v
  | None =>
      match Json.loads (strip_trailing_commas json_str) with
      | Some v => v
      | None => JNull
      end
  end.

Definition fence_open : string := "```json".
Definition fence_close : string := "```".

(** Group 1 of [re.search(r'```json\s*(.*?)\s*```', text, re.DOTALL)]: what
    lies between the white space after the first opening fence and the white
    space before the next closing fence. *)
Definition fence_search (text : string) : option string :=
  match Py.after_first fence_open text with
  | None => None
  | Some rest =>
      match Py.before_first fence_close (Py.lstrip_by Py.isspace rest) with
      | None => None
      | Some g => Some (Py.rstrip_by Py.isspace g)
      end
  end.

(** The [find]/[rfind] slice of one bracket pair. *)
Definition bracket_slice (open close : ascii) (text : string) : option string :=
  if Py.mem open text && Py.mem close text then
    let start := Py.find open text in
    let stop := Py.rfind close text + 1 in
    if (0 <=? start) && (start <? stop) then Some (Py.slice text start stop)
    else None
  else None.

(** [extract_json_from_text(text)] *)
Definition extract_json_from_text (text : string) : option string :=
  match (if Py.contains fence_open text then fence_search text else None) with
  | Some g => Some (Py.strip g)
  | None =>
      match bracket_slice "{" "}" text with
      | Some s => Some s
      | None => bracket_slice "[" "]" text
      end
  end.

(** ** Exceptions, the world and the monad of effects *)

Inductive exn : Type :=
| GeneratorError                                  (* the call to the generator raised *)
| ValueError (msg : string)
| ValidationError                                 (* pydantic rejects a field *)
| AttributeError                                  (* an attribute of [None] *)
| IndexError
| KeyError
| TypeError
| HTTPException (status_code : Z) (detail : string).

Inductive result (A : Type) : Type :=
| Ok (a : A)
| Raise (e : exn).
Arguments Ok {A} a.
Arguments Raise {A} e.

(** What one call of [(prompt | llm).invoke(...)] does. *)
Inductive llm_outcome : Type :=
| Returns (content : string)
| Fails.

(** The prompt of a call, by template and arguments. *)
Inductive prompt : Type :=
| KeywordsPrompt (requirement_description : string)
| RequirementsPrompt (selected_keyword : option string) (requirement_description : string)
| RisksPrompt (requirements : list string)
| SingleRequirementPrompt (selected_keyword : option string)
    (requirement_description current_requirement feedback : string) (index : Z)
| SingleRiskPrompt (current_requirement current_risk feedback : string) (index : Z).

Inductive stage : Type := Keywords | Requirements | Risks.
Inductive item : Type := RequirementItem | RiskItem.

(** The records written with [logger.warning] and [logger.error]; the
    [logger.info] lines are not kept. *)
Inductive log_record : Type :=
| InvalidFormat (s : stage)                 (* warning: invalid format, using fallback *)
| StageError (s : stage) (e : exn)          (* error: error generating ... *)
| TooShort (it : item) (index : Z)          (* warning: generated text too short *)
| SingleError (it : item) (e : exn)         (* error: error generating single ... *)
| NoKeywordSelected (thread_id : string)    (* warning *)
| NoChange (it : item) (index : Z)          (* warning: no change at index *)
| UpdateError (it : item) (index : Z) (e : exn)   (* error: error updating ... at index *)
| RiskGenerationFailed (e : exn)            (* error: risk generation failed but continuing *)
| SaveError (e : exn)                       (* error: save error *)
| RouteError (e : exn).                     (* error: the handler's last except clause *)

(** The entries of [state["messages"]]. *)
Inductive message : Type :=
| KeywordsMessage (keywords : list string)
| FallbackKeywordsMessage (keywords : list string)
| RequirementsMessage (n : nat)
| RisksMessage (n : nat)
| SavedMessage (text : string).

(** [KeywordState]; the three output models are kept as their one field. *)
Record KeywordState : Type := {
  requirement_description : string;
  messages : list message;
  keyword_output : option (list string);
  selected_keyword : option string;
  requirements_output : option (list string);
  risks_output : option (list string);
  project_name : string;
  regenerate_flag : option string
}.

Definition set_messages (m : list message) (st : KeywordState) : KeywordState :=
  {| requirement_description := requirement_description st; messages := m;
     keyword_output := keyword_output st; selected_keyword := selected_keyword st;
     requirements_output := requirements_output st; risks_output := risks_output st;
     project_name := project_name st; regenerate_flag := regenerate_flag st |}.

Definition set_keyword_output (k : option (list string)) (st : KeywordState) : KeywordState :=
  {| requirement_description := requirement_description st; messages := messages st;
     keyword_output := k; selected_keyword := selected_keyword st;
     requirements_output := requirements_output st; risks_output := risks_output st;
     project_name := project_name st; regenerate_flag := regenerate_flag st |}.

Definition set_selected_keyword (k : option string) (st : KeywordState) : KeywordState :=
  {| requirement_description := requirement_description st; messages := messages st;
     keyword_output := keyword_output st; selected_keyword := k;
     requirements_output := requirements_output st; risks_output := risks_output st;
     project_name := project_name st; regenerate_flag := regenerate_flag st |}.

Definition set_requirements_output (r : option (list string)) (st : KeywordState) : KeywordState :=
  {| requirement_description := requirement_description st; messages := messages st;
     keyword_output := keyword_output st; selected_keyword := selected_keyword st;
     requirements_output := r; risks_output := risks_output st;
     project_name := project_name st; regenerate_flag := regenerate_flag st |}.

Definition set_risks_output (r : option (list string)) (st : KeywordState) : KeywordState :=
  {| requirement_description := requirement_description st; messages := messages st;
     keyword_output := keyword_output st; selected_keyword := selected_keyword st;
     requirements_output := requirements_output st; risks_output := r;
     project_name := project_name st; regenerate_flag := regenerate_flag st |}.

Definition set_regenerate_flag (f : option string) (st : KeywordState) : KeywordState :=
  {| requirement_description := requirement_description st; messages := messages st;
     keyword_output := keyword_output st; selected_keyword := selected_keyword st;
     requirements_output := requirements_output st; risks_output := risks_output st;
     project_name := project_name st; regenerate_flag := f |}.

(** [state["messages"].append(m)] *)
Definition append_message (m : message) (st : KeywordState) : KeywordState :=
  set_messages (messages st ++ [m]) st.

(** [bool(state.get(field))] for an optional string. *)
Definition truthy_opt (o : option string) : bool :=
  match o with Some s => Py.truthy s | None => false end.

(** [if state.get("regenerate_flag"): state["regenerate_flag"] = None] *)
Definition clear_regenerate_flag (st : KeywordState) : KeywordState :=
  if truthy_opt (regenerate_flag st) then set_regenerate_flag None st else st.

(** ** The persisted graph

    The graph database is an external service; this is the property graph the
    Cypher statements of the repository act on, restricted to the labels,
    properties and relationship types they name.  Node identities are
    allocated from [next_id].  The [updated_at] time stamp of a project is
    wall-clock time and is not kept. *)

Record ProjectNode : Type := {
  p_id : nat;
  p_name : string;
  p_keyword : option string
}.

(** A [:Requirement] or a [:Risk] node. *)
Record ItemNode : Type := {
  n_id : nat;
  n_description : string;
  n_project : string;
  n_index : Z
}.

Record Graph : Type := {
  next_id : nat;
  project_nodes : list ProjectNode;
  requirement_nodes : list ItemNode;
  risk_nodes : list ItemNode;
  has_requirement : list (nat * nat);     (* (:Project)-[:HAS_REQUIREMENT]->(:Requirement) *)
  has_risk : list (nat * nat)             (* (:Requirement)-[:HAS_RISK]->(:Risk) *)
}.

(** The world outside a handler: the generator with the prompts it has been
    sent, the log, the module-level dictionary [workflow_states] and the graph
    behind [graph_db]. *)
Record World : Type := {
  llm : nat -> llm_outcome;
  calls : list prompt;
  log : list log_record;
  workflow_states : gmap string KeywordState;
  graph_db : Graph
}.

(** The four ways a step changes the world. *)
Definition add_call (p : prompt) (w : World) : World :=
  {| llm := llm w; calls := calls w ++ [p]; log := log w;
     workflow_states := workflow_states w; graph_db := graph_db w |}.

Definition add_log (r : log_record) (w : World) : World :=
  {| llm := llm w; calls := calls w; log := log w ++ [r];
     workflow_states := workflow_states w; graph_db := graph_db w |}.

Definition put_state (thread_id : string) (st : KeywordState) (w : World) : World :=
  {| llm := llm w; calls := calls w; log := log w;
     workflow_states := <[thread_id := st]> (workflow_states w);
     graph_db := graph_db w |}.

Definition put_graph (g : Graph) (w : World) : World :=
  {| llm := llm w; calls := calls w; log := log w;
     workflow_states := workflow_states w; graph_db := g |}.

Definition M (A : Type) : Type := World -> result A * World.

Definition ret {A} (a : A) : M A := fun w => (Ok a, w).

Definition raise {A} (e : exn) : M A := fun w => (Raise e, w).

Definition bind {A B} (m : M A) (k : A -> M B) : M B :=
  fun w => match m w with
           | (Ok a, w') => k a w'
           | (Raise e, w') => (Raise e, w')
           end.

(** [try: m  except Exception as e: h e] *)
Definition try_except {A} (m : M A) (h : exn -> M A) : M A :=
  fun w => match m w with
           | (Ok a, w') => (Ok a, w')
           | (Raise e, w') => h e w'
           end.

Definition lift {A} (r : result A) : M A := fun w => (r, w).

Declare Scope py_scope.
Delimit Scope py_scope with py.
Notation "x <- m ;; k" := (bind m (fun x => k))
  (at level 100, m at next level, right associativity) : py_scope.
Notation "m ;; k" := (bind m (fun _ => k))
  (at level 100, right associativity) : py_scope.
Open Scope py_scope.

(** One call of the generator: the prompt is recorded, the outcome is the
    oracle's for this call. *)
Definition invoke (p : prompt) : M string :=
  fun w =>
    match llm w (length (calls w)) with
    | Returns content => (Ok content, add_call p w)
    | Fails => (Raise GeneratorError, add_call p w)
    end.

Definition logger (r : log_record) : M unit :=
  fun w => (Ok tt, add_log r w).

(** [thread_id in workflow_states] and [workflow_states[thread_id]] *)
Definition lookup_state (thread_id : string) : M (option KeywordState) :=
  fun w => (Ok (workflow_states w !! thread_id), w).

(** [workflow_states[thread_id] = state]; also what a mutation of the stored
    dictionary in place amounts to. *)
Definition store_state (thread_id : string) (st : KeywordState) : M unit :=
  fun w => (Ok tt, put_state thread_id st w).

(** One statement run by [graph_db.query]: its records and its effect on the
    graph. *)
Definition query {A} (q : Graph -> A * Graph) : M A :=
  fun w => (Ok (fst (q (graph_db w))), put_graph (snd (q (graph_db w))) w).

(** ** Stage operations ([nodes.py]) *)

(** Extraction and parsing of a stage's response, as each stage spells it
    out: the normalizer's slice when it is non-empty, else the whole content
    when it starts and ends with the brackets of the stage's shape, else
    [ValueError]. *)
Definition parse_response (open close : ascii) (content : string) : result json :=
  let direct : result json :=
    if Py.startswith open content && Py.endswith close content
    then Ok (safe_json_parse content)
    else Raise (ValueError "No valid JSON found in response") in
  match extract_json_from_text content with
  | Some json_str => if Py.truthy json_str then Ok (safe_json_parse json_str) else direct
  | None => direct
  end.

Definition is_list (v : json) : bool :=
  match v with JArr _ => true | _ => false end.

Definition is_dict (v : json) : bool :=
  match v with JObj _ => true | _ => false end.

(** [len(v)], read only where [v] is known to be a list. *)
Definition json_len (v : json) : Z :=
  match v with JArr l => Z.of_nat (length l) | _ => 0 end.

(** [not v or not isinstance(v, list) or len(v) != 5] *)
Definition not_five (v : json) : bool :=
  negb (Json.truthy v) || negb (is_list v) || negb (json_len v =? 5).

(** Validation of a [List[str]] field by the output models: a list whose
    items are all strings. *)
Fixpoint all_str (l : list json) : option (list string) :=
  match l with
  | [] => Some []
  | JStr s :: r => option_map (cons s) (all_str r)
  | _ :: _ => None
  end.

Definition validate_str_list (v : json) : result (list string) :=
  match v with
  | JArr l => match all_str l with
              | Some ss => Ok ss
              | None => Raise ValidationError
              end
  | _ => Raise ValidationError
  end.

Definition of_str_list (l : list string) : json := JArr (map JStr l).

Definition fallback_keywords : list string :=
  [ "advanced safety features"; "fuel efficient engines";
    "comfortable interior design"; "advanced technology integration";
    "reliable performance standards" ].

(** [generate_keywords(state)] *)
Definition generate_keywords (state : KeywordState) : M KeywordState :=
  try_except
    (content <- invoke (KeywordsPrompt (requirement_description state)) ;;
     let content := Py.strip content in
     keywords <- lift (parse_response "[" "]" content) ;;
     keywords <- (if not_five keywords
                  then logger (InvalidFormat Keywords) ;; ret (of_str_list fallback_keywords)
                  else ret keywords) ;;
     result <- lift (validate_str_list keywords) ;;
     ret (append_message (KeywordsMessage result)
            (set_keyword_output (Some result) state)))
    (fun e =>
       logger (StageError Keywords e) ;;
       ret (append_message (FallbackKeywordsMessage fallback_keywords)
              (set_keyword_output (Some fallback_keywords) state))).

(** [str(x)] for an optional string inside an f-string. *)
Definition fmt_opt (o : option string) : string :=
  match o with Some s => s | None => "None" end.

Definition fallback_requirements (selected : option string) : list string :=
  let k := fmt_opt selected in
  [ "The system shall implement " +:+ k +:+ " for optimal performance";
    "The design shall incorporate " +:+ k +:+ " for user satisfaction";
    "The product shall maintain " +:+ k +:+ " throughout its lifecycle";
    "The implementation shall ensure " +:+ k +:+ " meets industry standards";
    "The solution shall provide " +:+ k +:+ " with minimal maintenance" ].

(** [generate_requirements(state)] *)
Definition generate_requirements (state : KeywordState) : M KeywordState :=
  try_except
    (content <- invoke (RequirementsPrompt (selected_keyword state)
                          (requirement_description state)) ;;
     let content := Py.strip content in
     requirements <- lift (parse_response "[" "]" content) ;;
     requirements <- (if not_five requirements
                      then logger (InvalidFormat Requirements) ;;
                           ret (of_str_list (fallback_requirements (selected_keyword state)))
                      else ret requirements) ;;
     result <- lift (validate_str_list requirements) ;;
     ret (clear_regenerate_flag
            (append_message (RequirementsMessage (length result))
               (set_requirements_output (Some result) state))))
    (fun e =>
       logger (StageError Requirements e) ;;
       ret (set_requirements_output
              (Some (fallback_requirements (selected_keyword state))) state)).

(** The padding loop of [generate_fallback_risks]: [n] bounds the number of
    rounds, and five rounds are enough for any list. *)
Fixpoint pad_risks (n : nat) (fallback_risks : list string) : list string :=
  match n with
  | O => fallback_risks
  | S n' =>
      if (length fallback_risks <? 5)%nat
      then pad_risks n'
             (fallback_risks ++
                ["General implementation risk for requirement "
                   +:+ Py.str_of_nat (length fallback_risks + 1)])
      else fallback_risks
  end.

(** [generate_fallback_risks(requirements)] *)
Definition generate_fallback_risks (requirements : list string) : list string :=
  let fallback_risks :=
    map (fun req => "Potential challenges in implementing: "
                      +:+ Py.slice req 0 60 +:+ "...") requirements in
  take 5 (pad_risks 5 fallback_risks).

(** [state["requirements_output"].requirements] *)
Definition requirements_attr (state : KeywordState) : M (list string) :=
  match requirements_output state with
  | Some l => ret l
  | None => raise AttributeError
  end.

(** [state["risks_output"].Risks] *)
Definition risks_attr (state : KeywordState) : M (list string) :=
  match risks_output state with
  | Some l => ret l
  | None => raise AttributeError
  end.

(** [risks_data["Risks"] if risks_data and isinstance(risks_data, dict) and
    "Risks" in risks_data else []] *)
Definition risks_of_data (risks_data : json) : json :=
  match risks_data with
  | JObj members =>
      if Json.truthy risks_data then
        match Json.dict_get "Risks" members with
        | Some v => v
        | None => JArr []
        end
      else JArr []
  | _ => JArr []
  end.

(** [generate_risks(state)] *)
Definition generate_risks (state : KeywordState) : M KeywordState :=
  try_except
    (requirements <- requirements_attr state ;;
     content <- invoke (RisksPrompt requirements) ;;
     let content := Py.strip content in
     risks_data <- lift (parse_response "{" "}" content) ;;
     let risks := risks_of_data risks_data in
     risks <- (if not_five risks
               then logger (InvalidFormat Risks) ;;
                    ret (of_str_list (generate_fallback_risks requirements))
               else ret risks) ;;
     result <- lift (validate_str_list risks) ;;
     ret (clear_regenerate_flag
            (append_message (RisksMessage (length result))
               (set_risks_output (Some result) state))))
    (fun e =>
       logger (StageError Risks e) ;;
       requirements <- requirements_attr state ;;
       ret (set_risks_output (Some (generate_fallback_risks requirements)) state)).

(** [xs[index] if index < len(xs) else ""] *)
Definition item_or_empty (xs : list string) (index : Z) : M string :=
  if index <? Z.of_nat (length xs) then
    match Py.getitem xs index with
    | Some x => ret x
    | None => raise IndexError
    end
  else ret "".

(** [content.strip(dq).strip(sq).strip()] with the double and the single quote. *)
Definition clean_quotes (content : string) : string :=
  Py.strip (Py.strip_char "'" (Py.strip_char (ascii_of_nat 34) content)).

(** [generate_single_requirement_with_feedback(state, index, feedback)] *)
Definition generate_single_requirement_with_feedback
    (state : KeywordState) (index : Z) (feedback : string) : M string :=
  try_except
    (current_reqs <- requirements_attr state ;;
     current_requirement <- item_or_empty current_reqs index ;;
     content <- invoke (SingleRequirementPrompt (selected_keyword state)
                          (requirement_description state) current_requirement
                          feedback (index + 1)) ;;
     let content := Py.strip content in
     let cleaned_content := clean_quotes content in
     if Py.len cleaned_content <? 10
     then logger (TooShort RequirementItem index) ;; ret current_requirement
     else ret cleaned_content)
    (fun e =>
       logger (SingleError RequirementItem e) ;;
       current_reqs <- requirements_attr state ;;
       item_or_empty current_reqs index).

(** [generate_single_risk_with_feedback(state, index, feedback)] *)
Definition generate_single_risk_with_feedback
    (state : KeywordState) (index : Z) (feedback : string) : M string :=
  try_except
    (current_risks <- risks_attr state ;;
     current_risk <- item_or_empty current_risks index ;;
     current_reqs <- requirements_attr state ;;
     current_requirement <- item_or_empty current_reqs index ;;
     content <- invoke (SingleRiskPrompt current_requirement current_risk
                          feedback (index + 1)) ;;
     let content := Py.strip content in
     let cleaned_content := clean_quotes content in
     if Py.len cleaned_content <? 10
     then logger (TooShort RiskItem index) ;; ret current_risk
     else ret cleaned_content)
    (fun e =>
       logger (SingleError RiskItem e) ;;
       current_risks <- risks_attr state ;;
       item_or_empty current_risks index).

(** ** Route handlers ([api/routes/project]) *)

Record WorkflowResponse : Type := {
  r_thread_id : string;
  r_status : string;
  r_keywords : option (list string);
  r_selected_keyword : option string;
  r_requirements : option (list string);
  r_risks : option (list string);
  r_message : string
}.

Record FeedbackRequest : Type := {
  fb_thread_id : string;
  fb_indexes : list Z;
  fb_feedback : string;
  fb_regenerate_type : string
}.

Record SelectiveRegenerateRequest : Type := {
  sr_thread_id : string;
  sr_requirement_indexes : option (list Z);
  sr_risk_indexes : option (list Z)
}.

Record ItemUpdateRequest : Type := {
  iu_thread_id : string;
  iu_index : Z;
  iu_type : string;
  iu_new_content : string;
  iu_update_related : bool
}.

Record KeywordSelectionRequest : Type := {
  ks_thread_id : string;
  ks_keyword_index : Z
}.

(** [str(e)] *)
Definition exn_text (e : exn) : string :=
  match e with
  | GeneratorError => "generator unavailable"
  | ValueError msg => msg
  | ValidationError => "validation error"
  | AttributeError => "'NoneType' object has no attribute"
  | IndexError => "list index out of range"
  | KeyError => "key"
  | TypeError => "'NoneType' object is not iterable"
  | HTTPException _ detail => detail
  end.

(** The two except clauses every handler ends with: an [HTTPException] is
    raised again, anything else is logged and becomes a 500. *)
Definition route_guard {A} (m : M A) : M A :=
  try_except m
    (fun e => match e with
              | HTTPException _ _ => raise e
              | _ => logger (RouteError e) ;; raise (HTTPException 500 (exn_text e))
              end).

Definition getitem_exn {A} (xs : list A) (i : Z) : M A :=
  match Py.getitem xs i with Some x => ret x | None => raise IndexError end.

Definition setitem_exn {A} (xs : list A) (i : Z) (v : A) : M (list A) :=
  match Py.setitem xs i v with Some l => ret l | None => raise IndexError end.

(** One round of the first loop of the requirement branch of
    [regenerate_with_feedback]: the working copy and the list of updated
    indexes after the index [idx]. *)
Definition feedback_requirement_step (state : KeywordState) (feedback : string)
    (idx : Z) (current_requirements : list string)
    (updated_requirement_indexes : list Z) : M (list string * list Z) :=
  if idx <? Z.of_nat (length current_requirements) then
    try_except
      (updated_requirement <-
         generate_single_requirement_with_feedback state idx feedback ;;
       if Py.truthy updated_requirement then
         old <- getitem_exn current_requirements idx ;;
         if negb (String.eqb updated_requirement old) then
           l <- setitem_exn current_requirements idx updated_requirement ;;
           ret (l, updated_requirement_indexes ++ [idx])
         else
           logger (NoChange RequirementItem idx) ;;
           ret (current_requirements, updated_requirement_indexes)
       else
         logger (NoChange RequirementItem idx) ;;
         ret (current_requirements, updated_requirement_indexes))
      (fun e =>
         logger (UpdateError RequirementItem idx e) ;;
         ret (current_requirements, updated_requirement_indexes))
  else ret (current_requirements, updated_requirement_indexes).

(** [for idx in request.indexes] *)
Fixpoint feedback_requirements_loop (state : KeywordState) (feedback : string)
    (indexes : list Z) (current_requirements : list string)
    (updated_requirement_indexes : list Z) : M (list string * list Z) :=
  match indexes with
  | [] => ret (current_requirements, updated_requirement_indexes)
  | idx :: rest =>
      acc <- feedback_requirement_step state feedback idx current_requirements
               updated_requirement_indexes ;;
      feedback_requirements_loop state feedback rest (fst acc) (snd acc)
  end.

(** One round of its second loop: the risk regeneration for one updated
    index. *)
Definition cascade_risk_step (state : KeywordState) (current_requirements : list string)
    (req_idx : Z) (current_risks : list string) : M (list string) :=
  if req_idx <? Z.of_nat (length current_risks) then
    try_except
      (updated_requirement <- getitem_exn current_requirements req_idx ;;
       updated_risk <-
         generate_single_risk_with_feedback state req_idx
           ("Requirement was updated to: " +:+ updated_requirement) ;;
       if Py.truthy updated_risk then
         old <- getitem_exn current_risks req_idx ;;
         if negb (String.eqb updated_risk old) then
           setitem_exn current_risks req_idx updated_risk
         else logger (NoChange RiskItem req_idx) ;; ret current_risks
       else logger (NoChange RiskItem req_idx) ;; ret current_risks)
      (fun e => logger (UpdateError RiskItem req_idx e) ;; ret current_risks)
  else ret current_risks.

(** [for req_idx in updated_requirement_indexes] *)
Fixpoint cascade_risks_loop (state : KeywordState) (current_requirements : list string)
    (updated_requirement_indexes : list Z) (current_risks : list string)
    : M (list string) :=
  match updated_requirement_indexes with
  | [] => ret current_risks
  | req_idx :: rest =>
      current_risks <- cascade_risk_step state current_requirements req_idx current_risks ;;
      cascade_risks_loop state current_requirements rest current_risks
  end.

(** One round of the loop of its risk branch. *)
Definition feedback_risk_step (state : KeywordState) (feedback : string)
    (idx : Z) (current_risks : list string) (updated_count : nat)
    : M (list string * nat) :=
  if idx <? Z.of_nat (length current_risks) then
    try_except
      (updated_risk <- generate_single_risk_with_feedback state idx feedback ;;
       if Py.truthy updated_risk then
         old <- getitem_exn current_risks idx ;;
         if negb (String.eqb updated_risk old) then
           l <- setitem_exn current_risks idx updated_risk ;;
           ret (l, S updated_count)
         else logger (NoChange RiskItem idx) ;; ret (current_risks, updated_count)
       else logger (NoChange RiskItem idx) ;; ret (current_risks, updated_count))
      (fun e =>
         logger (UpdateError RiskItem idx e) ;;
         ret (current_risks, updated_count))
  else ret (current_risks, updated_count).

(** [for idx in request.indexes] in the risk branch. *)
Fixpoint feedback_risks_loop (state : KeywordState) (feedback : string)
    (indexes : list Z) (current_risks : list string) (updated_count : nat)
    : M (list string * nat) :=
  match indexes with
  | [] => ret (current_risks, updated_count)
  | idx :: rest =>
      acc <- feedback_risk_step state feedback idx current_risks updated_count ;;
      feedback_risks_loop state feedback rest (fst acc) (snd acc)
  end.

Definition regenerated_response (thread_id : string) (state : KeywordState)
    (message : string) : WorkflowResponse :=
  {| r_thread_id := thread_id; r_status := "regenerated"; r_keywords := None;
     r_selected_keyword := selected_keyword state;
     r_requirements := requirements_output state;
     r_risks := risks_output state; r_message := message |}.

(** Its first lines: a session without a selected keyword gets the thread
    identifier as keyword. *)
Definition ensure_keyword (thread_id : string) (state : KeywordState) : M KeywordState :=
  if negb (truthy_opt (selected_keyword state)) then
    logger (NoKeywordSelected thread_id) ;;
    let state := set_selected_keyword (Some thread_id) state in
    store_state thread_id state ;; ret state
  else ret state.

(** The block under [if request.regenerate_type == "requirement"]. *)
Definition feedback_requirement_branch (request : FeedbackRequest) (thread_id : string)
    (state : KeywordState) : M KeywordState :=
  match requirements_output state with
  | None => raise (HTTPException 400 "No requirements available")
  | Some current_requirements =>
      let current_risks :=
        match risks_output state with Some l => l | None => [] end in
      acc <- feedback_requirements_loop state (fb_feedback request)
               (fb_indexes request) current_requirements [] ;;
      let current_requirements := fst acc in
      let updated_requirement_indexes := snd acc in
      let state := set_requirements_output (Some current_requirements) state in
      store_state thread_id state ;;
      match updated_requirement_indexes with
      | [] => ret state
      | _ :: _ =>
          current_risks <- cascade_risks_loop state current_requirements
                             updated_requirement_indexes current_risks ;;
          _ <- risks_attr state ;;
          let state := set_risks_output (Some current_risks) state in
          store_state thread_id state ;; ret state
      end
  end.

(** The block under [elif request.regenerate_type == "risks"]. *)
Definition feedback_risk_branch (request : FeedbackRequest) (thread_id : string)
    (state : KeywordState) : M KeywordState :=
  match risks_output state with
  | None => raise (HTTPException 400 "No risks available")
  | Some current_risks =>
      acc <- feedback_risks_loop state (fb_feedback request)
               (fb_indexes request) current_risks 0%nat ;;
      let state := set_risks_output (Some (fst acc)) state in
      store_state thread_id state ;; ret state
  end.

(** [POST /regenerate-with-feedback] *)
Definition regenerate_with_feedback (request : FeedbackRequest) : M WorkflowResponse :=
  route_guard
    (let thread_id := fb_thread_id request in
     found <- lookup_state thread_id ;;
     match found with
     | None => raise (HTTPException 404 "Thread not found")
     | Some state =>
         state <- ensure_keyword thread_id state ;;
         state <-
           (if String.eqb (fb_regenerate_type request) "requirement" then
              feedback_requirement_branch request thread_id state
            else if String.eqb (fb_regenerate_type request) "risks" then
              feedback_risk_branch request thread_id state
            else ret state) ;;
         store_state thread_id state ;;
         _ <- requirements_attr state ;;
         _ <- risks_attr state ;;
         ret (regenerated_response thread_id state
                ("Regenerated " +:+ Py.str_of_nat (length (fb_indexes request)) +:+ " "
                   +:+ fb_regenerate_type request +:+ " with feedback"))
     end).

(** The replacement loop of the two index-scoped routes. *)
Fixpoint replace_selected (indexes : list Z) (current new : list string)
    : M (list string) :=
  match indexes with
  | [] => ret current
  | idx :: rest =>
      current <- (if (idx <? Z.of_nat (length current)) && (idx <? Z.of_nat (length new))
                  then v <- getitem_exn new idx ;; setitem_exn current idx v
                  else ret current) ;;
      replace_selected rest current new
  end.

(** [for idx in indexes] over an optional list. *)
Definition iterable (indexes : option (list Z)) : M (list Z) :=
  match indexes with Some l => ret l | None => raise TypeError end.

(** [POST /regenerate-requirements] *)
Definition regenerate_requirements (request : SelectiveRegenerateRequest)
    : M WorkflowResponse :=
  route_guard
    (let thread_id := sr_thread_id request in
     found <- lookup_state thread_id ;;
     match found with
     | None => raise (HTTPException 404 "Thread not found")
     | Some state =>
         if negb (truthy_opt (selected_keyword state)) then
           raise (HTTPException 400 "No keyword selected")
         else
           match requirements_output state with
           | None => raise (HTTPException 400 "No requirements available")
           | Some current_requirements =>
               state <- generate_requirements state ;;
               store_state thread_id state ;;
               new_requirements <- requirements_attr state ;;
               indexes <- iterable (sr_requirement_indexes request) ;;
               current_requirements <-
                 replace_selected indexes current_requirements new_requirements ;;
               let state := set_requirements_output (Some current_requirements) state in
               store_state thread_id state ;;
               ret (regenerated_response thread_id state
                      ("Regenerated " +:+ Py.str_of_nat (length indexes)
                         +:+ " requirements"))
           end
     end).

(** [POST /regenerate-risks] *)
Definition regenerate_risks (request : SelectiveRegenerateRequest)
    : M WorkflowResponse :=
  route_guard
    (let thread_id := sr_thread_id request in
     found <- lookup_state thread_id ;;
     match found with
     | None => raise (HTTPException 404 "Thread not found")
     | Some state =>
         if negb (truthy_opt (selected_keyword state)) then
           raise (HTTPException 400 "No keyword selected")
         else
           match risks_output state with
           | None => raise (HTTPException 400 "No risks available")
           | Some current_risks =>
               state <- generate_risks state ;;
               store_state thread_id state ;;
               new_risks <- risks_attr state ;;
               indexes <- iterable (sr_risk_indexes request) ;;
               current_risks <- replace_selected indexes current_risks new_risks ;;
               let state := set_risks_output (Some current_risks) state in
               store_state thread_id state ;;
               ret (regenerated_response thread_id state
                      ("Regenerated " +:+ Py.str_of_nat (length indexes) +:+ " risks"))
           end
     end).

(** [str(i)] for an integer. *)
Definition str_of_Z (i : Z) : string :=
  if i <? 0 then "-" +:+ Py.str_of_nat (Z.to_nat (- i)) else Py.str_of_nat (Z.to_nat i).

(** [POST /update-item] *)
Definition update_item (request : ItemUpdateRequest) : M WorkflowResponse :=
  route_guard
    (let thread_id := iu_thread_id request in
     found <- lookup_state thread_id ;;
     match found with
     | None => raise (HTTPException 404 "Thread not found")
     | Some state =>
         state <-
           (if String.eqb (iu_type request) "requirement" then
              match requirements_output state with
              | None => raise (HTTPException 400 "Invalid requirement index")
              | Some requirements =>
                  if Z.of_nat (length requirements) <=? iu_index request then
                    raise (HTTPException 400 "Invalid requirement index")
                  else
                    l <- setitem_exn requirements (iu_index request)
                           (iu_new_content request) ;;
                    let state := set_requirements_output (Some l) state in
                    store_state thread_id state ;;
                    if iu_update_related request && bool_decide (is_Some (risks_output state))
                    then
                      state <- generate_risks state ;;
                      store_state thread_id state ;; ret state
                    else ret state
              end
            else if String.eqb (iu_type request) "risk" then
              match risks_output state with
              | None => raise (HTTPException 400 "Invalid risk index")
              | Some risks =>
                  if Z.of_nat (length risks) <=? iu_index request then
                    raise (HTTPException 400 "Invalid risk index")
                  else
                    l <- setitem_exn risks (iu_index request) (iu_new_content request) ;;
                    let state := set_risks_output (Some l) state in
                    store_state thread_id state ;; ret state
              end
            else ret state) ;;
         store_state thread_id state ;;
         ret {| r_thread_id := thread_id; r_status := "updated"; r_keywords := None;
                r_selected_keyword := selected_keyword state;
                r_requirements := requirements_output state;
                r_risks := risks_output state;
                r_message := "Updated " +:+ iu_type request +:+ " at index "
                               +:+ str_of_Z (iu_index request) |}
     end).

(** [POST /select-keyword] *)
Definition select_keyword (request : KeywordSelectionRequest) : M WorkflowResponse :=
  route_guard
    (let thread_id := ks_thread_id request in
     found <- lookup_state thread_id ;;
     match found with
     | None => raise (HTTPException 404 "Thread not found")
     | Some state =>
         match keyword_output state with
         | None => raise (HTTPException 400 "No keywords available")
         | Some keywords =>
             if Z.of_nat (length keywords) <=? ks_keyword_index request then
               raise (HTTPException 400 "Invalid keyword index")
             else
               selected_keyword <- getitem_exn keywords (ks_keyword_index request) ;;
               let state := set_selected_keyword (Some selected_keyword) state in
               store_state thread_id state ;;
               state <- generate_requirements state ;;
               store_state thread_id state ;;
               outcome <-
                 try_except
                   (state <- generate_risks state ;; ret (state, true))
                   (fun risk_error =>
                      logger (RiskGenerationFailed risk_error) ;;
                      ret (set_risks_output
                             (Some (replicate 5 "Risk generation failed")) state,
                           false)) ;;
               let state := fst outcome in
               let risks_available : bool := snd outcome in
               store_state thread_id state ;;
               ret {| r_thread_id := thread_id; r_status := "generated";
                      r_keywords := None;
                      r_selected_keyword := Some selected_keyword;
                      r_requirements := requirements_output state;
                      r_risks := risks_output state;
                      r_message := if risks_available
                                   then "Requirements and risks generated"
                                   else "Requirements generated (risks failed)" |}
         end
     end).

(** ** Cypher statements of [save_to_neo4j] ([tools/tools.py]) *)

Definition name_is (name : string) (p : ProjectNode) : bool :=
  String.eqb (p_name p) name.

(** [{project: $project_name, index: $idx}] *)
Definition key_is (name : string) (idx : Z) (n : ItemNode) : bool :=
  String.eqb (n_project n) name && (n_index n =? idx).

(** [{description: $desc, project: $project_name, index: $idx}] *)
Definition node_is (name : string) (idx : Z) (desc : string) (n : ItemNode) : bool :=
  key_is name idx n && String.eqb (n_description n) desc.

(** [MATCH (p:Project {name: $project_name})] *)
Definition match_projects (name : string) (g : Graph) : list nat :=
  map p_id (List.filter (name_is name) (project_nodes g)).

Definition edge_eqb (e f : nat * nat) : bool :=
  (fst e =? fst f)%nat && (snd e =? snd f)%nat.

(** [MERGE (a)-[:T]->(b)] for bound [a] and [b]. *)
Definition merge_edge (es : list (nat * nat)) (e : nat * nat) : list (nat * nat) :=
  if existsb (edge_eqb e) es then es else es ++ [e].

Definition merge_edges (es new : list (nat * nat)) : list (nat * nat) :=
  fold_left merge_edge new es.

(** [MERGE (p:Project {name: $project_name}) SET p.keyword = $keyword] *)
Definition merge_project (name keyword : string) (g : Graph) : unit * Graph :=
  if existsb (name_is name) (project_nodes g) then
    (tt, {| next_id := next_id g;
            project_nodes :=
              map (fun p => if name_is name p
                            then {| p_id := p_id p; p_name := p_name p;
                                    p_keyword := Some keyword |}
                            else p) (project_nodes g);
            requirement_nodes := requirement_nodes g; risk_nodes := risk_nodes g;
            has_requirement := has_requirement g; has_risk := has_risk g |})
  else
    (tt, {| next_id := S (next_id g);
            project_nodes :=
              project_nodes g ++
                [{| p_id := next_id g; p_name := name; p_keyword := Some keyword |}];
            requirement_nodes := requirement_nodes g; risk_nodes := risk_nodes g;
            has_requirement := has_requirement g; has_risk := has_risk g |}).

(** [MATCH (p:Project {name: $project_name})
     MERGE (r:Requirement {description: $desc, project: $project_name, index: $idx})
     MERGE (p)-[:HAS_REQUIREMENT]->(r)] *)
Definition merge_requirement (name desc : string) (idx : Z) (g : Graph) : unit * Graph :=
  match match_projects name g with
  | [] => (tt, g)
  | ps =>
      match map n_id (List.filter (node_is name idx desc) (requirement_nodes g)) with
      | [] =>
          (tt, {| next_id := S (next_id g);
                  project_nodes := project_nodes g;
                  requirement_nodes :=
                    requirement_nodes g ++
                      [{| n_id := next_id g; n_description := desc;
                          n_project := name; n_index := idx |}];
                  risk_nodes := risk_nodes g;
                  has_requirement :=
                    merge_edges (has_requirement g) (list_prod ps [next_id g]);
                  has_risk := has_risk g |})
      | rs =>
          (tt, {| next_id := next_id g;
                  project_nodes := project_nodes g;
                  requirement_nodes := requirement_nodes g;
                  risk_nodes := risk_nodes g;
                  has_requirement := merge_edges (has_requirement g) (list_prod ps rs);
                  has_risk := has_risk g |})
      end
  end.

(** [MATCH (p:Project {name: $project_name})
     MATCH (r:Requirement {project: $project_name, index: $idx})
     MERGE (rk:Risk {description: $desc, project: $project_name, index: $idx})
     MERGE (r)-[:HAS_RISK]->(rk)] *)
Definition merge_risk (name desc : string) (idx : Z) (g : Graph) : unit * Graph :=
  match match_projects name g with
  | [] => (tt, g)
  | _ :: _ =>
      match map n_id (List.filter (key_is name idx) (requirement_nodes g)) with
      | [] => (tt, g)
      | rs =>
          match map n_id (List.filter (node_is name idx desc) (risk_nodes g)) with
          | [] =>
              (tt, {| next_id := S (next_id g);
                      project_nodes := project_nodes g;
                      requirement_nodes := requirement_nodes g;
                      risk_nodes :=
                        risk_nodes g ++
                          [{| n_id := next_id g; n_description := desc;
                              n_project := name; n_index := idx |}];
                      has_requirement := has_requirement g;
                      has_risk := merge_edges (has_risk g) (list_prod rs [next_id g]) |})
          | ks =>
              (tt, {| next_id := next_id g;
                      project_nodes := project_nodes g;
                      requirement_nodes := requirement_nodes g;
                      risk_nodes := risk_nodes g;
                      has_requirement := has_requirement g;
                      has_risk := merge_edges (has_risk g) (list_prod rs ks) |})
          end
      end
  end.

(** [for idx, req in enumerate(requirements, 1): graph_db.query(...)] *)
Fixpoint save_requirements (name : string) (idx : Z) (requirements : list string) : M unit :=
  match requirements with
  | [] => ret tt
  | req :: rest =>
      query (merge_requirement name req idx) ;;
      save_requirements name (idx + 1) rest
  end.

(** [for idx, risk in enumerate(risks, 1): graph_db.query(...)] *)
Fixpoint save_risks (name : string) (idx : Z) (risks : list string) : M unit :=
  match risks with
  | [] => ret tt
  | risk :: rest =>
      query (merge_risk name risk idx) ;;
      save_risks name (idx + 1) rest
  end.

(** The text the tool returns, without its leading check mark, which lies
    outside the alphabet of [string]. *)
Definition saved_text : string := "Successfully saved to Neo4j".

(** [save_to_neo4j(requirements, risks, project_name, keyword)]; a failure of
    the database itself, which the tool turns into an error text, is not part
    of the model. *)
Definition save_to_neo4j (requirements risks : list string)
    (project_name keyword : string) : M string :=
  query (merge_project project_name keyword) ;;
  save_requirements project_name 1 requirements ;;
  save_risks project_name 1 risks ;;
  ret saved_text.

(** [call_save_tool(state)]: the tool validates its arguments, so a missing
    keyword is rejected before [save_to_neo4j] runs; whatever is raised is
    logged and raised again. *)
Definition call_save_tool (state : KeywordState) : M KeywordState :=
  try_except
    (requirements <- requirements_attr state ;;
     risks <- risks_attr state ;;
     keyword <- match selected_keyword state with
                | Some k => ret k
                | None => raise ValidationError
                end ;;
     text <- save_to_neo4j requirements risks (project_name state) keyword ;;
     ret (append_message (SavedMessage text) state))
    (fun e => logger (SaveError e) ;; raise e).

Record SaveResponse : Type := {
  sv_thread_id : string;
  sv_status : string;
  sv_message : string
}.

(** [POST /save] *)
Definition save_project (thread_id : string) : M SaveResponse :=
  route_guard
    (found <- lookup_state thread_id ;;
     match found with
     | None => raise (HTTPException 404 "Thread not found")
     | Some state =>
         if negb (bool_decide (is_Some (requirements_output state)))
            || negb (bool_decide (is_Some (risks_output state)))
         then raise (HTTPException 400 "Generate requirements/risks first")
         else
           state <- call_save_tool state ;;
           store_state thread_id state ;;
           ret {| sv_thread_id := thread_id; sv_status := "saved";
                  sv_message := "Saved to Neo4j successfully" |}
     end).

(** ** Loading a project back ([neo4j_operations.py]) *)

(** One record of the loading query. *)
Record Row : Type := {
  req_index : Z;
  requirement : string;
  risk_index : option Z;
  risk : option string
}.

(** [OPTIONAL MATCH (r)-[:HAS_RISK]->(rk:Risk)] for a bound [r]. *)
Definition risks_of (g : Graph) (r : ItemNode) : list ItemNode :=
  flat_map (fun e : nat * nat =>
              if (fst e =? n_id r)%nat
              then List.filter (fun k => (n_id k =? snd e)%nat) (risk_nodes g)
              else [])
           (has_risk g).

Definition rows_of (g : Graph) (r : ItemNode) : list Row :=
  match risks_of g r with
  | [] => [{| req_index := n_index r; requirement := n_description r;
              risk_index := None; risk := None |}]
  | ks => map (fun k => {| req_index := n_index r; requirement := n_description r;
                           risk_index := Some (n_index k);
                           risk := Some (n_description k) |}) ks
  end.

(** [MATCH (p:Project {name: $name})-[:HAS_REQUIREMENT]->(r:Requirement)] *)
Definition requirements_of (g : Graph) (name : string) : list ItemNode :=
  flat_map (fun p =>
              flat_map (fun e : nat * nat =>
                          if (fst e =? p)%nat
                          then List.filter (fun r => (n_id r =? snd e)%nat)
                                 (requirement_nodes g)
                          else [])
                       (has_requirement g))
           (match_projects name g).

(** [ORDER BY req_index, risk_index], ascending with [null] last. *)
Definition row_leb (a b : Row) : bool :=
  if req_index a <? req_index b then true
  else if req_index b <? req_index a then false
  else match risk_index a, risk_index b with
       | Some x, Some y => x <=? y
       | Some _, None => true
       | None, Some _ => false
       | None, None => true
       end.

Fixpoint insert_row (r : Row) (l : list Row) : list Row :=
  match l with
  | [] => [r]
  | x :: l' => if row_leb r x then r :: l else x :: insert_row r l'
  end.

(** The order among records with equal keys is the database's choice; here
    they keep the order in which they were matched. *)
Definition order_rows (l : list Row) : list Row :=
  fold_right insert_row [] l.

(** The loading query of [load_project_from_neo4j]. *)
Definition load_query (name : string) (g : Graph) : list Row * Graph :=
  (order_rows (flat_map (rows_of g) (requirements_of g name)), g).

(** [MATCH (p:Project {name: $name}) RETURN p.keyword AS keyword] *)
Definition keyword_query (name : string) (g : Graph) : list (option string) * Graph :=
  (map p_keyword (List.filter (name_is name) (project_nodes g)), g).

Record RiskWithRequirement : Type := {
  rw_description : string;
  rw_requirement_index : Z;
  rw_requirement : string
}.

(** The dictionary [requirements] of the loader, in insertion order. *)
Fixpoint dict_lookup (k : Z) (d : list (Z * string)) : option string :=
  match d with
  | [] => None
  | (k', v) :: r => if k' =? k then Some v else dict_lookup k r
  end.

(** The loop over the records. *)
Fixpoint collect_rows (rows : list Row) (requirements : list (Z * string))
    (risks : list RiskWithRequirement) : list (Z * string) * list RiskWithRequirement :=
  match rows with
  | [] => (requirements, risks)
  | record :: rest =>
      let requirements :=
        match dict_lookup (req_index record) requirements with
        | Some _ => requirements
        | None => requirements ++ [(req_index record, requirement record)]
        end in
      let risks :=
        match risk record with
        | Some risk_desc =>
            if Py.truthy risk_desc then
              risks ++ [{| rw_description := risk_desc;
                           rw_requirement_index := req_index record;
                           rw_requirement :=
                             default "" (dict_lookup (req_index record) requirements) |}]
            else risks
        | None => risks
        end in
      collect_rows rest requirements risks
  end.

Fixpoint insert_key (k : Z) (l : list Z) : list Z :=
  match l with
  | [] => [k]
  | x :: l' => if k <=? x then k :: l else x :: insert_key k l'
  end.

(** [sorted(requirements.keys())] *)
Definition sorted_keys (d : list (Z * string)) : list Z :=
  fold_right insert_key [] (map fst d).

Record LoadResponse : Type := {
  ld_thread_id : string;
  ld_status : string;
  ld_selected_keyword : option string;
  ld_requirements : list string;
  ld_risks : list string;
  ld_risks_with_requirements : list RiskWithRequirement
}.

(** [POST /load-from-neo4j] *)
Definition load_project_from_neo4j (project_name : string) : M LoadResponse :=
  route_guard
    (project_result <- query (keyword_query project_name) ;;
     let keyword :=
       match project_result with
       | k :: _ => k
       | [] => Some project_name
       end in
     result <- query (load_query project_name) ;;
     match result with
     | [] => raise (HTTPException 404 "Project not found in Neo4j")
     | _ :: _ =>
         let '(requirements, risks) := collect_rows result [] [] in
         let state :=
           {| requirement_description := "Loaded project: " +:+ project_name;
              messages := [];
              keyword_output := None;
              selected_keyword := keyword;
              requirements_output :=
                Some (map (fun i => default "" (dict_lookup i requirements))
                        (sorted_keys requirements));
              risks_output := Some (map rw_description risks);
              project_name := project_name;
              regenerate_flag := None |} in
         store_state project_name state ;;
         requirements <- requirements_attr state ;;
         ret {| ld_thread_id := project_name; ld_status := "loaded";
                ld_selected_keyword := keyword;
                ld_requirements := requirements;
                ld_risks := map rw_description risks;
                ld_risks_with_requirements := risks |}
     end).

(** ** Specification vocabulary *)

(** Texts below are written with a single quote where the text fed to the
    program has a double quote. *)
Fixpoint dq (s : string) : string :=
  match s with
  | EmptyString => EmptyString
  | String c r => String (if Ascii.eqb c "'" then ascii_of_nat 34 else c) (dq r)
  end.

(** The expected shape of a stage's output. *)
Inductive shape : Type := ArrayShape | ObjectShape.

Definition shape_open (sh : shape) : ascii :=
  match sh with ArrayShape => "[" | ObjectShape => "{" end.

Definition shape_close (sh : shape) : ascii :=
  match sh with ArrayShape => "]" | ObjectShape => "}" end.

(** [s] is the part of [text] from its first [o] to its last [c]. *)
Definition outer_slice (o c : ascii) (text s : string) : Prop :=
  exists pre body post,
    text = pre +:+ s +:+ post /\ s = String o (body +:+ String c "") /\
    Py.mem o pre = false /\ Py.mem c post = false.

(** The slicing rule as the specification words it: the slice runs from the
    first opening bracket of the expected shape to the last closing bracket of
    that shape. *)
Definition slices_by_expected_shape : Prop :=
  forall (sh : shape) (text s : string),
    Py.contains fence_open text = false ->
    outer_slice (shape_open sh) (shape_close sh) text s ->
    extract_json_from_text text = Some s.

Definition keywords_example : string :=
  dq "Sure! Here are the keywords: ['a b c','d e f','g h i','j k l','m n o'] Hope this helps!".

(** The list a stage accepts from a parsed value: exactly five strings. *)
Definition five_strings (v : json) : option (list string) :=
  match v with
  | JArr l => if (length l =? 5)%nat then all_str l else None
  | _ => None
  end.

(** What the keyword and the requirement stage accept from a response. *)
Definition accepted_list (content : string) : option (list string) :=
  match parse_response "[" "]" (Py.strip content) with
  | Ok v => five_strings v
  | Raise _ => None
  end.

(** What the risk stage accepts from a response. *)
Definition accepted_risks (content : string) : option (list string) :=
  match parse_response "{" "}" (Py.strip content) with
  | Ok (JObj members) =>
      match Json.dict_get "Risks" members with
      | Some v => five_strings v
      | None => None
      end
  | _ => None
  end.

(** A step that sends the one prompt [p], appends the records [lg] to the log
    and leaves the rest of the world alone. *)
Definition one_call (p : prompt) (lg : list log_record) (w w' : World) : Prop :=
  llm w' = llm w /\ calls w' = calls w ++ [p] /\ log w' = log w ++ lg /\
  workflow_states w' = workflow_states w /\ graph_db w' = graph_db w.

(** The fields of the state a stage leaves alone, besides its own output, the
    messages and the regeneration flag. *)
Definition same_inputs (st st' : KeywordState) : Prop :=
  requirement_description st' = requirement_description st /\
  selected_keyword st' = selected_keyword st /\
  project_name st' = project_name st.

(** C2 as stated: a failure of the call itself reaches the caller of the two
    whole-stage generators as an error. *)
Definition unavailability_propagates : Prop :=
  forall (state : KeywordState) (reqs : list string) (w : World),
    requirements_output state = Some reqs ->
    llm w (length (calls w)) = Fails ->
    (exists w', generate_requirements state w = (Raise GeneratorError, w')) /\
    (exists w', generate_risks state w = (Raise GeneratorError, w')).

(** C5's flag as stated: the result of a stage tells a degraded outcome from
    an accepted one. *)
Definition degradation_flagged_in_result : Prop :=
  exists flag : KeywordState -> bool,
    forall (state : KeywordState) (w : World) (content : string) st' w',
      llm w (length (calls w)) = Returns content ->
      generate_requirements state w = (Ok st', w') ->
      (flag st' = true <-> accepted_list content = None).

Definition empty_graph : Graph :=
  {| next_id := 0; project_nodes := []; requirement_nodes := [];
     risk_nodes := []; has_requirement := []; has_risk := [] |}.

(** A world with nothing stored, whose generator behaves as [oracle]. *)
Definition fresh_world (oracle : nat -> llm_outcome) : World :=
  {| llm := oracle; calls := []; log := []; workflow_states := ∅;
     graph_db := empty_graph |}.

(** A session after keyword selection, before any requirement exists. *)
Definition keyword_selected_state : KeywordState :=
  {| requirement_description := "A family car";
     messages := [];
     keyword_output := Some fallback_keywords;
     selected_keyword := Some "k";
     requirements_output := None;
     risks_output := None;
     project_name := "demo";
     regenerate_flag := None |}.

(** A session with five requirements and five aligned risks. *)
Definition five_by_five_state : KeywordState :=
  {| requirement_description := "A family car";
     messages := [];
     keyword_output := Some fallback_keywords;
     selected_keyword := Some "k";
     requirements_output := Some ["req zero"; "req one"; "req two"; "req three"; "req four"];
     risks_output := Some ["risk zero"; "risk one"; "risk two"; "risk three"; "risk four"];
     project_name := "demo";
     regenerate_flag := None |}.

(** The templated requirements for the keyword [k], as a response. *)
Definition templated_response : string :=
  dq ("['The system shall implement k for optimal performance',"
      +:+ "'The design shall incorporate k for user satisfaction',"
      +:+ "'The product shall maintain k throughout its lifecycle',"
      +:+ "'The implementation shall ensure k meets industry standards',"
      +:+ "'The solution shall provide k with minimal maintenance']").

(** The stored session of the examples. *)
Definition demo_world (oracle : nat -> llm_outcome) : World :=
  put_state "demo" five_by_five_state (fresh_world oracle).

(** A well-formed risk response: five new risks under the key the stage reads. *)
Definition new_risks_response : string :=
  dq ("{'Risks': ['new risk zero', 'new risk one', 'new risk two',"
      +:+ " 'new risk three', 'new risk four']}").

(** An edit of requirement 0 with the cascade requested. *)
Definition edit_request : ItemUpdateRequest :=
  {| iu_thread_id := "demo"; iu_index := 0; iu_type := "requirement";
     iu_new_content := "edited requirement"; iu_update_related := true |}.

(** The position a Python index denotes in a list of length [n]. *)
Definition position_of (n i : Z) : Z := if i <? 0 then i + n else i.

(** An index no item of a list of length [n] answers to. *)
Definition out_of_range (n idx : Z) : Prop := n <= idx \/ idx < - n.

(** A step that calls nothing and stores nothing. *)
Definition quiet (w w' : World) : Prop :=
  llm w' = llm w /\ calls w' = calls w /\
  workflow_states w' = workflow_states w /\ graph_db w' = graph_db w.

(** A feedback request for requirement 7. *)
Definition seven_request : FeedbackRequest :=
  {| fb_thread_id := "demo"; fb_indexes := [7]; fb_feedback := "make it testable";
     fb_regenerate_type := "requirement" |}.

(** C7 as stated: a feedback regeneration that names an index outside
    [0 <= index < len] is rejected as a caller error. *)
Definition out_of_range_rejected : Prop :=
  forall (request : FeedbackRequest) (w : World) (state : KeywordState)
         (reqs risks : list string),
    workflow_states w !! fb_thread_id request = Some state ->
    requirements_output state = Some reqs ->
    risks_output state = Some risks ->
    fb_regenerate_type request = "requirement" ->
    (exists idx, idx ∈ fb_indexes request /\ ~ (0 <= idx < Z.of_nat (length reqs))) ->
    exists d w', regenerate_with_feedback request w = (Raise (HTTPException 400 d), w').

(** A call that regenerates the risk at position [p] of a list of length [n]:
    the prompt carries the index plus one. *)
Definition is_risk_attempt_at (n p : Z) (pr : prompt) : bool :=
  match pr with
  | SingleRiskPrompt _ _ _ k => position_of n (k - 1) =? p
  | _ => false
  end.

(** The number of risk regeneration attempts at position [p] in a trace. *)
Definition risk_attempts (n p : Z) (trace : list prompt) : nat :=
  length (List.filter (is_risk_attempt_at n p) trace).

(** C4 as stated: after a feedback regeneration of requirements on aligned
    lists of five, a position whose requirement changed has seen exactly one
    risk regeneration attempt, and a position whose requirement did not change
    has seen none. *)
Definition one_risk_attempt_per_changed_requirement : Prop :=
  forall (request : FeedbackRequest) (w : World) (state : KeywordState)
         (reqs risks : list string) resp w' reqs',
    workflow_states w !! fb_thread_id request = Some state ->
    requirements_output state = Some reqs ->
    risks_output state = Some risks ->
    length reqs = 5%nat -> length risks = 5%nat ->
    fb_regenerate_type request = "requirement" ->
    regenerate_with_feedback request w = (Ok resp, w') ->
    r_requirements resp = Some reqs' ->
    forall p : nat, (p < 5)%nat ->
      risk_attempts 5 (Z.of_nat p) (drop (length (calls w)) (calls w'))
      = if decide (reqs' !! p = reqs !! p) then 0%nat else 1%nat.

(** A feedback request that names requirement 1 twice. *)
Definition twice_request : FeedbackRequest :=
  {| fb_thread_id := "demo"; fb_indexes := [1; 1]; fb_feedback := "make it testable";
     fb_regenerate_type := "requirement" |}.

(** A generator that answers each call with a different text. *)
Definition varying_oracle (k : nat) : llm_outcome :=
  Returns ("The system shall satisfy variant " +:+ Py.str_of_nat k).

(** A prompt that is no risk regeneration. *)
Definition not_risk_prompt (pr : prompt) : Prop :=
  forall n p, is_risk_attempt_at n p pr = false.

(** The position of an index as a list position. *)
Definition pos_nat (n idx : Z) : nat := Z.to_nat (position_of n idx).

(** An index some item of a list of length [n] answers to. *)
Definition in_range (n idx : Z) : Prop := - n <= idx < n.

(** The number of indexes of a list that denote position [p]. *)
Definition hits (n p : Z) (indexes : list Z) : nat :=
  length (List.filter (fun idx => position_of n idx =? p) indexes).

(** A feedback request for requirement 1. *)
Definition once_request : FeedbackRequest :=
  {| fb_thread_id := "demo"; fb_indexes := [1]; fb_feedback := "make it testable";
     fb_regenerate_type := "requirement" |}.

(** The [:Requirement] nodes that carry one natural key. *)
Definition requirements_at (name : string) (idx : Z) (g : Graph) : list ItemNode :=
  List.filter (key_is name idx) (requirement_nodes g).

(** The [:Risk] nodes that carry one natural key. *)
Definition risks_at (name : string) (idx : Z) (g : Graph) : list ItemNode :=
  List.filter (key_is name idx) (risk_nodes g).

(** The session of the examples after requirement 1 was regenerated. *)
Definition regenerated_state : KeywordState :=
  set_requirements_output
    (Some ["req zero"; "req one, reworded"; "req two"; "req three"; "req four"])
    five_by_five_state.

(** Identities are allocated below [next_id], and relationships join allocated
    nodes. *)
Definition graph_wf (g : Graph) : Prop :=
  Forall (fun p => (p_id p < next_id g)%nat) (project_nodes g) /\
  Forall (fun r => (n_id r < next_id g)%nat) (requirement_nodes g) /\
  Forall (fun k => (n_id k < next_id g)%nat) (risk_nodes g) /\
  Forall (fun e => (fst e < next_id g)%nat /\ (snd e < next_id g)%nat) (has_requirement g) /\
  Forall (fun e => (fst e < next_id g)%nat /\ (snd e < next_id g)%nat) (has_risk g).

(** The graph holds no node of the project [name]. *)
Definition fresh_for (name : string) (g : Graph) : Prop :=
  Forall (fun p => name_is name p = false) (project_nodes g) /\
  Forall (fun r => String.eqb (n_project r) name = false) (requirement_nodes g) /\
  Forall (fun k => String.eqb (n_project k) name = false) (risk_nodes g).

(** C6 as stated: saving a session with five requirements and five aligned
    risks into a graph without nodes of the project, then loading the project,
    gives both lists back. *)
Definition save_load_roundtrip : Prop :=
  forall (w : World) (state : KeywordState) (reqs risks : list string) (keyword : string),
    graph_wf (graph_db w) ->
    fresh_for (project_name state) (graph_db w) ->
    requirements_output state = Some reqs ->
    risks_output state = Some risks ->
    selected_keyword state = Some keyword ->
    length reqs = 5%nat -> length risks = 5%nat ->
    exists st' w1 resp w2,
      call_save_tool state w = (Ok st', w1) /\
      load_project_from_neo4j (project_name state) w1 = (Ok resp, w2) /\
      ld_requirements resp = reqs /\ ld_risks resp = risks.

(** The session of the examples with an empty risk at position 0. *)
Definition empty_risk_state : KeywordState :=
  set_risks_output (Some [""; "risk one"; "risk two"; "risk three"; "risk four"])
    five_by_five_state.

(** The nodes one save loop creates: consecutive identities from [id] and
    consecutive indexes from [idx]. *)
Fixpoint new_items (name : string) (id : nat) (idx : Z) (descs : list string)
    : list ItemNode :=
  match descs with
  | [] => []
  | d :: r =>
      {| n_id := id; n_description := d; n_project := name; n_index := idx |}
        :: new_items name (S id) (idx + 1) r
  end.

(** [k] relationships from the node [p] to consecutive nodes from [id]. *)
Fixpoint fan_edges (p id : nat) (k : nat) : list (nat * nat) :=
  match k with
  | O => []
  | S k' => (p, id) :: fan_edges p (S id) k'
  end.

(** [k] relationships between consecutive nodes from [a] and from [b]. *)
Fixpoint pair_edges (a b : nat) (k : nat) : list (nat * nat) :=
  match k with
  | O => []
  | S k' => (a, b) :: pair_edges (S a) (S b) k'
  end.

(** The graph after the requirement loop and after the risk loop of
    [save_to_neo4j]. *)
Fixpoint requirements_saved (name : string) (idx : Z) (descs : list string)
    (g : Graph) : Graph :=
  match descs with
  | [] => g
  | d :: r => requirements_saved name (idx + 1) r (snd (merge_requirement name d idx g))
  end.

Fixpoint risks_saved (name : string) (idx : Z) (descs : list string)
    (g : Graph) : Graph :=
  match descs with
  | [] => g
  | d :: r => risks_saved name (idx + 1) r (snd (merge_risk name d idx g))
  end.

(** The graph [g] while [save_to_neo4j] runs for a project it did not hold:
    the new project node, the new requirement and risk nodes [rs] and [ks] and
    their relationships [er] and [ek]. *)
Definition saving_graph (g : Graph) (name keyword : string) (rs ks : list ItemNode)
    (er ek : list (nat * nat)) (m : nat) : Graph :=
  {| next_id := m;
     project_nodes :=
       project_nodes g ++
         [{| p_id := next_id g; p_name := name; p_keyword := Some keyword |}];
     requirement_nodes := requirement_nodes g ++ rs;
     risk_nodes := risk_nodes g ++ ks;
     has_requirement := has_requirement g ++ er;
     has_risk := has_risk g ++ ek |}.

(** Nodes whose index is below [idx]. *)
Definition below (idx : Z) (l : list ItemNode) : Prop :=
  Forall (fun r => n_index r < idx) l.

(** No relationship ends at the identity [m] or beyond. *)
Definition ends_below (m : nat) (es : list (nat * nat)) : Prop :=
  Forall (fun e => (snd e < m)%nat) es.

(** The graph after [save_to_neo4j] has run on a graph [g] that did not hold
    the project. *)
Definition saved_graph (g : Graph) (name keyword : string) (reqs risks : list string)
    : Graph :=
  saving_graph g name keyword
    (new_items name (S (next_id g)) 1 reqs)
    (new_items name (length reqs + S (next_id g)) 1 risks)
    (fan_edges (next_id g) (S (next_id g)) (length reqs))
    (pair_edges (S (next_id g)) (length reqs + S (next_id g)) (length risks))
    (length risks + (length reqs + S (next_id g))).

(** The record of requirement [i] with its risk. *)
Definition row (i : Z) (q k : string) : Row :=
  {| req_index := i; requirement := q; risk_index := Some i; risk := Some k |}.

(** C6 as amended needs the risks to be non-empty strings. *)
Definition non_empty (k : string) : Prop := k <> "".

(** ** Further operations and vocabulary *)

(** The text [generate_fallback_risks] derives from a requirement. *)
Definition challenge_text (req : string) : string :=
  "Potential challenges in implementing: " +:+ Py.slice req 0 60 +:+ "...".

(** The text it pads with at the 1-based position [n]. *)
Definition general_risk_text (n : nat) : string :=
  "General implementation risk for requirement " +:+ Py.str_of_nat n.

(** The character that fences are made of. *)
Definition backtick : ascii := "`".

(** Does one of the indexes the replacement loop acts on denote position [p]
    of a list of length [n]? *)
Definition selects (n : Z) (indexes : list Z) (p : nat) : bool :=
  existsb (fun idx => (idx <? n) && (pos_nat n idx =? p)%nat) indexes.

(** Index lists on which the replacement loop of the index-scoped routes
    fails, with the text of the exception: no list at all, or a list with an
    index below [-n]. *)
Definition breaks_replacement (n : Z) (indexes : option (list Z)) (detail : string) : Prop :=
  match indexes with
  | None => detail = exn_text TypeError
  | Some l => Exists (fun idx => idx < - n) l /\ detail = exn_text IndexError
  end.

(** The indexes of a request that denote a position of a list of length [n],
    in the order of the request. *)
Definition attempted (n : Z) (indexes : list Z) : list Z :=
  List.filter (fun idx => (- n <=? idx) && (idx <? n)) indexes.

(** The prompt of the regeneration of the risk at [idx] in a session with the
    requirements [reqs] and the risks [risks]. *)
Definition risk_prompt_for (reqs risks : list string) (feedback : string)
    (idx : Z) (pr : prompt) : Prop :=
  exists current_requirement current_risk,
    item_or_empty reqs idx = ret current_requirement /\
    item_or_empty risks idx = ret current_risk /\
    pr = SingleRiskPrompt current_requirement current_risk feedback (idx + 1).

Record RegenerateRequest : Type := {
  rg_thread_id : string;
  rg_regenerate_type : string
}.

(** [x in [a, b]] for strings. *)
Definition one_of (x a b : string) : bool := String.eqb x a || String.eqb x b.

(** [POST /regenerate] *)
Definition regenerate (request : RegenerateRequest) : M WorkflowResponse :=
  route_guard
    (let thread_id := rg_thread_id request in
     found <- lookup_state thread_id ;;
     match found with
     | None => raise (HTTPException 404 "Thread not found")
     | Some state =>
         if negb (truthy_opt (selected_keyword state)) then
           raise (HTTPException 400 "No keyword selected")
         else
           state <-
             (if one_of (rg_regenerate_type request) "requirements" "both" then
                state <- generate_requirements state ;;
                store_state thread_id state ;; ret state
              else ret state) ;;
           state <-
             (if one_of (rg_regenerate_type request) "risks" "both" then
                state <- generate_risks state ;;
                store_state thread_id state ;; ret state
              else ret state) ;;
           store_state thread_id state ;;
           ret (regenerated_response thread_id state
                  ("Regenerated " +:+ rg_regenerate_type request))
     end).

(** [should_regenerate(state)] of [graph.py]: the node the workflow graph
    continues with after the risk stage. *)
Definition should_regenerate (state : KeywordState) : string :=
  match regenerate_flag state with
  | Some flag =>
      if String.eqb flag "requirements" then "generate_requirements"
      else if String.eqb flag "risks" then "generate_risks"
      else if String.eqb flag "both" then "generate_requirements"
      else "save_to_db"
  | None => "save_to_db"
  end.

(** The session of the examples with a pending request to regenerate the
    risks. *)
Definition flagged_state : KeywordState :=
  set_regenerate_flag (Some "risks") five_by_five_state.

(** The stage took its [except] branch. *)
Definition stage_failed (s : stage) (lg : list log_record) : Prop :=
  exists e, lg = [StageError s e].

(** The stage ran to the end of its [try] block, with or without the warning
    about the format. *)
Definition stage_completed (s : stage) (lg : list log_record) : Prop :=
  lg = [] \/ lg = [InvalidFormat s].

(** The graph [save_to_neo4j] leaves, as a function of the graph it finds. *)
Definition save_graph (name keyword : string) (reqs risks : list string) (g : Graph)
    : Graph :=
  risks_saved name 1 risks
    (requirements_saved name 1 reqs (snd (merge_project name keyword g))).

(** What identifies a project node. *)
Definition project_key (p : ProjectNode) : nat * string := (p_id p, p_name p).

(** [g'] holds every node and relationship of [g], unchanged but for the
    keyword of a project, and in the same order. *)
Definition grows (g g' : Graph) : Prop :=
  (next_id g <= next_id g')%nat /\
  map project_key (project_nodes g) `prefix_of` map project_key (project_nodes g') /\
  requirement_nodes g `prefix_of` requirement_nodes g' /\
  risk_nodes g `prefix_of` risk_nodes g' /\
  has_requirement g `prefix_of` has_requirement g' /\
  has_risk g `prefix_of` has_risk g'.

(** The project [name] is in the graph, with the keyword [keyword] on each of
    its nodes. *)
Definition project_settled (name keyword : string) (g : Graph) : Prop :=
  match_projects name g <> [] /\
  Forall (fun p => name_is name p = true -> p_keyword p = Some keyword) (project_nodes g).

(** The requirement [desc] at [idx] is in the graph and every project node
    points at each of its nodes. *)
Definition requirement_settled (name desc : string) (idx : Z) (g : Graph) : Prop :=
  List.filter (node_is name idx desc) (requirement_nodes g) <> [] /\
  forall p r,
    In p (match_projects name g) ->
    In r (map n_id (List.filter (node_is name idx desc) (requirement_nodes g))) ->
    In (p, r) (has_requirement g).

(** The risk [desc] at [idx] needs nothing more: no requirement carries the
    index, or the risk is in the graph and every requirement node with the
    index points at each of its nodes. *)
Definition risk_settled (name desc : string) (idx : Z) (g : Graph) : Prop :=
  List.filter (key_is name idx) (requirement_nodes g) = [] \/
  (List.filter (node_is name idx desc) (risk_nodes g) <> [] /\
   forall r k,
     In r (map n_id (List.filter (key_is name idx) (requirement_nodes g))) ->
     In k (map n_id (List.filter (node_is name idx desc) (risk_nodes g))) ->
     In (r, k) (has_risk g)).

(** [MATCH (r)-[:HAS_RISK]->(rk:Risk)] for a bound [r]: one record for each
    risk, none for a requirement without risks. *)
Definition risk_rows (g : Graph) (r : ItemNode) : list Row :=
  map (fun k => {| req_index := n_index r; requirement := n_description r;
                   risk_index := Some (n_index k);
                   risk := Some (n_description k) |}) (risks_of g r).

(** The query of [get_risks_from_neo4j]. *)
Definition risks_query (name : string) (g : Graph) : list Row * Graph :=
  (order_rows (flat_map (risk_rows g) (requirements_of g name)), g).

(** [[record["risk"] for record in result if record["risk"]]] *)
Definition truthy_risks (rows : list Row) : list string :=
  flat_map (fun record => match risk record with
                          | Some d => if Py.truthy d then [d] else []
                          | None => []
                          end) rows.

Record RisksResponse : Type := {
  rk_risks : list string;
  rk_count : nat;
  rk_message : string
}.

(** [GET /risks-from-neo4j]; its parameter [risk_indexes] is not read. *)
Definition get_risks_from_neo4j (project_name : string) : M RisksResponse :=
  route_guard
    (result <- query (risks_query project_name) ;;
     match result with
     | [] => raise (HTTPException 404 "Project not found in Neo4j")
     | _ :: _ =>
         let risks := truthy_risks result in
         ret {| rk_risks := risks; rk_count := length risks;
                rk_message := "Found " +:+ Py.str_of_nat (length risks)
                                +:+ " risks for project " +:+ project_name |}
     end).

(** A record that carries a risk. *)
Definition with_risk (r : Row) : bool :=
  match risk r with Some _ => true | None => false end.

(** Every record of [l] comes at or after [r]. *)
Definition all_after (r : Row) (l : list Row) : Prop :=
  Forall (fun x => row_leb r x = true) l.

Inductive ordered : list Row -> Prop :=
| ordered_nil : ordered []
| ordered_cons r l : all_after r l -> ordered l -> ordered (r :: l).


(** The body of [POST /update-single-risk], a plain dictionary: the three
    fields the handler reads, each present or not, with the types the
    statement needs. *)
Record SingleRiskRequest : Type := {
  us_thread_id : option string;
  us_risk_index : option Z;
  us_risk : option string
}.

Record SingleRiskResponse : Type := {
  ur_thread_id : string;
  ur_status : string;
  ur_risk_index : Z;
  ur_message : string
}.

(** Is the risk node [k] the end of a [:HAS_RISK] relationship from one of
    the requirement nodes [rs]? *)
Definition risk_of_one (g : Graph) (rs : list nat) (k : ItemNode) : bool :=
  existsb (fun r => existsb (edge_eqb (r, n_id k)) (has_risk g)) rs.

Definition with_description (desc : string) (k : ItemNode) : ItemNode :=
  {| n_id := n_id k; n_description := desc; n_project := n_project k;
     n_index := n_index k |}.

(** [MATCH (p:Project {name: $project_name})
     MATCH (r:Requirement {project: $project_name, index: $req_index})
     MATCH (r)-[:HAS_RISK]->(rk:Risk {project: $project_name, index: $risk_index})
     SET rk.description = $risk_description], which the handlers of [risks.py]
    run with the same value for both indexes. *)
Definition set_risk_description (name : string) (idx : Z) (desc : string) (g : Graph)
    : unit * Graph :=
  match match_projects name g with
  | [] => (tt, g)
  | _ :: _ =>
      let rs := map n_id (List.filter (key_is name idx) (requirement_nodes g)) in
      (tt, {| next_id := next_id g;
              project_nodes := project_nodes g;
              requirement_nodes := requirement_nodes g;
              risk_nodes :=
                map (fun k => if key_is name idx k && risk_of_one g rs k
                              then with_description desc k else k)
                    (risk_nodes g);
              has_requirement := has_requirement g;
              has_risk := has_risk g |})
  end.

(** [bool(xs)] for a list. *)
Definition nonempty_list {A} (xs : list A) : bool :=
  match xs with [] => false | _ :: _ => true end.

(** [POST /update-single-risk] *)
Definition update_single_risk (request : SingleRiskRequest) : M SingleRiskResponse :=
  route_guard
    (match us_thread_id request, us_risk_index request, us_risk request with
     | Some thread_id, Some risk_index, Some risk =>
         if negb (Py.truthy thread_id) || negb (Py.truthy risk) then
           raise (HTTPException 400 "Missing required fields")
         else
           found <- lookup_state thread_id ;;
           match found with
           | None => raise (HTTPException 404 "Thread not found")
           | Some state =>
               query (set_risk_description thread_id (risk_index + 1) risk) ;;
               state <-
                 match risks_output state with
                 | Some risks =>
                     if nonempty_list risks && (risk_index <? Z.of_nat (length risks))
                     then l <- setitem_exn risks risk_index risk ;;
                          ret (set_risks_output (Some l) state)
                     else ret state
                 | None => ret state
                 end ;;
               store_state thread_id state ;;
               ret {| ur_thread_id := thread_id; ur_status := "updated";
                      ur_risk_index := risk_index;
                      ur_message := "Risk updated successfully in Neo4j" |}
           end
     | _, _, _ => raise (HTTPException 400 "Missing required fields")
     end).

(** The graph holds no requirement of the project [name] at an index
    beyond [n]. *)
Definition no_requirement_beyond (name : string) (n : Z) (g : Graph) : Prop :=
  forall i, n < i -> List.filter (key_is name i) (requirement_nodes g) = [].

(** [safe_log_message] of [api/dependencies.py] works on characters beyond
    code point 255, so here a text is the list of its code points. *)
Definition replacements : list (N * N) :=
  [ (0x202f, 32); (0xa0, 32); (0x2018, 39); (0x2019, 39);
    (0x201c, 34); (0x201d, 34); (0x2013, 45); (0x2014, 45) ]%N.

(** [message.replace(a, b)] for one-character [a] and [b]. *)
Definition replace_char (a b : N) (message : list N) : list N :=
  map (fun c => if N.eqb c a then b else c) message.

(** [safe_log_message(message)] *)
Definition safe_log_message (message : list N) : list N :=
  fold_left (fun m r => replace_char (fst r) (snd r) m) replacements message.

(** What becomes of one character. *)
Definition safe_char (c : N) : N :=
  match List.find (fun r => N.eqb c (fst r)) replacements with
  | Some r => snd r
  | None => c
  end.

(** The keyword a feedback request works with: the selected one, or the
    thread identifier when none is selected. *)
Definition keyword_or_thread (thread_id : string) (state : KeywordState) : option string :=
  if truthy_opt (selected_keyword state) then selected_keyword state else Some thread_id.

(** What a single-item regeneration returns for the item [current] when the
    generator answers as [outcome]: the cleaned text when it has ten
    characters or more, else the item. *)
Definition regenerated_text (current : string) (outcome : llm_outcome) : string :=
  match outcome with
  | Returns content =>
      if Py.len (clean_quotes (Py.strip content)) <? 10 then current
      else clean_quotes (Py.strip content)
  | Fails => current
  end.

(** The project [name] has requirements in the graph, none of them with a
    risk. *)
Definition requirements_without_risks (name : string) (g : Graph) : Prop :=
  requirements_of g name <> [] /\
  Forall (fun r => risks_of g r = []) (requirements_of g name).

(** The world of the examples after two requirements were saved without
    risks. *)
Definition riskless_world : World :=
  snd (save_to_neo4j ["req zero"; "req one"] [] "demo" "k" (fresh_world (fun _ => Fails))).

(** The session of the examples before any requirement exists, as stored. *)
Definition selected_world (oracle : nat -> llm_outcome) : World :=
  put_state "demo" keyword_selected_state (fresh_world oracle).

(** * Properties *)

(** ** Strings *)

Lemma append_cons a s t : String a s +:+ t = String a (s +:+ t).
Proof. reflexivity. Qed.

Lemma append_nil_l s : "" +:+ s = s.
Proof. reflexivity. Qed.

Ltac str_simpl := rewrite ?append_cons, ?append_nil_l; simpl.

Section StringFacts.

Implicit Types (s t u pre post : string) (c o : ascii).

Lemma append_assoc_s s t u : (s +:+ t) +:+ u = s +:+ (t +:+ u).
Proof. induction s as [|a s IH]; str_simpl; [reflexivity | now rewrite IH]. Qed.

Lemma append_nil_r_s s : s +:+ "" = s.
Proof. induction s as [|a s IH]; str_simpl; [reflexivity | now rewrite IH]. Qed.

Lemma length_append_s s t :
  String.length (s +:+ t) = (String.length s + String.length t)%nat.
Proof. induction s as [|a s IH]; str_simpl; [reflexivity | now rewrite IH]. Qed.

Lemma len_nonneg s : 0 <= Py.len s.
Proof. unfold Py.len. lia. Qed.

Lemma len_String a s : Py.len (String a s) = Py.len s + 1.
Proof. unfold Py.len. simpl. lia. Qed.

Lemma len_append s t : Py.len (s +:+ t) = Py.len s + Py.len t.
Proof. unfold Py.len. rewrite length_append_s. lia. Qed.

Lemma mem_append c s t : Py.mem c (s +:+ t) = Py.mem c s || Py.mem c t.
Proof.
  induction s as [|a s IH]; str_simpl; [reflexivity |].
  rewrite IH. now rewrite orb_assoc.
Qed.

Lemma mem_split_first c s :
  Py.mem c s = true ->
  exists pre r, s = pre +:+ String c r /\ Py.mem c pre = false.
Proof.
  induction s as [|a s IH]; simpl; [discriminate |].
  destruct (Ascii.eqb_spec a c) as [->|Hne]; simpl.
  - intros _. exists "", s. split; reflexivity.
  - intros H. destruct (IH H) as (pre & r & -> & Hpre).
    exists (String a pre), r. split; [reflexivity |].
    simpl. rewrite Hpre. apply Ascii.eqb_neq in Hne. now rewrite Hne.
Qed.

Lemma mem_split_last c s :
  Py.mem c s = true ->
  exists pre post, s = pre +:+ String c post /\ Py.mem c post = false.
Proof.
  induction s as [|a s IH]; simpl; [discriminate |].
  destruct (Py.mem c s) eqn:Hs.
  - intros _. destruct (IH eq_refl) as (pre & post & -> & Hpost).
    exists (String a pre), post. split; [reflexivity | assumption].
  - rewrite orb_false_r. intros Ha. apply Ascii.eqb_eq in Ha. subst a.
    exists "", s. split; [reflexivity | assumption].
Qed.

Lemma find_from_first c pre r i :
  Py.mem c pre = false ->
  Py.find_from c (pre +:+ String c r) i = i + Py.len pre.
Proof.
  revert i. induction pre as [|a pre IH]; str_simpl; intros i H.
  - rewrite Ascii.eqb_refl. unfold Py.len. simpl. lia.
  - apply orb_false_iff in H as [Ha Hp]. rewrite Ha, IH by assumption.
    rewrite len_String. lia.
Qed.

Lemma rfind_from_absent c s i : Py.mem c s = false -> Py.rfind_from c s i = -1.
Proof.
  revert i. induction s as [|a s IH]; simpl; intros i H; [reflexivity |].
  apply orb_false_iff in H as [Ha Hs]. now rewrite IH, Ha.
Qed.

Lemma rfind_from_last c pre post i :
  0 <= i -> Py.mem c post = false ->
  Py.rfind_from c (pre +:+ String c post) i = i + Py.len pre.
Proof.
  revert i. induction pre as [|a pre IH]; str_simpl; intros i Hi H.
  - rewrite rfind_from_absent by assumption. simpl.
    rewrite Ascii.eqb_refl. unfold Py.len. simpl. lia.
  - rewrite IH by (assumption || lia).
    pose proof (len_nonneg pre).
    destruct (0 <=? i + 1 + Py.len pre) eqn:E; [| apply Z.leb_gt in E; lia].
    rewrite len_String. lia.
Qed.

Lemma drop_append pre s : Py.drop (String.length pre) (pre +:+ s) = s.
Proof. induction pre as [|a pre IH]; str_simpl; [now destruct s | assumption]. Qed.

Lemma take_append s post : Py.take (String.length s) (s +:+ post) = s.
Proof.
  induction s as [|a s IH]; str_simpl; [now destruct post | now rewrite IH].
Qed.

(** The slice that starts after [pre] and has the length of [s]. *)
Lemma slice_middle pre s post :
  Py.slice (pre +:+ s +:+ post) (Py.len pre) (Py.len pre + Py.len s) = s.
Proof.
  unfold Py.slice, Py.clamp.
  rewrite !len_append.
  pose proof (len_nonneg pre). pose proof (len_nonneg s). pose proof (len_nonneg post).
  destruct (Py.len pre <? 0) eqn:E1; [apply Z.ltb_lt in E1; lia |].
  destruct (Py.len pre + Py.len s <? 0) eqn:E2; [apply Z.ltb_lt in E2; lia |].
  replace (Z.to_nat (Z.max 0 (Z.min (Py.len pre + (Py.len s + Py.len post)) (Py.len pre))))
    with (String.length pre) by (unfold Py.len in *; lia).
  replace (Z.to_nat (Z.max 0 (Z.min (Py.len pre + (Py.len s + Py.len post))
                                (Py.len pre + Py.len s))
                     - Z.max 0 (Z.min (Py.len pre + (Py.len s + Py.len post)) (Py.len pre))))
    with (String.length s) by (unfold Py.len in *; lia).
  now rewrite drop_append, take_append.
Qed.

(** Two ways of cutting one text: the shorter first part is a prefix of the
    longer one. *)
Lemma append_eq_split s t u v :
  s +:+ t = u +:+ v -> (String.length s <= String.length u)%nat ->
  exists m, u = s +:+ m /\ t = m +:+ v.
Proof.
  revert u. induction s as [|a s IH]; str_simpl; intros u H Hl.
  - exists u. split; [reflexivity | assumption].
  - destruct u as [|b u]; simpl in *; [lia |].
    rewrite append_cons in H.
    injection H as -> H. destruct (IH u H ltac:(lia)) as (m & -> & ->).
    exists m. split; reflexivity.
Qed.

End StringFacts.

(** ** Output normalizer *)

Lemma bracket_slice_complete o c text s :
  o <> c -> outer_slice o c text s -> bracket_slice o c text = Some s.
Proof.
  intros Hne (pre & body & post & -> & -> & Hpre & Hpost).
  unfold bracket_slice.
  assert (Hmo : Py.mem o (pre +:+ String o (body +:+ String c "") +:+ post) = true).
  { rewrite mem_append. str_simpl. rewrite Ascii.eqb_refl. now rewrite orb_true_r. }
  assert (Hmc : Py.mem c (pre +:+ String o (body +:+ String c "") +:+ post) = true).
  { rewrite mem_append. str_simpl. rewrite !mem_append. simpl.
    rewrite Ascii.eqb_refl. now rewrite !orb_true_r. }
  rewrite Hmo, Hmc. simpl.
  assert (Hf : Py.find o (pre +:+ String o (body +:+ String c "") +:+ post) = Py.len pre).
  { unfold Py.find. rewrite append_cons, find_from_first by assumption. lia. }
  assert (Hr : Py.rfind c (pre +:+ String o (body +:+ String c "") +:+ post)
               = Py.len pre + Py.len body + 1).
  { unfold Py.rfind.
    replace (pre +:+ String o (body +:+ String c "") +:+ post)
      with ((pre +:+ String o body) +:+ String c post).
    - rewrite rfind_from_last by (assumption || lia).
      rewrite len_append, len_String. lia.
    - rewrite !append_assoc_s, !append_cons, !append_assoc_s. reflexivity. }
  rewrite Hf, Hr.
  pose proof (len_nonneg pre). pose proof (len_nonneg body).
  destruct (0 <=? Py.len pre) eqn:E1; [| apply Z.leb_gt in E1; lia].
  destruct (Py.len pre <? Py.len pre + Py.len body + 1 + 1) eqn:E2;
    [| apply Z.ltb_ge in E2; lia].
  simpl. f_equal.
  replace (Py.len pre + Py.len body + 1 + 1)
    with (Py.len pre + Py.len (String o (body +:+ String c ""))).
  - apply slice_middle.
  - rewrite len_String, len_append, len_String. change (Py.len "") with 0. lia.
Qed.

Lemma bracket_slice_sound o c text s :
  o <> c -> bracket_slice o c text = Some s -> outer_slice o c text s.
Proof.
  intros Hne. unfold bracket_slice.
  destruct (Py.mem o text) eqn:Hmo; [| discriminate].
  destruct (Py.mem c text) eqn:Hmc; [| discriminate]. simpl.
  destruct (mem_split_first _ _ Hmo) as (pre & r & Ht & Hpre).
  destruct (mem_split_last _ _ Hmc) as (x & post & Ht' & Hpost).
  assert (Hf : Py.find o text = Py.len pre).
  { unfold Py.find. rewrite Ht, find_from_first by assumption. lia. }
  assert (Hr : Py.rfind c text = Py.len x).
  { unfold Py.rfind. rewrite Ht', rfind_from_last by (assumption || lia). lia. }
  rewrite Hf, Hr.
  destruct ((0 <=? Py.len pre) && (Py.len pre <? Py.len x + 1)) eqn:E; [| discriminate].
  apply andb_true_iff in E as [_ E]. apply Z.ltb_lt in E.
  intros [= <-].
  assert (Hl : (String.length pre <= String.length x)%nat) by (unfold Py.len in E; lia).
  rewrite Ht in Ht'.
  destruct (append_eq_split _ _ _ _ Ht' Hl) as (m & -> & Hm).
  destruct m as [|a body].
  - rewrite append_nil_l in Hm. injection Hm as Ho _. contradiction.
  - rewrite append_cons in Hm. injection Hm as <- ->.
    exists pre, body, post.
    assert (Hs : Py.slice text (Py.len pre) (Py.len (pre +:+ String o body) + 1)
                 = String o (body +:+ String c "")).
    { rewrite Ht.
      replace (pre +:+ String o (body +:+ String c post))
        with (pre +:+ String o (body +:+ String c "") +:+ post)
        by (now rewrite !append_cons, !append_assoc_s, !append_cons).
      replace (Py.len (pre +:+ String o body) + 1)
        with (Py.len pre + Py.len (String o (body +:+ String c ""))).
      - apply slice_middle.
      - rewrite len_append, !len_String, len_append, len_String.
        change (Py.len "") with 0. lia. }
    rewrite Hs. repeat split; try assumption.
    rewrite Ht. now rewrite !append_cons, !append_assoc_s, !append_cons.
Qed.

Lemma brace_neq_bracket : "{"%char <> "}"%char /\ "["%char <> "]"%char.
Proof. split; discriminate. Qed.

(** Without a fence the normalizer tries the braces, then the brackets. *)
Lemma extract_without_fence text :
  Py.contains fence_open text = false ->
  extract_json_from_text text =
    match bracket_slice "{" "}" text with
    | Some s => Some s
    | None => bracket_slice "[" "]" text
    end.
Proof. intros H. unfold extract_json_from_text. now rewrite H. Qed.

Example keywords_example_parsed :
  option_map safe_json_parse (extract_json_from_text keywords_example)
  = Some (JArr [JStr "a b c"; JStr "d e f"; JStr "g h i"; JStr "j k l"; JStr "m n o"]).
Proof. vm_compute. reflexivity. Qed.

(** C10, as amended.  For a text without a fenced block the normalizer does not
    look at the expected shape: it returns the part from the first opening
    brace to the last closing brace whenever the text has one, the part from
    the first opening square bracket to the last closing square bracket only
    when it has no such brace pair, and nothing when it has neither.  The slice
    is parsed strictly, and once more after the trailing commas before closing
    brackets are removed; the array-shaped example wrapped in commentary yields
    its five-element array. *)
Theorem normalizer_slices_braces_first (text : string) :
  Py.contains fence_open text = false ->
  (forall s, outer_slice "{" "}" text s -> extract_json_from_text text = Some s) /\
  ((forall s, ~ outer_slice "{" "}" text s) ->
   forall s, outer_slice "[" "]" text s -> extract_json_from_text text = Some s) /\
  (forall s, extract_json_from_text text = Some s ->
             outer_slice "{" "}" text s \/
             ((forall s', ~ outer_slice "{" "}" text s') /\ outer_slice "[" "]" text s)) /\
  (forall s v, Json.loads s = Some v -> safe_json_parse s = v) /\
  (forall s, Json.loads s = None ->
             safe_json_parse s = default JNull (Json.loads (strip_trailing_commas s))) /\
  option_map safe_json_parse (extract_json_from_text keywords_example)
  = Some (JArr [JStr "a b c"; JStr "d e f"; JStr "g h i"; JStr "j k l"; JStr "m n o"]).
Proof.
  intros Hf. destruct brace_neq_bracket as [Hb Hk].
  rewrite (extract_without_fence _ Hf).
  repeat split.
  - intros s Hs. now rewrite (bracket_slice_complete _ _ _ _ Hb Hs).
  - intros Hno s Hs.
    destruct (bracket_slice "{" "}" text) as [s'|] eqn:E.
    + exfalso. apply (Hno s'). now apply bracket_slice_sound.
    + now apply bracket_slice_complete.
  - intros s. destruct (bracket_slice "{" "}" text) as [s'|] eqn:E.
    + intros [= <-]. left. now apply bracket_slice_sound.
    + intros Hs. right. split.
      * intros s' Hs'. rewrite (bracket_slice_complete _ _ _ _ Hb Hs') in E. discriminate.
      * now apply bracket_slice_sound.
  - intros s v H. unfold safe_json_parse. now rewrite H.
  - intros s H. unfold safe_json_parse. rewrite H.
    now destruct (Json.loads (strip_trailing_commas s)).
Qed.

Lemma normalizer_slices_braces_first_witness :
  extract_json_from_text (dq "Result: ['a', {'k': 1}, 'b',]") = Some (dq "{'k': 1}").
Proof.
  assert (Hf : Py.contains fence_open (dq "Result: ['a', {'k': 1}, 'b',]") = false)
    by reflexivity.
  apply (proj1 (normalizer_slices_braces_first _ Hf)).
  exists (dq "Result: ['a', "), (dq "'k': 1"), (dq ", 'b',]").
  vm_compute. repeat split; reflexivity.
Defined.

(** C10 as stated fails: on an array of objects the expected shape is the
    array, yet the slice taken is the one between the braces, and it does not
    parse. *)
Lemma normalizer_ignores_expected_shape : ~ slices_by_expected_shape.
Proof.
  intros H.
  specialize (H ArrayShape (dq "[{'a': 1}, {'b': 2}]") (dq "[{'a': 1}, {'b': 2}]")).
  assert (Hc : extract_json_from_text (dq "[{'a': 1}, {'b': 2}]")
               = Some (dq "{'a': 1}, {'b': 2}")) by (vm_compute; reflexivity).
  rewrite Hc in H.
  assert (Ho : outer_slice "[" "]" (dq "[{'a': 1}, {'b': 2}]") (dq "[{'a': 1}, {'b': 2}]")).
  { exists "", (dq "{'a': 1}, {'b': 2}"), "". vm_compute. repeat split; reflexivity. }
  specialize (H ltac:(vm_compute; reflexivity) Ho). vm_compute in H. discriminate H.
Qed.

Example array_of_objects_lost :
  option_map safe_json_parse (extract_json_from_text (dq "[{'a': 1}, {'b': 2}]")) = Some JNull
  /\ safe_json_parse (dq "[{'a': 1}, {'b': 2}]")
     = JArr [JObj [("a", JInt 1)]; JObj [("b", JInt 2)]].
Proof. split; vm_compute; reflexivity. Qed.

(** ** Stage operations *)

Lemma all_str_length l ss : all_str l = Some ss -> length ss = length l.
Proof.
  revert ss. induction l as [|v l IH]; simpl; intros ss H.
  - now injection H as <-.
  - destruct v; try discriminate.
    destruct (all_str l) as [ss'|]; simpl in H; [| discriminate].
    injection H as <-. simpl. now rewrite (IH ss').
Qed.

Lemma all_str_of_str_list ss : all_str (map JStr ss) = Some ss.
Proof. induction ss as [|s ss IH]; simpl; [reflexivity | now rewrite IH]. Qed.

Lemma validate_of_str_list ss : validate_str_list (of_str_list ss) = Ok ss.
Proof. unfold validate_str_list, of_str_list. now rewrite all_str_of_str_list. Qed.

Lemma not_five_false v :
  not_five v = false -> exists l, v = JArr l /\ length l = 5%nat.
Proof.
  unfold not_five. intros H.
  apply orb_false_iff in H as [H H5]. apply orb_false_iff in H as [_ Hl].
  destruct v; try discriminate. exists items. split; [reflexivity |].
  simpl in H5. apply negb_false_iff, Z.eqb_eq in H5. lia.
Qed.

Lemma not_five_true_five_strings v : not_five v = true -> five_strings v = None.
Proof.
  unfold not_five, five_strings. destruct v; try reflexivity. simpl.
  intros H. destruct (Nat.eqb_spec (length items) 5) as [E|]; [| reflexivity].
  rewrite E in H. destruct items; [discriminate E | discriminate H].
Qed.

Lemma five_strings_validate v :
  not_five v = false ->
  match five_strings v with
  | Some ss => validate_str_list v = Ok ss /\ length ss = 5%nat
  | None => validate_str_list v = Raise ValidationError
  end.
Proof.
  intros H. destruct (not_five_false _ H) as (l & -> & Hl).
  unfold five_strings, validate_str_list. rewrite Hl. simpl.
  destruct (all_str l) as [ss|] eqn:E; [| reflexivity].
  split; [reflexivity |]. now rewrite (all_str_length _ _ E).
Qed.

Lemma fallback_keywords_length : length fallback_keywords = 5%nat.
Proof. reflexivity. Qed.

Lemma fallback_requirements_length k : length (fallback_requirements k) = 5%nat.
Proof. reflexivity. Qed.

Lemma pad_risks_length n l :
  (5 <= n + length l)%nat -> (5 <= length (pad_risks n l))%nat.
Proof.
  revert l. induction n as [|n IH]; simpl; intros l H; [lia |].
  destruct (Nat.ltb_spec (length l) 5); [| lia].
  apply IH. rewrite length_app. simpl. lia.
Qed.

Lemma generate_fallback_risks_length requirements :
  length (generate_fallback_risks requirements) = 5%nat.
Proof.
  unfold generate_fallback_risks. rewrite length_take.
  pose proof (pad_risks_length 5
    (map (fun req => "Potential challenges in implementing: "
                       +:+ Py.slice req 0 60 +:+ "...") requirements)).
  lia.
Qed.

(** The keyword stage on a response. *)
Lemma generate_keywords_returns state w content :
  llm w (length (calls w)) = Returns content ->
  exists st' w' lg,
    generate_keywords state w = (Ok st', w') /\
    one_call (KeywordsPrompt (requirement_description state)) lg w w' /\
    keyword_output st' = Some (default fallback_keywords (accepted_list content)) /\
    requirements_output st' = requirements_output state /\
    risks_output st' = risks_output state /\
    same_inputs state st' /\
    match accepted_list content with
    | Some _ => lg = []
    | None => exists r, lg = [r]
    end.
Proof.
  intros Hllm.
  unfold generate_keywords, try_except, bind, invoke, lift, accepted_list. rewrite Hllm.
  destruct (parse_response "[" "]" (Py.strip content)) as [v|e] eqn:Hp.
  - destruct (not_five v) eqn:H5.
    + rewrite (not_five_true_five_strings _ H5).
      unfold logger, ret. cbv beta iota. rewrite validate_of_str_list.
      eexists _, _, _. split; [reflexivity |].
      repeat split; eauto.
    + pose proof (five_strings_validate _ H5) as Hv.
      destruct (five_strings v) as [ss|].
      * destruct Hv as [Hv _]. unfold ret. rewrite Hv.
        eexists _, _, []. split; [reflexivity |].
        repeat split; simpl; rewrite ?app_nil_r; eauto.
      * unfold ret. rewrite Hv. unfold logger, ret. simpl.
        eexists _, _, _. split; [reflexivity |].
        repeat split; eauto.
  - unfold logger, ret. simpl.
    eexists _, _, _. split; [reflexivity |].
    repeat split; eauto.
Qed.

Lemma clear_regenerate_flag_fields st :
  requirement_description (clear_regenerate_flag st) = requirement_description st /\
  messages (clear_regenerate_flag st) = messages st /\
  keyword_output (clear_regenerate_flag st) = keyword_output st /\
  selected_keyword (clear_regenerate_flag st) = selected_keyword st /\
  requirements_output (clear_regenerate_flag st) = requirements_output st /\
  risks_output (clear_regenerate_flag st) = risks_output st /\
  project_name (clear_regenerate_flag st) = project_name st.
Proof.
  unfold clear_regenerate_flag.
  destruct (truthy_opt (regenerate_flag st)); repeat split; reflexivity.
Qed.

(** The requirement stage on a response. *)
Lemma generate_requirements_returns state w content :
  llm w (length (calls w)) = Returns content ->
  exists st' w' lg,
    generate_requirements state w = (Ok st', w') /\
    one_call (RequirementsPrompt (selected_keyword state) (requirement_description state))
      lg w w' /\
    requirements_output st'
    = Some (default (fallback_requirements (selected_keyword state))
              (accepted_list content)) /\
    keyword_output st' = keyword_output state /\
    risks_output st' = risks_output state /\
    same_inputs state st' /\
    match accepted_list content with
    | Some _ => lg = []
    | None => exists r, lg = [r]
    end.
Proof.
  intros Hllm.
  unfold generate_requirements, try_except, bind, invoke, lift, accepted_list.
  rewrite Hllm.
  destruct (parse_response "[" "]" (Py.strip content)) as [v|e] eqn:Hp.
  - destruct (not_five v) eqn:H5.
    + rewrite (not_five_true_five_strings _ H5).
      unfold logger, ret. cbv beta iota. rewrite validate_of_str_list.
      eexists _, _, _. split; [reflexivity |].
      match goal with |- context [clear_regenerate_flag ?st] =>
        destruct (clear_regenerate_flag_fields st) as (? & ? & ? & ? & ? & ? & ?) end.
      unfold one_call, same_inputs. simpl in *. repeat split; eauto; congruence.
    + pose proof (five_strings_validate _ H5) as Hv.
      destruct (five_strings v) as [ss|].
      * destruct Hv as [Hv _]. unfold ret. rewrite Hv.
        eexists _, _, []. split; [reflexivity |].
        match goal with |- context [clear_regenerate_flag ?st] =>
          destruct (clear_regenerate_flag_fields st) as (? & ? & ? & ? & ? & ? & ?) end.
        unfold one_call, same_inputs. simpl in *. rewrite ?app_nil_r.
        repeat split; eauto; congruence.
      * unfold ret. rewrite Hv. unfold logger, ret. simpl.
        eexists _, _, _. split; [reflexivity |].
        repeat split; eauto.
  - unfold logger, ret. simpl.
    eexists _, _, _. split; [reflexivity |].
    repeat split; eauto.
Qed.

(** The requirement stage when the call to the generator raises. *)
Lemma generate_requirements_fails state w :
  llm w (length (calls w)) = Fails ->
  generate_requirements state w
  = (Ok (set_requirements_output
           (Some (fallback_requirements (selected_keyword state))) state),
     add_log (StageError Requirements GeneratorError)
       (add_call (RequirementsPrompt (selected_keyword state)
                    (requirement_description state)) w)).
Proof.
  intros Hllm. unfold generate_requirements, try_except, bind, invoke.
  now rewrite Hllm.
Qed.

Lemma five_strings_risks_of_data v :
  five_strings (risks_of_data v)
  = match v with
    | JObj members =>
        match Json.dict_get "Risks" members with
        | Some x => five_strings x
        | None => None
        end
    | _ => None
    end.
Proof.
  destruct v; try reflexivity.
  unfold risks_of_data. destruct members as [|m ms]; [reflexivity |].
  simpl Json.truthy. cbv iota.
  now destruct (Json.dict_get "Risks" (m :: ms)).
Qed.

(** The risk stage on a response. *)
Lemma generate_risks_returns state w reqs content :
  requirements_output state = Some reqs ->
  llm w (length (calls w)) = Returns content ->
  exists st' w' lg,
    generate_risks state w = (Ok st', w') /\
    one_call (RisksPrompt reqs) lg w w' /\
    risks_output st'
    = Some (default (generate_fallback_risks reqs) (accepted_risks content)) /\
    keyword_output st' = keyword_output state /\
    requirements_output st' = Some reqs /\
    same_inputs state st' /\
    match accepted_risks content with
    | Some _ => lg = []
    | None => exists r, lg = [r]
    end.
Proof.
  intros Hreqs Hllm.
  assert (Ha : accepted_risks content
               = match parse_response "{" "}" (Py.strip content) with
                 | Ok v => five_strings (risks_of_data v)
                 | Raise _ => None
                 end).
  { unfold accepted_risks.
    destruct (parse_response "{" "}" (Py.strip content)) as [v|]; [| reflexivity].
    rewrite five_strings_risks_of_data. now destruct v. }
  rewrite Ha. clear Ha.
  unfold generate_risks, try_except, bind, invoke, lift, requirements_attr, ret.
  rewrite Hreqs, Hllm.
  destruct (parse_response "{" "}" (Py.strip content)) as [v|e] eqn:Hp.
  - destruct (not_five (risks_of_data v)) eqn:H5.
    + rewrite (not_five_true_five_strings _ H5).
      unfold logger. cbv beta iota. rewrite validate_of_str_list.
      eexists _, _, _. split; [reflexivity |].
      match goal with |- context [clear_regenerate_flag ?st] =>
        destruct (clear_regenerate_flag_fields st) as (? & ? & ? & ? & ? & ? & ?) end.
      unfold one_call, same_inputs. simpl in *. repeat split; eauto; congruence.
    + pose proof (five_strings_validate _ H5) as Hv.
      destruct (five_strings (risks_of_data v)) as [ss|].
      * destruct Hv as [Hv _]. rewrite Hv.
        eexists _, _, []. split; [reflexivity |].
        match goal with |- context [clear_regenerate_flag ?st] =>
          destruct (clear_regenerate_flag_fields st) as (? & ? & ? & ? & ? & ? & ?) end.
        unfold one_call, same_inputs. simpl in *. rewrite ?app_nil_r.
        repeat split; eauto; congruence.
      * rewrite Hv. unfold logger. simpl.
        eexists _, _, _. split; [reflexivity |].
        repeat split; eauto.
  - unfold logger. simpl.
    eexists _, _, _. split; [reflexivity |].
    repeat split; eauto.
Qed.

(** The risk stage when the call to the generator raises. *)
Lemma generate_risks_fails state w reqs :
  requirements_output state = Some reqs ->
  llm w (length (calls w)) = Fails ->
  generate_risks state w
  = (Ok (set_risks_output (Some (generate_fallback_risks reqs)) state),
     add_log (StageError Risks GeneratorError) (add_call (RisksPrompt reqs) w)).
Proof.
  intros Hreqs Hllm.
  unfold generate_risks, try_except, bind, invoke, requirements_attr, ret, logger.
  now rewrite Hreqs, Hllm.
Qed.

(** The risk stage without requirements: the only way it raises. *)
Lemma generate_risks_no_requirements state w :
  requirements_output state = None ->
  generate_risks state w
  = (Raise AttributeError, add_log (StageError Risks AttributeError) w).
Proof.
  intros Hreqs.
  unfold generate_risks, try_except, bind, requirements_attr, raise, logger.
  now rewrite Hreqs.
Qed.

Lemma five_strings_length v ss : five_strings v = Some ss -> length ss = 5%nat.
Proof.
  unfold five_strings. destruct v; try discriminate.
  destruct (Nat.eqb_spec (length items) 5) as [E|]; [| discriminate].
  intros H. now rewrite (all_str_length _ _ H).
Qed.

Lemma accepted_list_length content ss :
  accepted_list content = Some ss -> length ss = 5%nat.
Proof.
  unfold accepted_list.
  destruct (parse_response "[" "]" (Py.strip content)); [| discriminate].
  apply five_strings_length.
Qed.

Lemma accepted_risks_length content ss :
  accepted_risks content = Some ss -> length ss = 5%nat.
Proof.
  unfold accepted_risks.
  destruct (parse_response "{" "}" (Py.strip content)) as [v|]; [| discriminate].
  destruct v; try discriminate.
  destruct (Json.dict_get "Risks" members); [| discriminate].
  apply five_strings_length.
Qed.

Lemma degraded_iff_logged (A : Type) (o : option A) (lg : list log_record) :
  match o with Some _ => lg = [] | None => exists r, lg = [r] end ->
  (o = None <-> lg <> []).
Proof.
  destruct o; intros H.
  - subst. split; [discriminate | congruence].
  - destruct H as [r ->]. split; [discriminate | reflexivity].
Qed.

(** C5, as amended.  On every text the generator returns, each of the three
    stage operations returns normally: five keywords, five requirements, five
    risks (as many as the five requirements); the list is the one accepted
    from the response, or the templated fallback when parsing or validation
    fails.  A degraded outcome is not surfaced as an error; it is reported by a
    warning or error record in the log and by nothing else. *)
Theorem stages_complete_with_five_items (state : KeywordState) (w : World) (content : string) :
  llm w (length (calls w)) = Returns content ->
  (exists st' w' lg kws,
      generate_keywords state w = (Ok st', w') /\
      keyword_output st' = Some kws /\ length kws = 5%nat /\
      kws = default fallback_keywords (accepted_list content) /\
      log w' = log w ++ lg /\ (accepted_list content = None <-> lg <> [])) /\
  (exists st' w' lg reqs,
      generate_requirements state w = (Ok st', w') /\
      requirements_output st' = Some reqs /\ length reqs = 5%nat /\
      reqs = default (fallback_requirements (selected_keyword state))
               (accepted_list content) /\
      log w' = log w ++ lg /\ (accepted_list content = None <-> lg <> [])) /\
  (forall reqs,
      requirements_output state = Some reqs ->
      exists st' w' lg risks,
        generate_risks state w = (Ok st', w') /\
        risks_output st' = Some risks /\ requirements_output st' = Some reqs /\
        length risks = 5%nat /\ (length reqs = 5%nat -> length risks = length reqs) /\
        risks = default (generate_fallback_risks reqs) (accepted_risks content) /\
        log w' = log w ++ lg /\ (accepted_risks content = None <-> lg <> [])).
Proof.
  intros Hllm. repeat split.
  - destruct (generate_keywords_returns state w content Hllm)
      as (st' & w' & lg & Hrun & Hw & Hk & _ & _ & _ & Hlg).
    exists st', w', lg, (default fallback_keywords (accepted_list content)).
    repeat split; try assumption; try apply Hw; try (now apply degraded_iff_logged).
    destruct (accepted_list content) eqn:E; simpl;
      [now apply (accepted_list_length content) | reflexivity].
  - destruct (generate_requirements_returns state w content Hllm)
      as (st' & w' & lg & Hrun & Hw & Hk & _ & _ & _ & Hlg).
    exists st', w', lg,
      (default (fallback_requirements (selected_keyword state)) (accepted_list content)).
    repeat split; try assumption; try apply Hw; try (now apply degraded_iff_logged).
    destruct (accepted_list content) eqn:E; simpl;
      [now apply (accepted_list_length content) | reflexivity].
  - intros reqs Hreqs.
    destruct (generate_risks_returns state w reqs content Hreqs Hllm)
      as (st' & w' & lg & Hrun & Hw & Hk & _ & Hr & _ & Hlg).
    assert (Hlen : length (default (generate_fallback_risks reqs)
                             (accepted_risks content)) = 5%nat).
    { destruct (accepted_risks content) eqn:E; simpl;
        [now apply (accepted_risks_length content)
        | apply generate_fallback_risks_length]. }
    exists st', w', lg, (default (generate_fallback_risks reqs) (accepted_risks content)).
    repeat split; try assumption; try apply Hw; try (now apply degraded_iff_logged).
    congruence.
Qed.

Lemma stages_complete_with_five_items_witness :
  exists st' w' lg reqs,
    generate_requirements keyword_selected_state
      (fresh_world (fun _ => Returns "no JSON here")) = (Ok st', w') /\
    requirements_output st' = Some reqs /\ length reqs = 5%nat /\
    reqs = default (fallback_requirements (selected_keyword keyword_selected_state))
             (accepted_list "no JSON here") /\
    log w' = log (fresh_world (fun _ => Returns "no JSON here")) ++ lg /\
    (accepted_list "no JSON here" = None <-> lg <> []).
Proof.
  assert (H : llm (fresh_world (fun _ => Returns "no JSON here"))
                (length (calls (fresh_world (fun _ => Returns "no JSON here"))))
              = Returns "no JSON here") by reflexivity.
  exact (proj1 (proj2 (stages_complete_with_five_items keyword_selected_state _ _ H))).
Defined.

(** C5 as stated fails on the flag: a response with no requirement at all and
    a response that spells out the templated requirements leave the stage in
    the same state, so nothing in the result tells the degraded outcome. *)
Lemma degradation_not_flagged_in_result : ~ degradation_flagged_in_result.
Proof.
  intros [flag H].
  pose (w1 := fresh_world (fun _ => Returns "[]")).
  pose (w2 := fresh_world (fun _ => Returns templated_response)).
  assert (Hsame : fst (generate_requirements keyword_selected_state w1)
                  = fst (generate_requirements keyword_selected_state w2))
    by (vm_compute; reflexivity).
  assert (H1 : accepted_list "[]" = None) by (vm_compute; reflexivity).
  assert (H2 : accepted_list templated_response <> None) by (vm_compute; discriminate).
  destruct (generate_requirements keyword_selected_state w1) as [[st1|e1] w1'] eqn:E1;
    [| vm_compute in E1; discriminate E1].
  destruct (generate_requirements keyword_selected_state w2) as [[st2|e2] w2'] eqn:E2;
    [| vm_compute in E2; discriminate E2].
  simpl in Hsame. injection Hsame as <-.
  pose proof (H keyword_selected_state w1 "[]" st1 w1' eq_refl E1) as F1.
  pose proof (H keyword_selected_state w2 templated_response st1 w2' eq_refl E2) as F2.
  apply H2, F2, F1, H1.
Qed.

(** C2, as amended.  When the call to the generator raises, neither whole-stage
    generator raises: each logs the error and returns the state with its
    templated fallback, which is the content it also substitutes when a
    returned text fails validation. *)
Theorem unavailability_replaced_by_fallback
    (state : KeywordState) (reqs : list string) (w : World) :
  requirements_output state = Some reqs ->
  llm w (length (calls w)) = Fails ->
  generate_requirements state w
  = (Ok (set_requirements_output
           (Some (fallback_requirements (selected_keyword state))) state),
     add_log (StageError Requirements GeneratorError)
       (add_call (RequirementsPrompt (selected_keyword state)
                    (requirement_description state)) w)) /\
  generate_risks state w
  = (Ok (set_risks_output (Some (generate_fallback_risks reqs)) state),
     add_log (StageError Risks GeneratorError) (add_call (RisksPrompt reqs) w)) /\
  (forall w2 content,
      llm w2 (length (calls w2)) = Returns content ->
      (accepted_list content = None ->
       exists st2 w2', generate_requirements state w2 = (Ok st2, w2') /\
                       requirements_output st2
                       = Some (fallback_requirements (selected_keyword state))) /\
      (accepted_risks content = None ->
       exists st2 w2', generate_risks state w2 = (Ok st2, w2') /\
                       risks_output st2 = Some (generate_fallback_risks reqs))).
Proof.
  intros Hreqs Hllm. split; [| split].
  - now apply generate_requirements_fails.
  - now apply generate_risks_fails.
  - intros w2 content Hllm2. split; intros Hnone.
    + destruct (generate_requirements_returns state w2 content Hllm2)
        as (st2 & w2' & lg & Hrun & _ & Hk & _).
      exists st2, w2'. split; [assumption |]. now rewrite Hk, Hnone.
    + destruct (generate_risks_returns state w2 reqs content Hreqs Hllm2)
        as (st2 & w2' & lg & Hrun & _ & Hk & _).
      exists st2, w2'. split; [assumption |]. now rewrite Hk, Hnone.
Qed.

Lemma unavailability_replaced_by_fallback_witness :
  generate_risks five_by_five_state (fresh_world (fun _ => Fails))
  = (Ok (set_risks_output
           (Some (generate_fallback_risks
                    ["req zero"; "req one"; "req two"; "req three"; "req four"]))
           five_by_five_state),
     add_log (StageError Risks GeneratorError)
       (add_call (RisksPrompt ["req zero"; "req one"; "req two"; "req three"; "req four"])
          (fresh_world (fun _ => Fails)))).
Proof.
  exact (proj1 (proj2 (unavailability_replaced_by_fallback five_by_five_state
                         ["req zero"; "req one"; "req two"; "req three"; "req four"]
                         (fresh_world (fun _ => Fails)) eq_refl eq_refl))).
Defined.

(** C2 as stated fails: with the generator down the requirement stage returns
    normally. *)
Lemma unavailability_does_not_propagate : ~ unavailability_propagates.
Proof.
  intros H.
  destruct (H five_by_five_state _ (fresh_world (fun _ => Fails)) eq_refl eq_refl)
    as [[w' Hreq] _].
  rewrite generate_requirements_fails in Hreq by reflexivity. discriminate Hreq.
Qed.

(** ** Route handlers *)

Lemma route_guard_run {A} (m : M A) w :
  route_guard m w =
  match m w with
  | (Ok a, w') => (Ok a, w')
  | (Raise (HTTPException c d), w') => (Raise (HTTPException c d), w')
  | (Raise e, w') => (Raise (HTTPException 500 (exn_text e)), add_log (RouteError e) w')
  end.
Proof.
  unfold route_guard, try_except. destruct (m w) as [[a|e] w']; [reflexivity |].
  destruct e; reflexivity.
Qed.

Lemma generate_risks_ok state w reqs :
  requirements_output state = Some reqs ->
  exists st' w', generate_risks state w = (Ok st', w') /\
                 requirements_output st' = Some reqs /\
                 (exists risks, risks_output st' = Some risks /\ length risks = 5%nat) /\
                 length (calls w') = S (length (calls w)) /\
                 workflow_states w' = workflow_states w.
Proof.
  intros Hreqs. destruct (llm w (length (calls w))) as [content|] eqn:Hllm.
  - destruct (generate_risks_returns state w reqs content Hreqs Hllm)
      as (st' & w' & lg & Hrun & Hw & Hk & _ & Hr & _ & _).
    exists st', w'. repeat split; try assumption.
    + eexists. split; [exact Hk |].
      destruct (accepted_risks content) eqn:E; simpl;
        [now apply (accepted_risks_length content) | apply generate_fallback_risks_length].
    + destruct Hw as (_ & Hc & _). rewrite Hc, length_app. simpl. lia.
    + apply Hw.
  - rewrite (generate_risks_fails state w reqs Hreqs Hllm).
    eexists _, _. repeat split.
    + assumption.
    + eexists. split; [reflexivity | apply generate_fallback_risks_length].
    + simpl. rewrite length_app. simpl. lia.
Qed.

Lemma setitem_some {A} (xs : list A) i v :
  - Z.of_nat (length xs) <= i < Z.of_nat (length xs) ->
  exists l, Py.setitem xs i v = Some l /\ length l = length xs.
Proof.
  intros H. unfold Py.setitem.
  destruct (Z.leb_spec 0 i); destruct (Z.ltb_spec i (Z.of_nat (length xs))); simpl; try lia.
  - eexists. split; [reflexivity | apply length_insert].
  - destruct (Z.ltb_spec i 0); destruct (Z.leb_spec (- Z.of_nat (length xs)) i); simpl; try lia.
    eexists. split; [reflexivity | apply length_insert].
Qed.

Lemma setitem_none {A} (xs : list A) i v :
  i < - Z.of_nat (length xs) -> Py.setitem xs i v = None.
Proof.
  intros H. unfold Py.setitem.
  destruct (Z.leb_spec 0 i); simpl; try lia.
  destruct (Z.ltb_spec i 0); destruct (Z.leb_spec (- Z.of_nat (length xs)) i); simpl; try lia.
  reflexivity.
Qed.

(** C9.  With the list of the edited kind present, [update_item] fails with
    the invalid-index error (status 400) exactly when the index is at least the
    length of that list, and then nothing has changed; so index 7 on a list of
    five fails, and a negative index is never rejected by this check. *)
Theorem update_item_invalid_index (request : ItemUpdateRequest) (w : World)
    (state : KeywordState) (xs : list string) :
  workflow_states w !! iu_thread_id request = Some state ->
  (iu_type request = "requirement" /\ requirements_output state = Some xs) \/
  (iu_type request = "risk" /\ risks_output state = Some xs) ->
  (Z.of_nat (length xs) <= iu_index request ->
   update_item request w
   = (Raise (HTTPException 400 ("Invalid " +:+ iu_type request +:+ " index")), w)) /\
  (iu_index request < Z.of_nat (length xs) ->
   forall d w', update_item request w <> (Raise (HTTPException 400 d), w')).
Proof.
  intros Hst Hty. split.
  - intros Hge. unfold update_item. rewrite route_guard_run.
    unfold bind at 1. unfold lookup_state at 1. rewrite Hst.
    destruct Hty as [[Ht Hx] | [Ht Hx]]; rewrite Ht; simpl String.eqb; cbv iota.
    + unfold bind at 1. rewrite Hx.
      destruct (Z.leb_spec (Z.of_nat (length xs)) (iu_index request)); [| lia].
      reflexivity.
    + unfold bind at 1. rewrite Hx.
      destruct (Z.leb_spec (Z.of_nat (length xs)) (iu_index request)); [| lia].
      reflexivity.
  - intros Hlt d w'. unfold update_item. rewrite route_guard_run.
    unfold bind at 1. unfold lookup_state at 1. rewrite Hst.
    destruct Hty as [[Ht Hx] | [Ht Hx]]; rewrite Ht; simpl String.eqb; cbv iota.
    + unfold bind at 1. rewrite Hx.
      destruct (Z.leb_spec (Z.of_nat (length xs)) (iu_index request)); [lia |].
      unfold bind at 1. unfold setitem_exn.
      destruct (Z.lt_ge_cases (iu_index request) (- Z.of_nat (length xs))) as [Hneg|Hin].
      * rewrite setitem_none by assumption. simpl. discriminate.
      * destruct (setitem_some xs (iu_index request) (iu_new_content request)) as (l & -> & _);
          [lia |].
        unfold ret at 1. unfold bind at 1. unfold store_state at 1.
        destruct (iu_update_related request && _) eqn:Hc.
        -- unfold bind at 1.
           destruct (generate_risks_ok (set_requirements_output (Some l) state)
                       (put_state (iu_thread_id request)
                          (set_requirements_output (Some l) state) w) l eq_refl)
             as (st' & w1 & -> & _).
           simpl. discriminate.
        -- simpl. discriminate.
    + unfold bind at 1. rewrite Hx.
      destruct (Z.leb_spec (Z.of_nat (length xs)) (iu_index request)); [lia |].
      unfold bind at 1. unfold setitem_exn.
      destruct (Z.lt_ge_cases (iu_index request) (- Z.of_nat (length xs))) as [Hneg|Hin].
      * rewrite setitem_none by assumption. simpl. discriminate.
      * destruct (setitem_some xs (iu_index request) (iu_new_content request)) as (l & -> & _);
          [lia |].
        simpl. discriminate.
Qed.

Lemma update_item_invalid_index_witness :
  update_item {| iu_thread_id := "demo"; iu_index := 7; iu_type := "requirement";
                 iu_new_content := "text"; iu_update_related := true |}
    (demo_world (fun _ => Fails))
  = (Raise (HTTPException 400 "Invalid requirement index"), demo_world (fun _ => Fails)).
Proof.
  refine (proj1 (update_item_invalid_index
            {| iu_thread_id := "demo"; iu_index := 7; iu_type := "requirement";
               iu_new_content := "text"; iu_update_related := true |}
            (demo_world (fun _ => Fails)) five_by_five_state
            ["req zero"; "req one"; "req two"; "req three"; "req four"] _ _) _).
  - reflexivity.
  - left. split; reflexivity.
  - simpl. lia.
Defined.

Example update_item_negative_index_accepted :
  match update_item {| iu_thread_id := "demo"; iu_index := -1; iu_type := "risk";
                       iu_new_content := "text"; iu_update_related := false |}
          (demo_world (fun _ => Fails)) with
  | (Ok resp, _) =>
      r_risks resp = Some ["risk zero"; "risk one"; "risk two"; "risk three"; "text"]
  | (Raise _, _) => False
  end.
Proof. vm_compute. reflexivity. Qed.

(** C8 on the code: an edit of requirement 0 with the cascade requested
    replaces all five risks by the fresh batch, not only the paired risk 0. *)
Theorem update_item_cascade_regenerates_every_risk :
  match update_item edit_request (demo_world (fun _ => Returns new_risks_response)) with
  | (Ok resp, w') =>
      r_requirements resp
      = Some ["edited requirement"; "req one"; "req two"; "req three"; "req four"] /\
      r_risks resp
      = Some ["new risk zero"; "new risk one"; "new risk two"; "new risk three";
              "new risk four"] /\
      (workflow_states w' !! "demo") ≫= risks_output = r_risks resp
  | (Raise _, _) => False
  end.
Proof. vm_compute. repeat split; reflexivity. Qed.

Lemma bind_run {A B} (m : M A) (k : A -> M B) w :
  bind m k w = match m w with
               | (Ok a, w') => k a w'
               | (Raise e, w') => (Raise e, w')
               end.
Proof. reflexivity. Qed.

Ltac step := rewrite bind_run; cbv beta iota.

Lemma generate_requirements_ok state w :
  exists st' w' batch,
    generate_requirements state w = (Ok st', w') /\
    requirements_output st' = Some batch /\ length batch = 5%nat /\
    risks_output st' = risks_output state /\
    selected_keyword st' = selected_keyword state /\
    calls w' = calls w ++ [RequirementsPrompt (selected_keyword state)
                             (requirement_description state)] /\
    workflow_states w' = workflow_states w.
Proof.
  destruct (llm w (length (calls w))) as [content|] eqn:Hllm.
  - destruct (generate_requirements_returns state w content Hllm)
      as (st' & w' & lg & Hrun & Hw & Hk & _ & Hr & Hin & _).
    exists st', w', (default (fallback_requirements (selected_keyword state))
                       (accepted_list content)).
    repeat split; try assumption; try apply Hw; try apply Hin.
    destruct (accepted_list content) eqn:E; simpl;
      [now apply (accepted_list_length content) | reflexivity].
  - rewrite (generate_requirements_fails state w Hllm).
    eexists _, _, _. repeat split; reflexivity.
Qed.

Lemma regenerate_requirements_no_keyword request w state :
  workflow_states w !! sr_thread_id request = Some state ->
  truthy_opt (selected_keyword state) = false ->
  regenerate_requirements request w = (Raise (HTTPException 400 "No keyword selected"), w).
Proof.
  intros Hst Hk. unfold regenerate_requirements. rewrite route_guard_run.
  unfold bind at 1. unfold lookup_state at 1. rewrite Hst, Hk. reflexivity.
Qed.

(** C3.  On a session with five requirements, [regenerate_requirements] with
    the index list [2] leaves the requirements at positions 0, 1, 3 and 4 and
    the risks as they were; when a keyword is selected it succeeds, calls the
    whole-stage generator exactly once, and position 2 holds item 2 of the
    fresh batch. *)
Theorem regenerate_requirements_commits_selected
    (w : World) (thread_id : string) (state : KeywordState) (reqs : list string)
    (risk_indexes : option (list Z)) :
  workflow_states w !! thread_id = Some state ->
  requirements_output state = Some reqs ->
  length reqs = 5%nat ->
  let request := {| sr_thread_id := thread_id; sr_requirement_indexes := Some [2];
                    sr_risk_indexes := risk_indexes |} in
  exists r w' state' reqs',
    regenerate_requirements request w = (r, w') /\
    workflow_states w' !! thread_id = Some state' /\
    requirements_output state' = Some reqs' /\
    length reqs' = 5%nat /\
    (forall i, i <> 2%nat -> reqs' !! i = reqs !! i) /\
    risks_output state' = risks_output state /\
    (truthy_opt (selected_keyword state) = true ->
     exists resp st1 w1 batch,
       r = Ok resp /\
       generate_requirements state w = (Ok st1, w1) /\
       requirements_output st1 = Some batch /\
       reqs' !! 2%nat = batch !! 2%nat /\
       calls w' = calls w ++ [RequirementsPrompt (selected_keyword state)
                                (requirement_description state)] /\
       r_requirements resp = Some reqs' /\
       r_risks resp = risks_output state).
Proof.
  intros Hst Hreqs Hlen request.
  destruct (truthy_opt (selected_keyword state)) eqn:Hk.
  - destruct (generate_requirements_ok state w)
      as (st1 & w1 & batch & Hrun & Hb & Hbl & Hrisk & Hsel & Hcalls & Hws).
    destruct reqs as [|a0 [|a1 [|a2 [|a3 [|a4 [|]]]]]]; try discriminate Hlen.
    destruct batch as [|b0 [|b1 [|b2 [|b3 [|b4 [|]]]]]]; try discriminate Hbl.
    assert (Hroute :
      regenerate_requirements request w
      = (Ok (regenerated_response thread_id
               (set_requirements_output (Some [a0; a1; b2; a3; a4]) st1)
               "Regenerated 1 requirements"),
         put_state thread_id (set_requirements_output (Some [a0; a1; b2; a3; a4]) st1)
           (put_state thread_id st1 w1))).
    { unfold regenerate_requirements. rewrite route_guard_run.
      unfold bind at 1. unfold lookup_state at 1. subst request. cbn [sr_thread_id sr_requirement_indexes sr_risk_indexes].
      rewrite Hst, Hk, Hreqs. change (negb true) with false. cbv iota.
      step. rewrite Hrun. cbv iota.
      step. unfold store_state at 1. cbv iota.
      step. unfold requirements_attr at 1. rewrite Hb. unfold ret at 1. cbv iota.
      reflexivity. }
    eexists _, _, _, _. split; [exact Hroute |].
    split; [simpl; apply lookup_insert_eq |].
    split; [reflexivity |]. split; [reflexivity |].
    split; [intros i Hi; destruct i as [|[|[|i]]]; try reflexivity; contradiction |].
    split; [exact Hrisk |].
    intros _. eexists _, st1, w1, _. split; [reflexivity |].
    split; [exact Hrun |]. split; [exact Hb |]. split; [reflexivity |].
    split; [exact Hcalls |]. split; [reflexivity | exact Hrisk].
  - rewrite (regenerate_requirements_no_keyword request w state Hst Hk).
    eexists _, w, state, reqs. split; [reflexivity |].
    repeat split; try assumption. discriminate.
Qed.

Lemma regenerate_requirements_commits_selected_witness :
  exists r w' state' reqs',
    regenerate_requirements
      {| sr_thread_id := "demo"; sr_requirement_indexes := Some [2];
         sr_risk_indexes := None |} (demo_world (fun _ => Returns "[]")) = (r, w') /\
    workflow_states w' !! "demo" = Some state' /\
    requirements_output state' = Some reqs' /\
    length reqs' = 5%nat /\
    (forall i, i <> 2%nat ->
               reqs' !! i = ["req zero"; "req one"; "req two"; "req three"; "req four"] !! i) /\
    risks_output state' = risks_output five_by_five_state /\
    (truthy_opt (selected_keyword five_by_five_state) = true ->
     exists resp st1 w1 batch,
       r = Ok resp /\
       generate_requirements five_by_five_state (demo_world (fun _ => Returns "[]"))
       = (Ok st1, w1) /\
       requirements_output st1 = Some batch /\
       reqs' !! 2%nat = batch !! 2%nat /\
       calls w' = calls (demo_world (fun _ => Returns "[]"))
                  ++ [RequirementsPrompt (selected_keyword five_by_five_state)
                        (requirement_description five_by_five_state)] /\
       r_requirements resp = Some reqs' /\
       r_risks resp = risks_output five_by_five_state).
Proof.
  exact (regenerate_requirements_commits_selected (demo_world (fun _ => Returns "[]"))
           "demo" five_by_five_state
           ["req zero"; "req one"; "req two"; "req three"; "req four"] None
           eq_refl eq_refl eq_refl).
Defined.

Lemma getitem_some {A} (xs : list A) i :
  - Z.of_nat (length xs) <= i < Z.of_nat (length xs) ->
  exists x, Py.getitem xs i = Some x /\
            xs !! Z.to_nat (position_of (Z.of_nat (length xs)) i) = Some x.
Proof.
  intros H. unfold Py.getitem, position_of.
  destruct (Z.ltb_spec i 0).
  - destruct (Z.leb_spec 0 i); [lia |]. simpl.
    destruct (Z.leb_spec (- Z.of_nat (length xs)) i); [| lia]. simpl.
    destruct (lookup_lt_is_Some_2 xs (Z.to_nat (i + Z.of_nat (length xs)))) as [x Hx]; [lia |].
    exists x. now rewrite Hx.
  - destruct (Z.leb_spec 0 i); [| lia].
    destruct (Z.ltb_spec i (Z.of_nat (length xs))); [| lia]. simpl.
    destruct (lookup_lt_is_Some_2 xs (Z.to_nat i)) as [x Hx]; [lia |].
    exists x. now rewrite Hx.
Qed.

Lemma getitem_none {A} (xs : list A) i :
  i < - Z.of_nat (length xs) -> Py.getitem xs i = None.
Proof.
  intros H. unfold Py.getitem.
  destruct (Z.leb_spec 0 i); simpl; [lia |].
  destruct (Z.ltb_spec i 0); destruct (Z.leb_spec (- Z.of_nat (length xs)) i); simpl;
    try lia; reflexivity.
Qed.

Lemma setitem_position {A} (xs : list A) i v :
  - Z.of_nat (length xs) <= i < Z.of_nat (length xs) ->
  Py.setitem xs i v = Some (<[Z.to_nat (position_of (Z.of_nat (length xs)) i) := v]> xs).
Proof.
  intros H. unfold Py.setitem, position_of.
  destruct (Z.ltb_spec i 0).
  - destruct (Z.leb_spec 0 i); [lia |]. simpl.
    destruct (Z.leb_spec (- Z.of_nat (length xs)) i); [| lia]. reflexivity.
  - destruct (Z.leb_spec 0 i); [| lia].
    destruct (Z.ltb_spec i (Z.of_nat (length xs))); [| lia]. reflexivity.
Qed.

(** [item_or_empty] succeeds unless the index is below [-len]. *)
Lemma item_or_empty_ok xs index :
  - Z.of_nat (length xs) <= index -> exists x, item_or_empty xs index = ret x.
Proof.
  intros H. unfold item_or_empty.
  destruct (Z.ltb_spec index (Z.of_nat (length xs))); [| now exists ""].
  destruct (getitem_some xs index) as (x & -> & _); [lia |]. now exists x.
Qed.

Lemma item_or_empty_beyond xs index :
  Z.of_nat (length xs) <= index -> item_or_empty xs index = ret "".
Proof.
  intros H. unfold item_or_empty.
  destruct (Z.ltb_spec index (Z.of_nat (length xs))); [lia | reflexivity].
Qed.

Lemma item_or_empty_below xs index :
  index < - Z.of_nat (length xs) -> item_or_empty xs index = raise IndexError.
Proof.
  intros H. unfold item_or_empty.
  destruct (Z.ltb_spec index (Z.of_nat (length xs))); [| lia].
  now rewrite getitem_none.
Qed.

(** One requirement regeneration: exactly one call, never an exception, as
    long as the index is not below [-len]. *)
Lemma single_requirement_attempt state index feedback w reqs :
  requirements_output state = Some reqs ->
  - Z.of_nat (length reqs) <= index ->
  exists text w' lg current,
    generate_single_requirement_with_feedback state index feedback w = (Ok text, w') /\
    item_or_empty reqs index = ret current /\
    one_call (SingleRequirementPrompt (selected_keyword state)
                (requirement_description state) current feedback (index + 1)) lg w w'.
Proof.
  intros Hreqs Hidx.
  destruct (item_or_empty_ok reqs index Hidx) as [current Hcur].
  unfold generate_single_requirement_with_feedback, try_except, bind, requirements_attr.
  rewrite Hreqs. unfold ret at 1. rewrite Hcur. unfold ret at 1.
  unfold invoke. destruct (llm w (length (calls w))) as [content|].
  - destruct (Py.len (clean_quotes (Py.strip content)) <? 10).
    + eexists _, _, _, current. split; [reflexivity |]. split; [reflexivity |].
      repeat split; reflexivity.
    + eexists _, _, [], current. split; [reflexivity |]. split; [reflexivity |].
      repeat split; simpl; rewrite ?app_nil_r; reflexivity.
  - unfold logger, ret. simpl. rewrite Hcur.
    eexists _, _, _, current. split; [reflexivity |]. split; [reflexivity |].
    repeat split; reflexivity.
Qed.

Lemma single_requirement_below state index feedback w reqs :
  requirements_output state = Some reqs ->
  index < - Z.of_nat (length reqs) ->
  generate_single_requirement_with_feedback state index feedback w
  = (Raise IndexError, add_log (SingleError RequirementItem IndexError) w).
Proof.
  intros Hreqs Hidx.
  unfold generate_single_requirement_with_feedback, try_except, bind, requirements_attr.
  rewrite Hreqs. unfold ret at 1. rewrite (item_or_empty_below reqs index Hidx).
  unfold raise at 1. unfold logger, ret. simpl.
  rewrite (item_or_empty_below reqs index Hidx). reflexivity.
Qed.

Lemma single_risk_attempt state index feedback w reqs risks :
  requirements_output state = Some reqs ->
  risks_output state = Some risks ->
  - Z.of_nat (length reqs) <= index ->
  - Z.of_nat (length risks) <= index ->
  exists text w' lg current_requirement current_risk,
    generate_single_risk_with_feedback state index feedback w = (Ok text, w') /\
    item_or_empty reqs index = ret current_requirement /\
    item_or_empty risks index = ret current_risk /\
    one_call (SingleRiskPrompt current_requirement current_risk feedback (index + 1))
      lg w w'.
Proof.
  intros Hreqs Hrisks Hq Hk.
  destruct (item_or_empty_ok reqs index Hq) as [cq Hcq].
  destruct (item_or_empty_ok risks index Hk) as [ck Hck].
  unfold generate_single_risk_with_feedback, try_except, bind, requirements_attr, risks_attr.
  rewrite Hreqs, Hrisks. unfold ret at 1. rewrite Hck. unfold ret at 1. unfold ret at 1.
  rewrite Hcq. unfold ret at 1.
  unfold invoke. destruct (llm w (length (calls w))) as [content|].
  - destruct (Py.len (clean_quotes (Py.strip content)) <? 10).
    + eexists _, _, _, cq, ck. split; [reflexivity |]. repeat split; reflexivity.
    + eexists _, _, [], cq, ck. split; [reflexivity |].
      repeat split; simpl; rewrite ?app_nil_r; reflexivity.
  - unfold logger, ret. simpl. rewrite Hck.
    eexists _, _, _, cq, ck. split; [reflexivity |]. repeat split; reflexivity.
Qed.

Lemma single_risk_below state index feedback w risks :
  risks_output state = Some risks ->
  index < - Z.of_nat (length risks) ->
  generate_single_risk_with_feedback state index feedback w
  = (Raise IndexError, add_log (SingleError RiskItem IndexError) w).
Proof.
  intros Hrisks Hidx.
  unfold generate_single_risk_with_feedback, try_except, bind, risks_attr.
  rewrite Hrisks. unfold ret at 1. rewrite (item_or_empty_below risks index Hidx).
  unfold raise at 1. unfold logger, ret. simpl.
  rewrite (item_or_empty_below risks index Hidx). reflexivity.
Qed.

Lemma quiet_refl w : quiet w w.
Proof. repeat split. Qed.

Lemma quiet_trans w1 w2 w3 : quiet w1 w2 -> quiet w2 w3 -> quiet w1 w3.
Proof. unfold quiet. intros (? & ? & ? & ?) (? & ? & ? & ?). repeat split; congruence. Qed.

Lemma quiet_add_log r w : quiet w (add_log r w).
Proof. repeat split. Qed.

Lemma feedback_requirements_loop_skips state feedback indexes reqs :
  requirements_output state = Some reqs ->
  Forall (out_of_range (Z.of_nat (length reqs))) indexes ->
  forall cr up w,
    length cr = length reqs ->
    exists w', feedback_requirements_loop state feedback indexes cr up w = (Ok (cr, up), w')
               /\ quiet w w'.
Proof.
  intros Hreqs Hall. induction Hall as [|idx rest Hidx _ IH]; intros cr up w Hlen.
  - exists w. split; [reflexivity | apply quiet_refl].
  - simpl. step. unfold feedback_requirement_step. rewrite Hlen.
    destruct Hidx as [Hge | Hlt].
    + destruct (Z.ltb_spec idx (Z.of_nat (length reqs))); [lia |].
      unfold ret at 1. cbv iota. simpl fst. simpl snd. now apply IH.
    + destruct (Z.ltb_spec idx (Z.of_nat (length reqs))); [| lia].
      unfold try_except. step.
      rewrite (single_requirement_below state idx feedback w reqs Hreqs Hlt).
      cbv iota. unfold logger at 1. unfold bind at 1. unfold ret at 1.
      simpl fst. simpl snd.
      destruct (IH cr up (add_log (UpdateError RequirementItem idx IndexError)
                            (add_log (SingleError RequirementItem IndexError) w)) Hlen)
        as (w' & -> & Hq).
      exists w'. split; [reflexivity |].
      eapply quiet_trans; [| exact Hq].
      eapply quiet_trans; apply quiet_add_log.
Qed.

Lemma feedback_risks_loop_skips state feedback indexes risks :
  risks_output state = Some risks ->
  Forall (out_of_range (Z.of_nat (length risks))) indexes ->
  forall cr n w,
    length cr = length risks ->
    exists w', feedback_risks_loop state feedback indexes cr n w = (Ok (cr, n), w')
               /\ quiet w w'.
Proof.
  intros Hrisks Hall. induction Hall as [|idx rest Hidx _ IH]; intros cr n w Hlen.
  - exists w. split; [reflexivity | apply quiet_refl].
  - simpl. step. unfold feedback_risk_step. rewrite Hlen.
    destruct Hidx as [Hge | Hlt].
    + destruct (Z.ltb_spec idx (Z.of_nat (length risks))); [lia |].
      unfold ret at 1. cbv iota. simpl fst. simpl snd. now apply IH.
    + destruct (Z.ltb_spec idx (Z.of_nat (length risks))); [| lia].
      unfold try_except. step.
      rewrite (single_risk_below state idx feedback w risks Hrisks Hlt).
      cbv iota. unfold logger at 1. unfold bind at 1. unfold ret at 1.
      simpl fst. simpl snd.
      destruct (IH cr n (add_log (UpdateError RiskItem idx IndexError)
                           (add_log (SingleError RiskItem IndexError) w)) Hlen)
        as (w' & -> & Hq).
      exists w'. split; [reflexivity |].
      eapply quiet_trans; [| exact Hq].
      eapply quiet_trans; apply quiet_add_log.
Qed.

Lemma ensure_keyword_run thread_id state w :
  exists st1 w1,
    ensure_keyword thread_id state w = (Ok st1, w1) /\
    requirements_output st1 = requirements_output state /\
    risks_output st1 = risks_output state /\
    llm w1 = llm w /\ calls w1 = calls w.
Proof.
  unfold ensure_keyword. destruct (truthy_opt (selected_keyword state)); simpl.
  - exists state, w. repeat split; reflexivity.
  - eexists _, _. repeat split; reflexivity.
Qed.

Lemma regenerate_with_feedback_skips request w state reqs risks :
  workflow_states w !! fb_thread_id request = Some state ->
  requirements_output state = Some reqs ->
  risks_output state = Some risks ->
  (fb_regenerate_type request = "requirement" /\
   Forall (out_of_range (Z.of_nat (length reqs))) (fb_indexes request)) \/
  (fb_regenerate_type request = "risks" /\
   Forall (out_of_range (Z.of_nat (length risks))) (fb_indexes request)) ->
  exists resp w',
    regenerate_with_feedback request w = (Ok resp, w') /\
    r_status resp = "regenerated" /\
    r_requirements resp = Some reqs /\ r_risks resp = Some risks /\
    calls w' = calls w /\
    (workflow_states w' !! fb_thread_id request) ≫= requirements_output = Some reqs /\
    (workflow_states w' !! fb_thread_id request) ≫= risks_output = Some risks.
Proof.
  intros Hst Hreqs Hrisks Hcase.
  unfold regenerate_with_feedback. rewrite route_guard_run.
  step. unfold lookup_state at 1. rewrite Hst. cbv iota.
  destruct (ensure_keyword_run (fb_thread_id request) state w)
    as (st1 & w1 & Hens & Hq1 & Hk1 & _ & Hc1).
  rewrite Hreqs in Hq1. rewrite Hrisks in Hk1.
  step. rewrite Hens. cbv iota.
  destruct Hcase as [[Hty Hall] | [Hty Hall]].
  - step. rewrite Hty. change ("requirement" =? "requirement")%string with true. cbv iota.
    unfold feedback_requirement_branch. rewrite Hq1. cbv beta iota zeta. step.
    destruct (feedback_requirements_loop_skips st1 (fb_feedback request)
                (fb_indexes request) reqs Hq1 Hall reqs [] w1 eq_refl)
      as (w2 & -> & Hquiet).
    unfold bind, store_state, requirements_attr, risks_attr, ret. simpl.
    rewrite Hk1.
    eexists _, _. split; [reflexivity |]. simpl.
    rewrite !lookup_insert_eq. simpl.
    destruct Hquiet as (_ & Hc & _). repeat split; try assumption; congruence.
  - step. rewrite Hty. change ("risks" =? "requirement")%string with false.
    change ("risks" =? "risks")%string with true. cbv iota.
    unfold feedback_risk_branch. rewrite Hk1. cbv beta iota zeta. step.
    destruct (feedback_risks_loop_skips st1 (fb_feedback request)
                (fb_indexes request) risks Hk1 Hall risks 0%nat w1 eq_refl)
      as (w2 & -> & Hquiet).
    unfold bind, store_state, requirements_attr, risks_attr, ret. simpl.
    rewrite Hq1.
    eexists _, _. split; [reflexivity |]. simpl.
    rewrite !lookup_insert_eq. simpl.
    destruct Hquiet as (_ & Hc & _). repeat split; try assumption; congruence.
Qed.

Lemma ret_inj {A} (x y : A) : @ret A x = ret y -> x = y.
Proof.
  intros H. pose proof (f_equal (fun f => f (fresh_world (fun _ => Fails))) H) as E.
  now injection E.
Qed.

(** C7, as amended.  An index at or beyond the length of the list, or below
    minus the length, is not rejected.  [regenerate_with_feedback] skips it: with
    only such indexes it answers with a normal response, makes no call to the
    generator and leaves both lists as they were.  The single-item generators
    themselves, given an index at or beyond the length, take the current item
    to be the empty string and call the generator all the same. *)
Theorem out_of_range_index_ignored (request : FeedbackRequest) (w : World)
    (state : KeywordState) (reqs risks : list string) :
  workflow_states w !! fb_thread_id request = Some state ->
  requirements_output state = Some reqs ->
  risks_output state = Some risks ->
  ((fb_regenerate_type request = "requirement" /\
    Forall (out_of_range (Z.of_nat (length reqs))) (fb_indexes request)) \/
   (fb_regenerate_type request = "risks" /\
    Forall (out_of_range (Z.of_nat (length risks))) (fb_indexes request)) ->
   exists resp w',
     regenerate_with_feedback request w = (Ok resp, w') /\
     r_status resp = "regenerated" /\
     r_requirements resp = Some reqs /\ r_risks resp = Some risks /\
     calls w' = calls w /\
     (workflow_states w' !! fb_thread_id request) ≫= requirements_output = Some reqs /\
     (workflow_states w' !! fb_thread_id request) ≫= risks_output = Some risks) /\
  (forall index feedback w0,
      Z.of_nat (length reqs) <= index ->
      exists text w' lg,
        generate_single_requirement_with_feedback state index feedback w0 = (Ok text, w') /\
        one_call (SingleRequirementPrompt (selected_keyword state)
                    (requirement_description state) "" feedback (index + 1)) lg w0 w') /\
  (forall index feedback w0,
      Z.of_nat (length reqs) <= index -> Z.of_nat (length risks) <= index ->
      exists text w' lg,
        generate_single_risk_with_feedback state index feedback w0 = (Ok text, w') /\
        one_call (SingleRiskPrompt "" "" feedback (index + 1)) lg w0 w').
Proof.
  intros Hst Hreqs Hrisks. split; [| split].
  - intros Hcase. now apply (regenerate_with_feedback_skips request w state reqs risks).
  - intros index feedback w0 Hge.
    destruct (single_requirement_attempt state index feedback w0 reqs Hreqs ltac:(lia))
      as (text & w' & lg & cur & Hrun & Hcur & Hcall).
    rewrite (item_or_empty_beyond reqs index Hge) in Hcur.
    apply ret_inj in Hcur. subst cur. now exists text, w', lg.
  - intros index feedback w0 Hq Hk.
    destruct (single_risk_attempt state index feedback w0 reqs risks Hreqs Hrisks
                ltac:(lia) ltac:(lia))
      as (text & w' & lg & cq & ck & Hrun & Hcq & Hck & Hcall).
    rewrite (item_or_empty_beyond reqs index Hq) in Hcq.
    rewrite (item_or_empty_beyond risks index Hk) in Hck.
    apply ret_inj in Hcq, Hck. subst cq ck. now exists text, w', lg.
Qed.

Lemma out_of_range_index_ignored_witness :
  exists resp w',
    regenerate_with_feedback seven_request (demo_world (fun _ => Fails)) = (Ok resp, w') /\
    r_status resp = "regenerated" /\
    r_requirements resp = Some ["req zero"; "req one"; "req two"; "req three"; "req four"] /\
    r_risks resp = Some ["risk zero"; "risk one"; "risk two"; "risk three"; "risk four"] /\
    calls w' = calls (demo_world (fun _ => Fails)) /\
    (workflow_states w' !! fb_thread_id seven_request) ≫= requirements_output
    = Some ["req zero"; "req one"; "req two"; "req three"; "req four"] /\
    (workflow_states w' !! fb_thread_id seven_request) ≫= risks_output
    = Some ["risk zero"; "risk one"; "risk two"; "risk three"; "risk four"].
Proof.
  refine (proj1 (out_of_range_index_ignored seven_request (demo_world (fun _ => Fails))
                   five_by_five_state
                   ["req zero"; "req one"; "req two"; "req three"; "req four"]
                   ["risk zero"; "risk one"; "risk two"; "risk three"; "risk four"]
                   eq_refl eq_refl eq_refl) _).
  left. split; [reflexivity |].
  constructor; [| constructor]. left. simpl. lia.
Defined.

(** C7 as stated fails: index 7 on five requirements is answered with a normal
    response. *)
Lemma out_of_range_index_not_rejected : ~ out_of_range_rejected.
Proof.
  intros H.
  destruct (H seven_request (demo_world (fun _ => Fails)) five_by_five_state
              ["req zero"; "req one"; "req two"; "req three"; "req four"]
              ["risk zero"; "risk one"; "risk two"; "risk three"; "risk four"]
              eq_refl eq_refl eq_refl eq_refl) as (d & w' & Hrun).
  - exists 7. split; [apply list_elem_of_singleton; reflexivity | simpl; lia].
  - vm_compute in Hrun. discriminate Hrun.
Qed.

Lemma feedback_requirement_step_spec state feedback reqs0 idx cr up w :
  requirements_output state = Some reqs0 ->
  length cr = length reqs0 ->
  exists cr1 (committed : bool) w1 tr,
    feedback_requirement_step state feedback idx cr up w
    = (Ok (cr1, if committed then up ++ [idx] else up), w1) /\
    llm w1 = llm w /\ calls w1 = calls w ++ tr /\
    Forall not_risk_prompt tr /\
    length cr1 = length cr /\
    (if committed
     then - Z.of_nat (length reqs0) <= idx < Z.of_nat (length reqs0) /\
          exists text,
            cr1 = <[Z.to_nat (position_of (Z.of_nat (length reqs0)) idx) := text]> cr /\
            cr !! Z.to_nat (position_of (Z.of_nat (length reqs0)) idx) <> Some text
     else cr1 = cr).
Proof.
  intros Hreqs Hlen. unfold feedback_requirement_step. rewrite Hlen.
  destruct (Z.ltb_spec idx (Z.of_nat (length reqs0))) as [Hlt|Hge].
  2:{ exists cr, false, w, []. rewrite app_nil_r. repeat split; try assumption; constructor. }
  destruct (Z.lt_ge_cases idx (- Z.of_nat (length reqs0))) as [Hlow|Hin].
  - unfold try_except. step.
    rewrite (single_requirement_below state idx feedback w reqs0 Hreqs Hlow).
    cbv iota. unfold logger, bind, ret. simpl.
    exists cr, false. eexists _, []. split; [reflexivity |]. simpl.
    rewrite app_nil_r. repeat split; try assumption; constructor.
  - destruct (single_requirement_attempt state idx feedback w reqs0 Hreqs Hin)
      as (text & w1 & lg & cur & Hrun & _ & Hcall).
    destruct Hcall as (Hl & Hc & _).
    assert (Htr : Forall not_risk_prompt
                    [SingleRequirementPrompt (selected_keyword state)
                       (requirement_description state) cur feedback (idx + 1)])
      by (constructor; [intros n p; reflexivity | constructor]).
    unfold try_except. step. rewrite Hrun. cbv iota.
    destruct (Py.truthy text).
    2:{ unfold logger, bind, ret. simpl.
        exists cr, false. eexists _, _. split; [reflexivity |].
        simpl. repeat split; eassumption. }
    destruct (getitem_some cr idx) as (old & Hget & Hlook); [lia |].
    rewrite Hlen in Hlook.
    step. unfold getitem_exn at 1. rewrite Hget. unfold ret at 1. cbv iota.
    destruct (String.eqb_spec text old) as [->|Hne]; cbv beta iota delta [negb].
    + unfold logger, bind, ret. simpl.
      exists cr, false. eexists _, _. split; [reflexivity |].
      simpl. repeat split; eassumption.
    + step. unfold setitem_exn at 1. rewrite setitem_position by lia.
      rewrite Hlen. unfold ret. cbv iota.
      eexists _, true, w1, _. split; [reflexivity |].
      split; [assumption |]. split; [eassumption |]. split; [assumption |].
      split; [now rewrite length_insert |].
      split; [lia |]. exists text. split; [reflexivity |].
      rewrite Hlook. congruence.
Qed.

Lemma position_of_in_range n idx : in_range n idx -> 0 <= position_of n idx < n.
Proof. unfold in_range, position_of. destruct (Z.ltb_spec idx 0); lia. Qed.

Lemma pos_nat_inj n i j :
  in_range n i -> in_range n j -> pos_nat n i = pos_nat n j ->
  position_of n i = position_of n j.
Proof.
  intros Hi Hj. unfold pos_nat.
  pose proof (position_of_in_range n i Hi). pose proof (position_of_in_range n j Hj). lia.
Qed.

Lemma feedback_requirements_loop_spec state feedback reqs0 :
  requirements_output state = Some reqs0 ->
  forall indexes cr up w,
    length cr = length reqs0 ->
    exists cr' committed w' tr,
      feedback_requirements_loop state feedback indexes cr up w
      = (Ok (cr', up ++ committed), w') /\
      llm w' = llm w /\ calls w' = calls w ++ tr /\
      Forall not_risk_prompt tr /\
      length cr' = length cr /\
      sublist committed indexes /\
      Forall (in_range (Z.of_nat (length reqs0))) committed /\
      (forall p : nat, cr' !! p <> cr !! p ->
         exists idx, idx ∈ committed /\ pos_nat (Z.of_nat (length reqs0)) idx = p) /\
      (NoDup (map (position_of (Z.of_nat (length reqs0))) indexes) ->
       forall idx, idx ∈ committed ->
         cr' !! pos_nat (Z.of_nat (length reqs0)) idx
         <> cr !! pos_nat (Z.of_nat (length reqs0)) idx).
Proof.
  intros Hreqs. set (n := Z.of_nat (length reqs0)).
  induction indexes as [|idx rest IH]; intros cr up w Hlen.
  - exists cr, [], w, []. rewrite !app_nil_r.
    repeat split; try constructor.
    + intros p Hp. now contradiction Hp.
    + intros _ idx Hin. inversion Hin.
  - destruct (feedback_requirement_step_spec state feedback reqs0 idx cr up w Hreqs Hlen)
      as (cr1 & committed & w1 & tr1 & Hstep & Hl1 & Hc1 & Ht1 & Hlen1 & Hcm).
    fold n in Hcm.
    assert (Hlen1' : length cr1 = length reqs0) by congruence.
    destruct (IH cr1 (if committed then up ++ [idx] else up) w1 Hlen1')
      as (cr' & cm & w' & tr2 & Hrun & Hl2 & Hc2 & Ht2 & Hlen2 & Hsub & Hrange & Hchg & Hnd).
    simpl feedback_requirements_loop. step. rewrite Hstep. cbv iota.
    simpl fst. simpl snd. rewrite Hrun.
    destruct committed.
    + destruct Hcm as (Hin & text & -> & Hold).
      exists cr', (idx :: cm), w', (tr1 ++ tr2).
      split; [now rewrite <- app_assoc |].
      split; [congruence |].
      split; [rewrite Hc2, Hc1; now rewrite app_assoc |].
      split; [now apply Forall_app |].
      split; [congruence |].
      split; [now apply sublist_skip |].
      split; [now constructor |].
      split.
      * intros p Hp.
        destruct (decide (cr' !! p = <[pos_nat n idx := text]> cr !! p)) as [E|E].
        -- exists idx. split; [left |].
           destruct (decide (pos_nat n idx = p)) as [|Hne]; [assumption |].
           exfalso. apply Hp. rewrite E. now apply list_lookup_insert_ne.
        -- destruct (Hchg p E) as (idx0 & Hin0 & Hp0). exists idx0. split; [now right | assumption].
      * intros Hnodup idx' Hin'. simpl in Hnodup. apply NoDup_cons in Hnodup as [Hnotin Hnodup].
        assert (Hfresh : forall idx0, idx0 ∈ cm -> pos_nat n idx0 <> pos_nat n idx).
        { intros idx0 Hin0 Heq. apply Hnotin.
          rewrite <- (pos_nat_inj n idx0 idx); try assumption.
          - apply list_elem_of_fmap. exists idx0. split; [reflexivity |].
            eapply elem_of_sublist; eassumption.
          - rewrite Forall_forall in Hrange. now apply Hrange. }
        assert (Hkeep : cr' !! pos_nat n idx = <[pos_nat n idx := text]> cr !! pos_nat n idx).
        { destruct (decide (cr' !! pos_nat n idx
                            = <[pos_nat n idx := text]> cr !! pos_nat n idx)) as [E|E];
            [assumption |].
          destruct (Hchg _ E) as (idx0 & Hin0 & Hp0). now destruct (Hfresh idx0 Hin0). }
        apply elem_of_cons in Hin' as [-> | Hin'].
        -- rewrite Hkeep. rewrite list_lookup_insert_eq.
           ++ intros E. apply Hold. symmetry. exact E.
           ++ pose proof (position_of_in_range n idx Hin). unfold pos_nat. lia.
        -- specialize (Hnd Hnodup idx' Hin').
           rewrite list_lookup_insert_ne in Hnd; [assumption |].
           intros E. now apply (Hfresh idx' Hin').
    + subst cr1.
      exists cr', cm, w', (tr1 ++ tr2).
      split; [reflexivity |].
      split; [congruence |].
      split; [rewrite Hc2, Hc1; now rewrite app_assoc |].
      split; [now apply Forall_app |].
      split; [assumption |].
      split; [now apply sublist_cons |].
      split; [assumption |].
      split; [assumption |].
      intros Hnodup. simpl in Hnodup. apply NoDup_cons in Hnodup as [_ Hnodup]. now apply Hnd.
Qed.

Lemma cascade_risk_step_spec state cr_reqs reqs1 risks0 idx crisks w :
  requirements_output state = Some reqs1 ->
  risks_output state = Some risks0 ->
  length reqs1 = length risks0 ->
  length cr_reqs = length risks0 ->
  length crisks = length risks0 ->
  in_range (Z.of_nat (length risks0)) idx ->
  exists crisks1 w1 a b c,
    cascade_risk_step state cr_reqs idx crisks w = (Ok crisks1, w1) /\
    llm w1 = llm w /\
    calls w1 = calls w ++ [SingleRiskPrompt a b c (idx + 1)] /\
    length crisks1 = length crisks.
Proof.
  intros Hreqs Hrisks Hl1 Hl2 Hl3 Hin. unfold in_range in Hin.
  unfold cascade_risk_step. rewrite Hl3.
  destruct (Z.ltb_spec idx (Z.of_nat (length risks0))); [| lia].
  destruct (getitem_some cr_reqs idx) as (ur & Hget & _); [lia |].
  unfold try_except. step. unfold getitem_exn at 1. rewrite Hget. unfold ret at 1. cbv iota.
  destruct (single_risk_attempt state idx ("Requirement was updated to: " +:+ ur) w
              reqs1 risks0 Hreqs Hrisks ltac:(lia) ltac:(lia))
    as (text & w1 & lg & cq & ck & Hrun & _ & _ & Hcall).
  destruct Hcall as (Hl & Hc & _).
  step. rewrite Hrun. cbv iota.
  destruct (Py.truthy text).
  2:{ unfold logger, bind, ret. simpl.
      eexists crisks, _, _, _, _. split; [reflexivity |]. simpl.
      repeat split; try eassumption; reflexivity. }
  destruct (getitem_some crisks idx) as (old & Hgetk & _); [lia |].
  step. unfold getitem_exn at 1. rewrite Hgetk. unfold ret at 1. cbv iota.
  destruct (String.eqb_spec text old) as [->|Hne]; cbv beta iota delta [negb].
  - unfold logger, bind, ret. simpl.
    eexists crisks, _, _, _, _. split; [reflexivity |]. simpl.
    repeat split; try eassumption; reflexivity.
  - unfold setitem_exn. rewrite setitem_position by lia. unfold ret.
    eexists _, w1, _, _, _. split; [reflexivity |].
    repeat split; try eassumption. now rewrite length_insert.
Qed.

Lemma risk_attempts_app n p tr1 tr2 :
  risk_attempts n p (tr1 ++ tr2) = (risk_attempts n p tr1 + risk_attempts n p tr2)%nat.
Proof. unfold risk_attempts. now rewrite List.filter_app, length_app. Qed.

Lemma risk_attempts_none n p tr : Forall not_risk_prompt tr -> risk_attempts n p tr = 0%nat.
Proof.
  unfold risk_attempts. induction 1 as [|pr tr Hpr _ IH]; [reflexivity |].
  simpl. now rewrite (Hpr n p).
Qed.

Lemma cascade_risks_loop_spec state cr_reqs reqs1 risks0 :
  requirements_output state = Some reqs1 ->
  risks_output state = Some risks0 ->
  length reqs1 = length risks0 ->
  length cr_reqs = length risks0 ->
  forall committed crisks w,
    Forall (in_range (Z.of_nat (length risks0))) committed ->
    length crisks = length risks0 ->
    exists crisks' w' tr,
      cascade_risks_loop state cr_reqs committed crisks w = (Ok crisks', w') /\
      llm w' = llm w /\ calls w' = calls w ++ tr /\
      length crisks' = length crisks /\
      forall n p, risk_attempts n p tr = hits n p committed.
Proof.
  intros Hreqs Hrisks Hl1 Hl2.
  induction committed as [|idx rest IH]; intros crisks w Hall Hl3.
  - exists crisks, w, []. rewrite app_nil_r. repeat split.
  - apply Forall_cons in Hall as [Hin Hall].
    destruct (cascade_risk_step_spec state cr_reqs reqs1 risks0 idx crisks w
                Hreqs Hrisks Hl1 Hl2 Hl3 Hin)
      as (crisks1 & w1 & a & b & c & Hstep & Hllm1 & Hc1 & Hlen1).
    destruct (IH crisks1 w1 Hall ltac:(congruence))
      as (crisks' & w' & tr & Hrun & Hllm2 & Hc2 & Hlen2 & Hcount).
    simpl cascade_risks_loop. step. rewrite Hstep. cbv iota. rewrite Hrun.
    exists crisks', w', (SingleRiskPrompt a b c (idx + 1) :: tr).
    split; [reflexivity |]. split; [congruence |].
    split; [rewrite Hc2, Hc1; now rewrite <- app_assoc |].
    split; [congruence |].
    intros n p. specialize (Hcount n p). unfold risk_attempts, hits in *. simpl.
    rewrite Z.add_simpl_r.
    destruct (position_of n idx =? p); simpl; now rewrite Hcount.
Qed.

Lemma hits_nodup n p indexes :
  NoDup (map (position_of n) indexes) ->
  hits n p indexes = if decide (p ∈ map (position_of n) indexes) then 1%nat else 0%nat.
Proof.
  unfold hits. induction indexes as [|idx rest IH]; simpl; intros Hnd.
  - destruct (decide (p ∈ [])) as [H|_]; [inversion H | reflexivity].
  - apply NoDup_cons in Hnd as [Hnotin Hnd]. specialize (IH Hnd).
    destruct (Z.eqb_spec (position_of n idx) p) as [<-|Hne]; simpl.
    + rewrite IH. destruct (decide (position_of n idx ∈ map (position_of n) rest)) as [H|_];
        [contradiction |].
      destruct (decide (position_of n idx ∈ position_of n idx :: map (position_of n) rest))
        as [_|H]; [reflexivity |]. exfalso. apply H. left.
    + rewrite IH.
      destruct (decide (p ∈ map (position_of n) rest)) as [H|H];
        destruct (decide (p ∈ position_of n idx :: map (position_of n) rest)) as [H'|H'];
        try reflexivity.
      * exfalso. apply H'. now right.
      * exfalso. apply elem_of_cons in H' as [-> | H']; [now apply Hne | now apply H].
Qed.

Lemma feedback_requirement_branch_spec request thread_id st1 w1 reqs risks :
  requirements_output st1 = Some reqs ->
  risks_output st1 = Some risks ->
  length reqs = length risks ->
  exists st2 w2 cr' risks' committed tr_req tr_risk,
    feedback_requirement_branch request thread_id st1 w1 = (Ok st2, w2) /\
    requirements_output st2 = Some cr' /\ risks_output st2 = Some risks' /\
    selected_keyword st2 = selected_keyword st1 /\
    length cr' = length reqs /\ length risks' = length risks /\
    calls w2 = calls w1 ++ tr_req ++ tr_risk /\
    Forall not_risk_prompt tr_req /\
    (forall n p, risk_attempts n p tr_risk = hits n p committed) /\
    sublist committed (fb_indexes request) /\
    Forall (in_range (Z.of_nat (length reqs))) committed /\
    (forall p : nat, cr' !! p <> reqs !! p ->
       exists idx, idx ∈ committed /\ pos_nat (Z.of_nat (length reqs)) idx = p) /\
    (NoDup (map (position_of (Z.of_nat (length reqs))) (fb_indexes request)) ->
     forall idx, idx ∈ committed ->
       cr' !! pos_nat (Z.of_nat (length reqs)) idx
       <> reqs !! pos_nat (Z.of_nat (length reqs)) idx).
Proof.
  intros Hq Hk Hlen.
  destruct (feedback_requirements_loop_spec st1 (fb_feedback request) reqs Hq
              (fb_indexes request) reqs [] w1 eq_refl)
    as (cr' & committed & w2 & tr_req & Hloop & Hllm & Hcalls & Htr & Hlen' & Hsub
        & Hrange & Hchg & Hnd).
  simpl app in Hloop.
  unfold feedback_requirement_branch. rewrite Hq. cbv beta iota zeta.
  step. rewrite Hloop. cbv iota. simpl fst. simpl snd.
  step. unfold store_state at 1. cbv iota.
  destruct committed as [|idx cm].
  - unfold ret.
    eexists _, _, cr', risks, [], tr_req, []. split; [reflexivity |].
    rewrite app_nil_r. simpl. repeat split; try assumption; reflexivity.
  - assert (Hrange' : Forall (in_range (Z.of_nat (length risks))) (idx :: cm))
      by (now rewrite <- Hlen).
    destruct (cascade_risks_loop_spec (set_requirements_output (Some cr') st1) cr' cr' risks
                eq_refl Hk ltac:(congruence) ltac:(congruence) (idx :: cm) risks
                (put_state thread_id (set_requirements_output (Some cr') st1) w2)
                Hrange' eq_refl)
      as (risks' & w3 & tr_risk & Hcas & Hllm3 & Hcalls3 & Hlen3 & Hcount).
    rewrite Hk. step. rewrite Hcas. cbv iota.
    unfold bind, risks_attr, store_state, ret. simpl. rewrite Hk.
    eexists _, _, cr', risks', (idx :: cm), tr_req, tr_risk. split; [reflexivity |].
    simpl. repeat split; try assumption.
    rewrite Hcalls3. simpl. rewrite Hcalls. now rewrite app_assoc.
Qed.

(** C4, as amended.  For a feedback regeneration of requirements on aligned
    lists of five whose index list names every position at most once: the call
    succeeds, and a position has seen exactly one risk regeneration attempt when
    its requirement text changed (whatever that attempt did to the risk) and
    none when it did not.  A position is committed only when the regenerated
    text differs, which is what changed means. *)
Theorem feedback_cascade_once_per_changed_position
    (request : FeedbackRequest) (w : World) (state : KeywordState)
    (reqs risks : list string) :
  workflow_states w !! fb_thread_id request = Some state ->
  requirements_output state = Some reqs ->
  risks_output state = Some risks ->
  length reqs = 5%nat -> length risks = 5%nat ->
  fb_regenerate_type request = "requirement" ->
  NoDup (map (position_of 5) (fb_indexes request)) ->
  exists resp w' reqs' risks',
    regenerate_with_feedback request w = (Ok resp, w') /\
    r_requirements resp = Some reqs' /\ r_risks resp = Some risks' /\
    length reqs' = 5%nat /\ length risks' = 5%nat /\
    forall p : nat, (p < 5)%nat ->
      risk_attempts 5 (Z.of_nat p) (drop (length (calls w)) (calls w'))
      = if decide (reqs' !! p = reqs !! p) then 0%nat else 1%nat.
Proof.
  intros Hst Hreqs Hrisks Hl5 Hk5 Hty Hnodup.
  destruct (ensure_keyword_run (fb_thread_id request) state w)
    as (st1 & w1 & Hens & Hq1 & Hk1 & _ & Hc1).
  rewrite Hreqs in Hq1. rewrite Hrisks in Hk1.
  destruct (feedback_requirement_branch_spec request (fb_thread_id request) st1 w1
              reqs risks Hq1 Hk1 ltac:(congruence))
    as (st2 & w2 & cr' & risks' & committed & tr_req & tr_risk & Hbr & Hq2 & Hk2 & _
        & Hlq & Hlk & Hcalls & Htr & Hcount & Hsub & Hrange & Hchg & Hnd).
  rewrite Hl5 in Hrange, Hchg, Hnd. change (Z.of_nat 5) with 5 in *.
  specialize (Hnd Hnodup).
  exists (regenerated_response (fb_thread_id request) st2
            ("Regenerated " +:+ Py.str_of_nat (length (fb_indexes request)) +:+ " "
               +:+ fb_regenerate_type request +:+ " with feedback")),
    (put_state (fb_thread_id request) st2 w2), cr', risks'.
  split.
  { unfold regenerate_with_feedback. rewrite route_guard_run.
    step. unfold lookup_state at 1. rewrite Hst. cbv iota.
    step. rewrite Hens. cbv iota.
    step. rewrite Hty. change ("requirement" =? "requirement")%string with true.
    cbv iota. rewrite Hbr. cbv iota.
    unfold bind, store_state, requirements_attr, risks_attr, ret.
    rewrite Hq2, Hk2. reflexivity. }
  split; [exact Hq2 |]. split; [exact Hk2 |].
  split; [congruence |]. split; [congruence |].
  intros p Hp. simpl calls. rewrite Hcalls, Hc1, drop_app_length.
  rewrite risk_attempts_app, (risk_attempts_none _ _ _ Htr), Hcount. simpl.
  assert (Hnd' : NoDup (map (position_of 5) committed)).
  { eapply sublist_NoDup; [exact Hnodup | now apply fmap_sublist]. }
  rewrite (hits_nodup 5 (Z.of_nat p) committed Hnd').
  destruct (decide (Z.of_nat p ∈ map (position_of 5) committed)) as [Hin|Hout];
    destruct (decide (cr' !! p = reqs !! p)) as [Heq|Hneq]; try reflexivity.
  - exfalso. apply list_elem_of_fmap in Hin as (idx & Hpos & Hin).
    apply (Hnd idx Hin). unfold pos_nat. rewrite <- Hpos, Nat2Z.id. exact Heq.
  - exfalso. destruct (Hchg p Hneq) as (idx & Hin & Hpos). apply Hout.
    apply list_elem_of_fmap. exists idx. split; [| assumption].
    rewrite Forall_forall in Hrange.
    pose proof (position_of_in_range 5 idx (Hrange idx Hin)).
    unfold pos_nat in Hpos. lia.
Qed.

Lemma feedback_cascade_once_per_changed_position_witness :
  exists resp w' reqs' risks',
    regenerate_with_feedback once_request (demo_world varying_oracle) = (Ok resp, w') /\
    r_requirements resp = Some reqs' /\ r_risks resp = Some risks' /\
    length reqs' = 5%nat /\ length risks' = 5%nat /\
    forall p : nat, (p < 5)%nat ->
      risk_attempts 5 (Z.of_nat p)
        (drop (length (calls (demo_world varying_oracle))) (calls w'))
      = if decide (reqs' !! p
                   = ["req zero"; "req one"; "req two"; "req three"; "req four"] !! p)
        then 0%nat else 1%nat.
Proof.
  apply (feedback_cascade_once_per_changed_position once_request
           (demo_world varying_oracle) five_by_five_state
           ["req zero"; "req one"; "req two"; "req three"; "req four"]
           ["risk zero"; "risk one"; "risk two"; "risk three"; "risk four"]
           eq_refl eq_refl eq_refl eq_refl eq_refl eq_refl).
  simpl. apply NoDup_singleton.
Defined.

(** C4 as stated fails: when the index list names requirement 1 twice and the
    generator answers differently each time, the requirement is committed twice
    and its risk is regenerated twice. *)
Lemma repeated_index_cascades_twice : ~ one_risk_attempt_per_changed_requirement.
Proof.
  intros H.
  destruct (regenerate_with_feedback twice_request (demo_world varying_oracle))
    as [[resp|e] w'] eqn:E; [| vm_compute in E; discriminate E].
  pose proof E as E'. vm_compute in E'. injection E' as Hresp Hw.
  assert (Hreqs' : r_requirements resp
                   = Some ["req zero"; "The system shall satisfy variant 1"; "req two";
                           "req three"; "req four"])
    by (rewrite <- Hresp; reflexivity).
  assert (Hcalls : risk_attempts 5 1 (drop (length (calls (demo_world varying_oracle)))
                                        (calls w')) = 2%nat)
    by (rewrite <- Hw; vm_compute; reflexivity).
  specialize (H twice_request (demo_world varying_oracle) five_by_five_state
                ["req zero"; "req one"; "req two"; "req three"; "req four"]
                ["risk zero"; "risk one"; "risk two"; "risk three"; "risk four"]
                resp w' _ eq_refl eq_refl eq_refl eq_refl eq_refl eq_refl E Hreqs'
                1%nat ltac:(lia)).
  change (Z.of_nat 1) with 1 in H. rewrite Hcalls in H.
  vm_compute in H. discriminate H.
Qed.

(** X18.  [select_keyword] on a stored session with keywords and an index in
    range: whatever the generator does, the handler answers with status
    [generated], five requirements, five risks and the message of the
    successful path; its [except] clause around the risk stage is never
    entered. *)
Lemma select_keyword_reports_generated request w state keywords :
  workflow_states w !! ks_thread_id request = Some state ->
  keyword_output state = Some keywords ->
  - Z.of_nat (length keywords) <= ks_keyword_index request < Z.of_nat (length keywords) ->
  exists resp w' reqs risks,
    select_keyword request w = (Ok resp, w') /\
    r_status resp = "generated" /\
    r_message resp = "Requirements and risks generated" /\
    r_requirements resp = Some reqs /\ length reqs = 5%nat /\
    r_risks resp = Some risks /\ length risks = 5%nat.
Proof.
  intros Hst Hk Hrange.
  destruct (getitem_some keywords (ks_keyword_index request) Hrange) as (kw & Hget & _).
  unfold select_keyword. rewrite route_guard_run. cbv zeta.
  step. unfold lookup_state at 1. rewrite Hst, Hk.
  destruct (Z.leb_spec (Z.of_nat (length keywords)) (ks_keyword_index request)); [lia |].
  step. unfold getitem_exn at 1. rewrite Hget. unfold ret at 1.
  step. unfold store_state at 1.
  set (st1 := set_selected_keyword (Some kw) state).
  set (w1 := put_state (ks_thread_id request) st1 w).
  destruct (generate_requirements_ok st1 w1)
    as (st2 & w2 & batch & Hrun & Hb & Hlb & _).
  step. rewrite Hrun. step. unfold store_state at 1.
  set (w3 := put_state (ks_thread_id request) st2 w2).
  destruct (generate_risks_ok st2 w3 batch Hb)
    as (st4 & w4 & Hrun4 & Hb4 & (risks & Hr4 & Hlr) & _).
  step. unfold try_except at 1. rewrite bind_run, Hrun4. cbv beta iota.
  unfold ret at 1. cbn [fst snd].
  step. unfold store_state at 1. unfold ret.
  eexists _, _, batch, risks. split; [reflexivity |].
  cbn [r_status r_message r_requirements r_risks]. repeat split; assumption.
Qed.

Lemma select_keyword_reports_generated_witness :
  exists resp w' reqs risks,
    select_keyword {| ks_thread_id := "demo"; ks_keyword_index := 1 |}
      (demo_world (fun _ => Fails)) = (Ok resp, w') /\
    r_status resp = "generated" /\
    r_message resp = "Requirements and risks generated" /\
    r_requirements resp = Some reqs /\ length reqs = 5%nat /\
    r_risks resp = Some risks /\ length risks = 5%nat.
Proof.
  apply (select_keyword_reports_generated
           {| ks_thread_id := "demo"; ks_keyword_index := 1 |}
           (demo_world (fun _ => Fails)) five_by_five_state fallback_keywords);
    try reflexivity.
  simpl. lia.
Defined.

(** ** Persisted graph *)

(** C1 on the code: saving the session, then saving it again after requirement
    1 was regenerated, leaves two [:Requirement] nodes with the natural key
    (demo, 2): the node of the first save keeps its description and a new node
    carries the new one.  Saving the unchanged session again changes nothing. *)
Theorem save_after_regeneration_adds_node :
  match call_save_tool five_by_five_state (fresh_world (fun _ => Fails)) with
  | (Ok _, w1) =>
      match call_save_tool five_by_five_state w1,
            call_save_tool regenerated_state w1 with
      | (Ok _, w1'), (Ok _, w2) =>
          graph_db w1' = graph_db w1 /\
          map n_description (requirements_at "demo" 2 (graph_db w1)) = ["req one"] /\
          map n_description (requirements_at "demo" 2 (graph_db w2))
          = ["req one"; "req one, reworded"] /\
          length (requirement_nodes (graph_db w1)) = 5%nat /\
          length (requirement_nodes (graph_db w2)) = 6%nat
      | _, _ => False
      end
  | (Raise _, _) => False
  end.
Proof. vm_compute. repeat split; reflexivity. Qed.

(** C6 as stated fails: an empty risk is dropped by the loader, and the risks
    after it move up one position. *)
Lemma empty_risk_breaks_roundtrip : ~ save_load_roundtrip.
Proof.
  intros H.
  destruct (H (fresh_world (fun _ => Fails)) empty_risk_state
              ["req zero"; "req one"; "req two"; "req three"; "req four"]
              [""; "risk one"; "risk two"; "risk three"; "risk four"] "k")
    as (st' & w1 & resp & w2 & Hsave & Hload & _ & Hrisks);
    try reflexivity.
  - repeat split; constructor.
  - repeat split; constructor.
  - vm_compute in Hsave. injection Hsave as _ <-.
    vm_compute in Hload. injection Hload as <- _.
    discriminate Hrisks.
Qed.

Lemma put_graph_same w : put_graph (graph_db w) w = w.
Proof. now destruct w. Qed.

Lemma save_requirements_run name descs : forall idx w,
  save_requirements name idx descs w
  = (Ok tt, put_graph (requirements_saved name idx descs (graph_db w)) w).
Proof.
  induction descs as [|d r IH]; intros idx w; simpl.
  - unfold ret. now rewrite put_graph_same.
  - step. unfold query at 1. cbv iota. now rewrite IH.
Qed.

Lemma save_risks_run name descs : forall idx w,
  save_risks name idx descs w
  = (Ok tt, put_graph (risks_saved name idx descs (graph_db w)) w).
Proof.
  induction descs as [|d r IH]; intros idx w; simpl.
  - unfold ret. now rewrite put_graph_same.
  - step. unfold query at 1. cbv iota. now rewrite IH.
Qed.

Lemma filter_none {A} (f : A -> bool) l :
  Forall (fun x => f x = false) l -> List.filter f l = [].
Proof. induction 1 as [|x l Hx _ IH]; simpl; [reflexivity | now rewrite Hx]. Qed.

Lemma flat_map_none {A B} (f : A -> list B) l :
  Forall (fun x => f x = []) l -> flat_map f l = [].
Proof. induction 1 as [|x l Hx _ IH]; simpl; [reflexivity | now rewrite Hx, IH]. Qed.

Lemma existsb_none {A} (f : A -> bool) l :
  Forall (fun x => f x = false) l -> existsb f l = false.
Proof. induction 1 as [|x l Hx _ IH]; simpl; [reflexivity | now rewrite Hx]. Qed.

Ltac nat_eqb :=
  repeat match goal with
         | |- context [Nat.eqb ?a ?a] => rewrite (Nat.eqb_refl a)
         | |- context [Nat.eqb ?a ?b] => rewrite (proj2 (Nat.eqb_neq a b)) by lia
         end.

Section FreshSave.

Variables (g : Graph) (name keyword : string).
Hypothesis Hwf : graph_wf g.
Hypothesis Hfresh : fresh_for name g.

Local Abbreviation saving := (saving_graph g name keyword).
Local Abbreviation saved := (saved_graph g name keyword).

Lemma merge_project_fresh :
  merge_project name keyword g = (tt, saving [] [] [] [] (S (next_id g))).
Proof.
  unfold merge_project, saving_graph. destruct Hfresh as (Hp & _).
  rewrite (existsb_none _ _ Hp). now rewrite !app_nil_r.
Qed.

Lemma match_projects_saving rs ks er ek m :
  match_projects name (saving rs ks er ek m) = [next_id g].
Proof.
  unfold match_projects, saving_graph. simpl. destruct Hfresh as (Hp & _).
  rewrite List.filter_app, (filter_none _ _ Hp). simpl.
  unfold name_is. simpl. now rewrite String.eqb_refl.
Qed.

Lemma old_requirements_other_key idx :
  List.filter (key_is name idx) (requirement_nodes g) = [].
Proof.
  destruct Hfresh as (_ & Hr & _). apply filter_none.
  eapply Forall_impl; [exact Hr |]. intros r H. unfold key_is. now rewrite H.
Qed.

Lemma old_requirements_other_node idx desc :
  List.filter (node_is name idx desc) (requirement_nodes g) = [].
Proof.
  destruct Hfresh as (_ & Hr & _). apply filter_none.
  eapply Forall_impl; [exact Hr |]. intros r H. unfold node_is, key_is. now rewrite H.
Qed.

Lemma old_risks_other_node idx desc :
  List.filter (node_is name idx desc) (risk_nodes g) = [].
Proof.
  destruct Hfresh as (_ & _ & Hk). apply filter_none.
  eapply Forall_impl; [exact Hk |]. intros r H. unfold node_is, key_is. now rewrite H.
Qed.


Lemma below_no_node idx desc l :
  below idx l -> List.filter (node_is name idx desc) l = [].
Proof.
  intros H. apply filter_none. eapply Forall_impl; [exact H |].
  intros r Hr. simpl in Hr. unfold node_is, key_is.
  destruct (Z.eqb_spec (n_index r) idx); [lia |]. now rewrite andb_false_r.
Qed.


Lemma merge_edge_new es a m :
  ends_below m es -> merge_edge es (a, m) = es ++ [(a, m)].
Proof.
  intros H. unfold merge_edge. rewrite existsb_none; [reflexivity |].
  eapply Forall_impl; [exact H |]. intros e He. simpl in He. unfold edge_eqb. simpl.
  destruct (Nat.eqb_spec m (snd e)); [lia |]. now rewrite andb_false_r.
Qed.

Lemma merge_requirement_saving desc idx rs ks er ek m :
  below idx rs ->
  ends_below m (has_requirement g ++ er) ->
  merge_requirement name desc idx (saving rs ks er ek m)
  = (tt, saving (rs ++ [{| n_id := m; n_description := desc;
                           n_project := name; n_index := idx |}]) ks
           (er ++ [(next_id g, m)]) ek (S m)).
Proof.
  intros Hb He. unfold merge_requirement.
  rewrite match_projects_saving.
  simpl requirement_nodes.
  rewrite List.filter_app, old_requirements_other_node, (below_no_node _ _ _ Hb).
  simpl. unfold merge_edges. simpl.
  rewrite (merge_edge_new _ _ _ He). unfold saving.
  now rewrite <- !app_assoc.
Qed.

Lemma requirements_saved_saving descs : forall idx rs ks er ek m,
  below idx rs ->
  ends_below m (has_requirement g ++ er) ->
  requirements_saved name idx descs (saving rs ks er ek m)
  = saving (rs ++ new_items name m idx descs) ks
      (er ++ fan_edges (next_id g) m (length descs)) ek (length descs + m).
Proof.
  induction descs as [|d r IH]; intros idx rs ks er ek m Hb He; simpl.
  - now rewrite !app_nil_r.
  - rewrite (merge_requirement_saving d idx rs ks er ek m Hb He). simpl snd.
    rewrite IH.
    + rewrite <- !app_assoc. simpl. f_equal. lia.
    + apply Forall_app. split.
      * eapply Forall_impl; [exact Hb |]. simpl. intros; lia.
      * repeat constructor. simpl. lia.
    + unfold ends_below in *. rewrite app_assoc. apply Forall_app. split.
      * eapply Forall_impl; [exact He |]. simpl. intros; lia.
      * repeat constructor.
Qed.

Lemma new_items_above descs : forall id idx i,
  i < idx -> List.filter (key_is name i) (new_items name id idx descs) = [].
Proof.
  induction descs as [|d r IH]; intros id idx i Hi; simpl; [reflexivity |].
  unfold key_is at 1. simpl.
  destruct (Z.eqb_spec idx i); [lia |]. rewrite andb_false_r.
  apply IH. lia.
Qed.

Lemma key_in_new_items descs : forall id i0 j d,
  descs !! j = Some d ->
  List.filter (key_is name (i0 + Z.of_nat j)) (new_items name id i0 descs)
  = [{| n_id := j + id; n_description := d; n_project := name;
        n_index := i0 + Z.of_nat j |}].
Proof.
  induction descs as [|d0 r IH]; intros id i0 j d Hj; [discriminate |].
  destruct j as [|j].
  - simpl in Hj. injection Hj as ->.
    cbn [new_items List.filter]. unfold key_is at 1. cbn [n_project n_index].
    replace (i0 + Z.of_nat 0) with i0 by lia.
    rewrite String.eqb_refl, Z.eqb_refl. cbn [andb].
    now rewrite new_items_above by lia.
  - simpl in Hj.
    cbn [new_items List.filter]. unfold key_is at 1. cbn [n_project n_index].
    destruct (Z.eqb_spec i0 (i0 + Z.of_nat (S j))); [lia |].
    rewrite andb_false_r.
    replace (i0 + Z.of_nat (S j)) with ((i0 + 1) + Z.of_nat j) by lia.
    rewrite (IH (S id) (i0 + 1) j d Hj). f_equal. f_equal; lia.
Qed.

Lemma merge_risk_saving reqs r0 i0 j q desc ks er ek m :
  reqs !! j = Some q ->
  below (i0 + Z.of_nat j) ks ->
  ends_below m (has_risk g ++ ek) ->
  merge_risk name desc (i0 + Z.of_nat j) (saving (new_items name r0 i0 reqs) ks er ek m)
  = (tt, saving (new_items name r0 i0 reqs)
           (ks ++ [{| n_id := m; n_description := desc; n_project := name;
                      n_index := i0 + Z.of_nat j |}])
           er (ek ++ [((j + r0)%nat, m)]) (S m)).
Proof.
  intros Hq Hb He. unfold merge_risk.
  rewrite match_projects_saving.
  simpl requirement_nodes.
  rewrite List.filter_app, old_requirements_other_key, (key_in_new_items _ _ _ _ _ Hq).
  simpl risk_nodes.
  rewrite List.filter_app, old_risks_other_node, (below_no_node _ _ _ Hb).
  simpl. unfold merge_edges. simpl.
  rewrite (merge_edge_new _ _ _ He). unfold saving_graph.
  now rewrite <- !app_assoc.
Qed.

Lemma risks_saved_saving reqs r0 i0 er risks : forall j ks ek m,
  (j + length risks <= length reqs)%nat ->
  below (i0 + Z.of_nat j) ks ->
  ends_below m (has_risk g ++ ek) ->
  risks_saved name (i0 + Z.of_nat j) risks (saving (new_items name r0 i0 reqs) ks er ek m)
  = saving (new_items name r0 i0 reqs)
      (ks ++ new_items name m (i0 + Z.of_nat j) risks) er
      (ek ++ pair_edges (j + r0) m (length risks)) (length risks + m).
Proof.
  induction risks as [|d r IH]; intros j ks ek m Hlen Hb He; simpl.
  - now rewrite !app_nil_r.
  - simpl in Hlen.
    destruct (lookup_lt_is_Some_2 reqs j) as [q Hq]; [lia |].
    rewrite (merge_risk_saving reqs r0 i0 j q d ks er ek m Hq Hb He). simpl snd.
    replace (i0 + Z.of_nat j + 1) with (i0 + Z.of_nat (S j)) by lia.
    rewrite IH.
    + rewrite <- !app_assoc. simpl.
      replace (i0 + Z.of_nat j + 1) with (i0 + Z.pos (Pos.of_succ_nat j)) by lia.
      f_equal. lia.
    + lia.
    + apply Forall_app. split.
      * eapply Forall_impl; [exact Hb |]. simpl. intros; lia.
      * repeat constructor. simpl. lia.
    + unfold ends_below in *. rewrite app_assoc. apply Forall_app. split.
      * eapply Forall_impl; [exact He |]. simpl. intros; lia.
      * repeat constructor.
Qed.

Lemma wf_ends_below_requirement : ends_below (S (next_id g)) (has_requirement g ++ []).
Proof.
  rewrite app_nil_r. destruct Hwf as (_ & _ & _ & He & _).
  eapply Forall_impl; [exact He |]. simpl. intros e [_ H]. lia.
Qed.

Lemma wf_ends_below_risk m :
  (next_id g <= m)%nat -> ends_below m (has_risk g ++ []).
Proof.
  intros Hm. rewrite app_nil_r. destruct Hwf as (_ & _ & _ & _ & He).
  eapply Forall_impl; [exact He |]. simpl. intros e [_ H]. lia.
Qed.

Lemma save_to_neo4j_fresh w reqs risks :
  graph_db w = g ->
  (length risks <= length reqs)%nat ->
  save_to_neo4j reqs risks name keyword w
  = (Ok saved_text, put_graph (saved reqs risks) w).
Proof.
  intros Hg Hlen. unfold save_to_neo4j.
  step. unfold query at 1. cbv iota. rewrite Hg, merge_project_fresh. simpl snd.
  step. rewrite save_requirements_run. cbv iota. simpl graph_db.
  rewrite (requirements_saved_saving reqs 1 [] [] [] [] (S (next_id g)));
    [| constructor | apply wf_ends_below_requirement].
  step. rewrite save_risks_run. cbv iota. simpl graph_db. simpl app.
  pose proof (risks_saved_saving reqs (S (next_id g)) 1
                (fan_edges (next_id g) (S (next_id g)) (length reqs)) risks 0%nat [] []
                (length reqs + S (next_id g))) as Hr.
  change (1 + Z.of_nat 0) with 1 in Hr.
  rewrite Hr; [reflexivity | simpl; lia | constructor | apply wf_ends_below_risk; lia].
Qed.

Lemma old_requirements_by_id k :
  (next_id g <= k)%nat ->
  List.filter (fun r => (n_id r =? k)%nat) (requirement_nodes g) = [].
Proof.
  intros Hk. destruct Hwf as (_ & Hr & _). apply filter_none.
  eapply Forall_impl; [exact Hr |]. simpl. intros r H. apply Nat.eqb_neq. lia.
Qed.

Lemma old_risks_by_id k :
  (next_id g <= k)%nat ->
  List.filter (fun r => (n_id r =? k)%nat) (risk_nodes g) = [].
Proof.
  intros Hk. destruct Hwf as (_ & _ & Hr & _). apply filter_none.
  eapply Forall_impl; [exact Hr |]. simpl. intros r H. apply Nat.eqb_neq. lia.
Qed.

Lemma old_has_requirement_from {A} k (F : nat * nat -> list A) :
  (next_id g <= k)%nat ->
  flat_map (fun e => if (fst e =? k)%nat then F e else []) (has_requirement g) = [].
Proof.
  intros Hk. destruct Hwf as (_ & _ & _ & He & _). apply flat_map_none.
  eapply Forall_impl; [exact He |]. simpl. intros e [H _].
  destruct (Nat.eqb_spec (fst e) k); [lia | reflexivity].
Qed.

Lemma old_has_risk_from {A} k (F : nat * nat -> list A) :
  (next_id g <= k)%nat ->
  flat_map (fun e => if (fst e =? k)%nat then F e else []) (has_risk g) = [].
Proof.
  intros Hk. destruct Hwf as (_ & _ & _ & _ & He). apply flat_map_none.
  eapply Forall_impl; [exact He |]. simpl. intros e [H _].
  destruct (Nat.eqb_spec (fst e) k); [lia | reflexivity].
Qed.

Variables a0 a1 a2 a3 a4 k0 k1 k2 k3 k4 : string.

Lemma requirements_of_saved :
  requirements_of (saved [a0; a1; a2; a3; a4] [k0; k1; k2; k3; k4]) name
  = new_items name (S (next_id g)) 1 [a0; a1; a2; a3; a4].
Proof.
  unfold requirements_of, saved_graph. rewrite match_projects_saving.
  cbn [flat_map]. rewrite app_nil_r.
  unfold saving_graph. cbn [has_requirement requirement_nodes].
  rewrite flat_map_app, old_has_requirement_from by lia.
  cbn [length fan_edges flat_map app fst snd].
  rewrite Nat.eqb_refl.
  rewrite !List.filter_app, !old_requirements_by_id by lia.
  cbn [new_items List.filter n_id app]. nat_eqb. reflexivity.
Qed.

Lemma risks_of_saved j q :
  [a0; a1; a2; a3; a4] !! j = Some q ->
  risks_of (saved [a0; a1; a2; a3; a4] [k0; k1; k2; k3; k4])
    {| n_id := j + S (next_id g); n_description := q; n_project := name;
       n_index := 1 + Z.of_nat j |}
  = List.filter (key_is name (1 + Z.of_nat j))
      (new_items name (5 + S (next_id g)) 1 [k0; k1; k2; k3; k4]).
Proof.
  intros Hj. unfold risks_of, saved_graph, saving_graph. cbn [has_risk risk_nodes n_id].
  rewrite flat_map_app, old_has_risk_from by lia.
  cbn [length pair_edges flat_map app fst snd].
  rewrite !List.filter_app, !old_risks_by_id by lia.
  destruct j as [|[|[|[|[|j]]]]]; try discriminate Hj;
    cbn [new_items List.filter n_id app Nat.add]; nat_eqb; cbn [app];
    unfold key_is; cbn [n_project n_index]; rewrite ?String.eqb_refl;
    reflexivity.
Qed.

Lemma rows_of_saved :
  flat_map (rows_of (saved [a0; a1; a2; a3; a4] [k0; k1; k2; k3; k4]))
    (requirements_of (saved [a0; a1; a2; a3; a4] [k0; k1; k2; k3; k4]) name)
  = [row 1 a0 k0; row 2 a1 k1; row 3 a2 k2; row 4 a3 k3; row 5 a4 k4].
Proof.
  rewrite requirements_of_saved.
  unfold rows_of, risks_of, saved_graph, saving_graph.
  cbn [has_risk risk_nodes n_id n_index n_description length pair_edges new_items
       flat_map Nat.add].
  rewrite !flat_map_app. rewrite !old_has_risk_from by lia.
  cbn [flat_map app fst snd].
  rewrite !List.filter_app, !old_risks_by_id by lia.
  cbn [List.filter n_id app]. nat_eqb. cbn [app map n_index n_description].
  reflexivity.
Qed.

Lemma load_query_saved :
  load_query name (saved [a0; a1; a2; a3; a4] [k0; k1; k2; k3; k4])
  = ([row 1 a0 k0; row 2 a1 k1; row 3 a2 k2; row 4 a3 k3; row 5 a4 k4],
     saved [a0; a1; a2; a3; a4] [k0; k1; k2; k3; k4]).
Proof. unfold load_query. now rewrite rows_of_saved. Qed.

Lemma keyword_query_saved reqs risks :
  keyword_query name (saved reqs risks) = ([Some keyword], saved reqs risks).
Proof.
  unfold keyword_query, saved_graph, saving_graph. cbn [project_nodes].
  destruct Hfresh as (Hp & _).
  rewrite List.filter_app, (filter_none _ _ Hp). cbn [List.filter app].
  unfold name_is at 1. cbn [p_name]. now rewrite String.eqb_refl.
Qed.

Lemma collect_rows_saved :
  Forall non_empty [k0; k1; k2; k3; k4] ->
  collect_rows [row 1 a0 k0; row 2 a1 k1; row 3 a2 k2; row 4 a3 k3; row 5 a4 k4] [] []
  = ([(1, a0); (2, a1); (3, a2); (4, a3); (5, a4)],
     [ {| rw_description := k0; rw_requirement_index := 1; rw_requirement := a0 |};
       {| rw_description := k1; rw_requirement_index := 2; rw_requirement := a1 |};
       {| rw_description := k2; rw_requirement_index := 3; rw_requirement := a2 |};
       {| rw_description := k3; rw_requirement_index := 4; rw_requirement := a3 |};
       {| rw_description := k4; rw_requirement_index := 5; rw_requirement := a4 |} ]).
Proof.
  intros Hne.
  inversion Hne as [|? ? N0 H1]; subst. inversion H1 as [|? ? N1 H2]; subst.
  inversion H2 as [|? ? N2 H3]; subst. inversion H3 as [|? ? N3 H4]; subst.
  inversion H4 as [|? ? N4 _]; subst.
  destruct k0; [contradiction |]. destruct k1; [contradiction |].
  destruct k2; [contradiction |]. destruct k3; [contradiction |].
  destruct k4; [contradiction |].
  reflexivity.
Qed.

Lemma load_saved w1 :
  graph_db w1 = saved [a0; a1; a2; a3; a4] [k0; k1; k2; k3; k4] ->
  Forall non_empty [k0; k1; k2; k3; k4] ->
  exists resp w2,
    load_project_from_neo4j name w1 = (Ok resp, w2) /\
    ld_requirements resp = [a0; a1; a2; a3; a4] /\
    ld_risks resp = [k0; k1; k2; k3; k4] /\
    ld_selected_keyword resp = Some keyword /\
    (workflow_states w2 !! name) ≫= requirements_output = Some [a0; a1; a2; a3; a4] /\
    (workflow_states w2 !! name) ≫= risks_output = Some [k0; k1; k2; k3; k4].
Proof.
  intros Hg Hne.
  unfold load_project_from_neo4j. rewrite route_guard_run.
  step. unfold query at 1. cbv iota. rewrite Hg, keyword_query_saved.
  cbn [fst snd]. step. unfold query at 1. cbv iota. cbn [graph_db put_graph].
  rewrite load_query_saved. cbn [fst snd].
  rewrite (collect_rows_saved Hne).
  unfold bind, store_state, requirements_attr, ret. cbn [requirements_output].
  eexists _, _. split; [reflexivity |].
  cbn [ld_requirements ld_risks ld_selected_keyword workflow_states put_state].
  rewrite lookup_insert_eq.
  repeat split; reflexivity.
Qed.

End FreshSave.

(** C6, as amended.  For a session with five requirements and five aligned
    risks that are all non-empty strings, saving into a graph that holds no
    node of the project and then loading the project gives back the same
    requirements in the same order and the same risks at the same positions. *)
Theorem save_then_load_roundtrip (w : World) (state : KeywordState)
    (reqs risks : list string) (keyword : string) :
  graph_wf (graph_db w) ->
  fresh_for (project_name state) (graph_db w) ->
  requirements_output state = Some reqs ->
  risks_output state = Some risks ->
  selected_keyword state = Some keyword ->
  length reqs = 5%nat -> length risks = 5%nat ->
  Forall non_empty risks ->
  exists st' w1 resp w2,
    call_save_tool state w = (Ok st', w1) /\
    load_project_from_neo4j (project_name state) w1 = (Ok resp, w2) /\
    ld_requirements resp = reqs /\ ld_risks resp = risks /\
    (workflow_states w2 !! project_name state) ≫= requirements_output = Some reqs /\
    (workflow_states w2 !! project_name state) ≫= risks_output = Some risks.
Proof.
  intros Hwf Hfresh Hreqs Hrisks Hkw Hlq Hlk Hne.
  destruct reqs as [|a0 [|a1 [|a2 [|a3 [|a4 [|]]]]]]; try discriminate Hlq.
  destruct risks as [|k0 [|k1 [|k2 [|k3 [|k4 [|]]]]]]; try discriminate Hlk.
  pose proof (save_to_neo4j_fresh (graph_db w) (project_name state) keyword Hwf Hfresh w
                [a0; a1; a2; a3; a4] [k0; k1; k2; k3; k4] eq_refl ltac:(simpl; lia))
    as Hsave.
  destruct (load_saved (graph_db w) (project_name state) keyword Hwf Hfresh
              a0 a1 a2 a3 a4 k0 k1 k2 k3 k4
              (put_graph (saved_graph (graph_db w) (project_name state) keyword
                            [a0; a1; a2; a3; a4] [k0; k1; k2; k3; k4]) w)
              eq_refl Hne)
    as (resp & w2 & Hload & Hq & Hk & _ & Hsq & Hsk).
  eexists _, _, resp, w2. split.
  - unfold call_save_tool, try_except, requirements_attr, risks_attr.
    rewrite Hreqs, Hrisks, Hkw. unfold bind at 1. unfold ret at 1.
    unfold bind at 1. unfold ret at 1. unfold bind at 1. unfold ret at 1.
    unfold bind. rewrite Hsave. reflexivity.
  - repeat split; assumption.
Qed.

Lemma save_then_load_roundtrip_witness :
  exists st' w1 resp w2,
    call_save_tool five_by_five_state (fresh_world (fun _ => Fails)) = (Ok st', w1) /\
    load_project_from_neo4j (project_name five_by_five_state) w1 = (Ok resp, w2) /\
    ld_requirements resp = ["req zero"; "req one"; "req two"; "req three"; "req four"] /\
    ld_risks resp = ["risk zero"; "risk one"; "risk two"; "risk three"; "risk four"] /\
    (workflow_states w2 !! project_name five_by_five_state) ≫= requirements_output
    = Some ["req zero"; "req one"; "req two"; "req three"; "req four"] /\
    (workflow_states w2 !! project_name five_by_five_state) ≫= risks_output
    = Some ["risk zero"; "risk one"; "risk two"; "risk three"; "risk four"].
Proof.
  apply (save_then_load_roundtrip (fresh_world (fun _ => Fails)) five_by_five_state
           ["req zero"; "req one"; "req two"; "req three"; "req four"]
           ["risk zero"; "risk one"; "risk two"; "risk three"; "risk four"] "k");
    try reflexivity.
  - repeat split; constructor.
  - repeat split; constructor.
  - repeat constructor; discriminate.
Defined.

(** * Further properties *)

(** X1.  [generate_fallback_risks] always returns five risks: one derived from
    each of the first five requirements, in their order, followed by the
    numbered general risks for the positions no requirement fills. *)
Theorem generate_fallback_risks_closed_form (requirements : list string) :
  generate_fallback_risks requirements
  = map challenge_text (take 5 requirements)
    ++ map general_risk_text (seq (S (length requirements)) (5 - length requirements)).
Proof.
  destruct requirements as [|a [|b [|c [|d [|e rest]]]]]; reflexivity.
Qed.

(** The seven parts of the result of a single-item regeneration, the result
    and the trace being settled by [text] and [trace]. *)
Ltac single_done text trace :=
  split; [reflexivity |]; split; [reflexivity |]; split; [text |];
  split; [reflexivity |]; split; [reflexivity |]; split; [reflexivity |]; trace.

(** X2.  [generate_single_risk_with_feedback] on a session with risks, for an
    index not below [-len]: it never raises, calls the generator at most once,
    stores nothing, and returns either the risk now at the index (the empty
    text beyond the end) or the cleaned response, which then has at least ten
    characters.  This holds whether or not the session has requirements.  An
    index below [-len] raises [IndexError] out of its own handler. *)
Theorem single_risk_result (state : KeywordState) (index : Z) (feedback : string)
    (w : World) (risks : list string) :
  risks_output state = Some risks ->
  (- Z.of_nat (length risks) <= index ->
   exists text w' current,
     generate_single_risk_with_feedback state index feedback w = (Ok text, w') /\
     item_or_empty risks index = ret current /\
     (text = current \/
      exists content, llm w (length (calls w)) = Returns content /\
                      text = clean_quotes (Py.strip content) /\ 10 <= Py.len text) /\
     llm w' = llm w /\ workflow_states w' = workflow_states w /\
     graph_db w' = graph_db w /\
     (calls w' = calls w \/ exists p, calls w' = calls w ++ [p])) /\
  (index < - Z.of_nat (length risks) ->
   exists w', generate_single_risk_with_feedback state index feedback w
              = (Raise IndexError, w') /\ calls w' = calls w).
Proof.
  intros Hrisks. split.
  - intros Hidx.
    destruct (item_or_empty_ok risks index Hidx) as [current Hcur].
    unfold generate_single_risk_with_feedback, try_except, bind, risks_attr,
      requirements_attr.
    rewrite Hrisks. unfold ret at 1. rewrite Hcur. unfold ret at 1.
    destruct (requirements_output state) as [reqs|].
    + unfold ret at 1.
      destruct (Z.lt_ge_cases index (- Z.of_nat (length reqs))) as [Hlow|Hin].
      * rewrite (item_or_empty_below reqs index Hlow). unfold raise at 1.
        unfold logger, ret. simpl. rewrite Hcur.
        eexists _, _, current. single_done ltac:(left; reflexivity) ltac:(left; reflexivity).
      * destruct (item_or_empty_ok reqs index Hin) as [cq Hcq]. rewrite Hcq.
        unfold ret at 1. unfold invoke.
        destruct (llm w (length (calls w))) as [content|] eqn:Hllm.
        -- destruct (Z.ltb_spec (Py.len (clean_quotes (Py.strip content))) 10).
           ++ eexists _, _, current.
              single_done ltac:(left; reflexivity) ltac:(right; eexists; reflexivity).
           ++ eexists _, _, current.
              single_done ltac:(right; exists content; split; [reflexivity |];
                                split; [reflexivity | assumption])
                          ltac:(right; eexists; reflexivity).
        -- unfold logger, ret. simpl. rewrite Hcur.
           eexists _, _, current.
           single_done ltac:(left; reflexivity) ltac:(right; eexists; reflexivity).
    + unfold raise at 1. unfold logger, ret. simpl. rewrite Hcur.
      eexists _, _, current. single_done ltac:(left; reflexivity) ltac:(left; reflexivity).
  - intros Hlow. rewrite (single_risk_below state index feedback w risks Hrisks Hlow).
    eexists. split; reflexivity.
Qed.

Lemma single_risk_result_witness :
  exists text w' current,
    generate_single_risk_with_feedback five_by_five_state 1 "focus on cost"
      (demo_world (fun _ => Returns "  'Supplier delays raise the unit cost.'  "))
    = (Ok text, w') /\
    item_or_empty ["risk zero"; "risk one"; "risk two"; "risk three"; "risk four"] 1
    = ret current /\
    (text = current \/
     exists content,
       llm (demo_world (fun _ => Returns "  'Supplier delays raise the unit cost.'  "))
         (length (calls (demo_world
                           (fun _ => Returns "  'Supplier delays raise the unit cost.'  "))))
       = Returns content /\
       text = clean_quotes (Py.strip content) /\ 10 <= Py.len text) /\
    llm w' = llm (demo_world (fun _ => Returns "  'Supplier delays raise the unit cost.'  ")) /\
    workflow_states w'
    = workflow_states (demo_world (fun _ => Returns "  'Supplier delays raise the unit cost.'  ")) /\
    graph_db w'
    = graph_db (demo_world (fun _ => Returns "  'Supplier delays raise the unit cost.'  ")) /\
    (calls w' = calls (demo_world (fun _ => Returns "  'Supplier delays raise the unit cost.'  "))
     \/ exists p, calls w'
                  = calls (demo_world
                             (fun _ => Returns "  'Supplier delays raise the unit cost.'  "))
                    ++ [p]).
Proof.
  apply (proj1 (single_risk_result five_by_five_state 1 "focus on cost"
                  (demo_world (fun _ => Returns "  'Supplier delays raise the unit cost.'  "))
                  ["risk zero"; "risk one"; "risk two"; "risk three"; "risk four"]
                  eq_refl)).
  simpl. lia.
Defined.

(** ** Fenced blocks *)

Section Stripping.

Variable p : ascii -> bool.

Lemma rstrip_by_kept a s :
  p a = false -> Py.rstrip_by p (String a s) = String a (Py.rstrip_by p s).
Proof. intros H. simpl. rewrite H. now destruct (Py.rstrip_by p s). Qed.

Lemma rstrip_by_cons c s :
  Py.rstrip_by p (String c s)
  = match Py.rstrip_by p s with
    | EmptyString => if p c then EmptyString else String c EmptyString
    | r => String c r
    end.
Proof. reflexivity. Qed.

Lemma rstrip_by_idempotent s : Py.rstrip_by p (Py.rstrip_by p s) = Py.rstrip_by p s.
Proof.
  induction s as [|c s IH]; [reflexivity |]. rewrite rstrip_by_cons.
  destruct (Py.rstrip_by p s) as [|b r] eqn:E.
  - destruct (p c) eqn:Hc; [reflexivity |]. rewrite rstrip_by_cons. simpl. now rewrite Hc.
  - rewrite rstrip_by_cons, IH. reflexivity.
Qed.

Lemma lstrip_by_head s :
  Py.lstrip_by p s = "" \/
  exists a r, Py.lstrip_by p s = String a r /\ p a = false.
Proof.
  induction s as [|c s IH]; [now left |]. simpl.
  destruct (p c) eqn:Hc; [exact IH |]. right. now exists c, s.
Qed.

Lemma strip_by_idempotent s : Py.strip_by p (Py.strip_by p s) = Py.strip_by p s.
Proof.
  unfold Py.strip_by.
  destruct (lstrip_by_head s) as [-> | (a & r & -> & Ha)]; [reflexivity |].
  rewrite (rstrip_by_kept _ _ Ha). simpl Py.lstrip_by. rewrite Ha.
  rewrite (rstrip_by_kept _ _ Ha). now rewrite rstrip_by_idempotent.
Qed.

Lemma lstrip_by_append s c t :
  p c = false ->
  Py.lstrip_by p (s +:+ String c t) = Py.lstrip_by p s +:+ String c t.
Proof.
  intros Hc. induction s as [|a s IH]; str_simpl; [now rewrite Hc |].
  destruct (p a); [exact IH | reflexivity].
Qed.

Lemma mem_lstrip_by c s : Py.mem c s = false -> Py.mem c (Py.lstrip_by p s) = false.
Proof.
  induction s as [|a s IH]; [reflexivity |]. intros H. simpl.
  destruct (p a); [| exact H].
  apply IH. simpl in H. now apply orb_false_iff in H as [_ H].
Qed.

End Stripping.

Lemma prefix_cons c sub a s :
  Py.prefix (String c sub) (String a s) = Ascii.eqb c a && Py.prefix sub s.
Proof. reflexivity. Qed.

Lemma prefix_append sub s : Py.prefix sub (sub +:+ s) = true.
Proof.
  induction sub as [|a sub IH]; str_simpl; [reflexivity |].
  now rewrite Ascii.eqb_refl.
Qed.

Lemma contains_unfold sub s :
  Py.contains sub s
  = Py.prefix sub s || match s with
                       | EmptyString => false
                       | String _ r => Py.contains sub r
                       end.
Proof. destruct s; reflexivity. Qed.

Lemma contains_append sub pre s : Py.contains sub (pre +:+ sub +:+ s) = true.
Proof.
  induction pre as [|a pre IH].
  - rewrite append_nil_l, contains_unfold. now rewrite prefix_append.
  - rewrite append_cons, contains_unfold, IH. apply orb_true_r.
Qed.

Lemma after_first_fence pre s :
  Py.mem backtick pre = false ->
  Py.after_first fence_open (pre +:+ fence_open +:+ s) = Some s.
Proof.
  induction pre as [|a pre IH]; intros H.
  - rewrite append_nil_l. unfold fence_open. reflexivity.
  - simpl in H. apply orb_false_iff in H as [Ha Hp].
    rewrite append_cons.
    change (Py.after_first fence_open (String a (pre +:+ fence_open +:+ s)))
      with (if Py.prefix fence_open (String a (pre +:+ fence_open +:+ s))
            then Some (Py.drop (String.length fence_open)
                         (String a (pre +:+ fence_open +:+ s)))
            else Py.after_first fence_open (pre +:+ fence_open +:+ s)).
    assert (Hpre : Py.prefix fence_open (String a (pre +:+ fence_open +:+ s)) = false).
    { unfold fence_open. rewrite prefix_cons, Ascii.eqb_sym.
      unfold backtick in Ha. now rewrite Ha. }
    rewrite Hpre. now apply IH.
Qed.

Lemma before_first_fence b s :
  Py.mem backtick b = false ->
  Py.before_first fence_close (b +:+ fence_close +:+ s) = Some b.
Proof.
  induction b as [|a b IH]; intros H.
  - rewrite append_nil_l. reflexivity.
  - simpl in H. apply orb_false_iff in H as [Ha Hb].
    rewrite append_cons.
    change (Py.before_first fence_close (String a (b +:+ fence_close +:+ s)))
      with (if Py.prefix fence_close (String a (b +:+ fence_close +:+ s))
            then Some EmptyString
            else option_map (String a)
                   (Py.before_first fence_close (b +:+ fence_close +:+ s))).
    assert (Hpre : Py.prefix fence_close (String a (b +:+ fence_close +:+ s)) = false).
    { unfold fence_close. rewrite prefix_cons, Ascii.eqb_sym.
      unfold backtick in Ha. now rewrite Ha. }
    rewrite Hpre, IH by assumption. reflexivity.
Qed.

(** X3.  A response that carries its answer in a fenced block: when no
    backtick precedes the opening fence and the block holds none, the
    normalizer returns the block's content with the white space at its ends
    removed, whatever surrounds the block, braces and brackets included. *)
Theorem fenced_block_extracted (pre body post : string) :
  Py.mem backtick pre = false ->
  Py.mem backtick body = false ->
  extract_json_from_text (pre +:+ fence_open +:+ body +:+ fence_close +:+ post)
  = Some (Py.strip body).
Proof.
  intros Hpre Hbody. unfold extract_json_from_text.
  rewrite contains_append. unfold fence_search.
  rewrite (after_first_fence _ _ Hpre).
  assert (Hl : Py.lstrip_by Py.isspace (body +:+ fence_close +:+ post)
               = Py.lstrip_by Py.isspace body +:+ fence_close +:+ post).
  { unfold fence_close. rewrite append_cons. now apply lstrip_by_append. }
  rewrite Hl, before_first_fence by now apply mem_lstrip_by.
  f_equal. apply (strip_by_idempotent Py.isspace).
Qed.

Lemma fenced_block_extracted_witness :
  extract_json_from_text
    ("Here you go {draft}: " +:+ fence_open +:+ " [1, 2] " +:+ fence_close +:+ " Done [x].")
  = Some (Py.strip " [1, 2] ").
Proof.
  apply (fenced_block_extracted "Here you go {draft}: " " [1, 2] " " Done [x].");
    reflexivity.
Defined.

(** ** Index-scoped regeneration *)

(** The replacement loop on two lists of one length: it stores nothing and
    the result takes the selected positions from the new list. *)
Lemma replace_selected_spec (new : list string) :
  forall (indexes : list Z) (current : list string) (w : World),
    length current = length new ->
    Forall (fun idx => - Z.of_nat (length new) <= idx) indexes ->
    exists res,
      replace_selected indexes current new w = (Ok res, w) /\
      length res = length new /\
      forall p : nat,
        res !! p = if selects (Z.of_nat (length new)) indexes p
                   then new !! p else current !! p.
Proof.
  set (n := Z.of_nat (length new)).
  induction indexes as [|idx rest IH]; intros current w Hlen Hall.
  - exists current. split; [reflexivity |]. split; [assumption |]. intros p. reflexivity.
  - apply Forall_cons in Hall as [Hidx Hrest].
    cbn [replace_selected]. step. rewrite Hlen. fold n. rewrite andb_diag.
    destruct (Z.ltb_spec idx n) as [Hlt|Hge].
    + destruct (getitem_some new idx) as (v & Hget & Hv); [fold n; lia |].
      step. unfold getitem_exn at 1. rewrite Hget. unfold ret at 1. cbv iota.
      unfold setitem_exn. rewrite setitem_position by (rewrite Hlen; fold n; lia).
      unfold ret at 1. cbv iota. rewrite Hlen. fold n. fold n in Hv.
      fold (pos_nat n idx). fold (pos_nat n idx) in Hv.
      destruct (IH (<[pos_nat n idx := v]> current) w) as (res & Hrun & Hl & Hp);
        [now rewrite length_insert | assumption |].
      exists res. split; [exact Hrun |]. split; [exact Hl |].
      intros p. rewrite Hp. unfold selects. cbn [existsb].
      fold (selects n rest p).
      destruct (Z.ltb_spec idx n); [| lia]. cbn [andb].
      destruct (selects n rest p); [now rewrite orb_true_r |]. rewrite orb_false_r.
      destruct (Nat.eqb_spec (pos_nat n idx) p) as [<-|Hne].
      * rewrite list_lookup_insert_eq; [now rewrite Hv |].
        rewrite Hlen. unfold pos_nat, position_of. subst n.
        destruct (idx <? 0) eqn:E; [apply Z.ltb_lt in E | apply Z.ltb_ge in E]; lia.
      * now rewrite list_lookup_insert_ne.
    + unfold ret at 1. cbv iota.
      destruct (IH current w Hlen Hrest) as (res & Hrun & Hl & Hp).
      exists res. split; [exact Hrun |]. split; [exact Hl |].
      intros p. rewrite Hp. unfold selects. cbn [existsb].
      destruct (Z.ltb_spec idx n); [lia |]. reflexivity.
Qed.

(** The risk stage on a session with requirements: one call with the prompt
    built from them, five risks, nothing stored. *)
Lemma generate_risks_run state w reqs :
  requirements_output state = Some reqs ->
  exists st1 w1 batch,
    generate_risks state w = (Ok st1, w1) /\
    risks_output st1 = Some batch /\ length batch = 5%nat /\
    requirements_output st1 = Some reqs /\
    selected_keyword st1 = selected_keyword state /\
    calls w1 = calls w ++ [RisksPrompt reqs] /\
    llm w1 = llm w /\
    workflow_states w1 = workflow_states w /\ graph_db w1 = graph_db w.
Proof.
  intros Hreqs. destruct (llm w (length (calls w))) as [content|] eqn:Hllm.
  - destruct (generate_risks_returns state w reqs content Hreqs Hllm)
      as (st1 & w1 & lg & Hrun & Hw & Hk & _ & Hr & Hin & _).
    destruct Hw as (Hl & Hc & _ & Hs & Hg). destruct Hin as (_ & Hsel & _).
    exists st1, w1, (default (generate_fallback_risks reqs) (accepted_risks content)).
    repeat split; try assumption.
    destruct (accepted_risks content) eqn:E; simpl;
      [now apply (accepted_risks_length content) | apply generate_fallback_risks_length].
  - rewrite (generate_risks_fails state w reqs Hreqs Hllm).
    eexists _, _, _.
    repeat split; try reflexivity; try assumption.
    apply generate_fallback_risks_length.
Qed.

(** X4.  [regenerate_risks] on a session with a keyword, requirements and five
    risks, for any list of indexes none of which is below -5: it runs the risk
    stage once, on the session's requirements, and commits from the batch of
    that run exactly the positions the indexes denote; every other risk and
    all requirements are as before, in the response and in the stored
    session.  An index of 5 or more selects nothing. *)
Theorem regenerate_risks_replaces_selected
    (request : SelectiveRegenerateRequest) (w : World) (state : KeywordState)
    (reqs risks : list string) (indexes : list Z) :
  workflow_states w !! sr_thread_id request = Some state ->
  truthy_opt (selected_keyword state) = true ->
  requirements_output state = Some reqs ->
  risks_output state = Some risks ->
  length risks = 5%nat ->
  sr_risk_indexes request = Some indexes ->
  Forall (fun idx => -5 <= idx) indexes ->
  exists resp w' st1 w1 batch risks',
    regenerate_risks request w = (Ok resp, w') /\
    generate_risks state w = (Ok st1, w1) /\
    risks_output st1 = Some batch /\
    calls w' = calls w ++ [RisksPrompt reqs] /\
    r_requirements resp = Some reqs /\
    r_risks resp = Some risks' /\
    length risks' = 5%nat /\
    (forall p : nat, risks' !! p = if selects 5 indexes p then batch !! p else risks !! p) /\
    (workflow_states w' !! sr_thread_id request) ≫= requirements_output = Some reqs /\
    (workflow_states w' !! sr_thread_id request) ≫= risks_output = Some risks'.
Proof.
  intros Hst Hk Hreqs Hrisks Hlen Hidx Hall.
  destruct (generate_risks_run state w reqs Hreqs)
    as (st1 & w1 & batch & Hrun & Hb & Hbl & Hr1 & _ & Hcalls & _).
  destruct (replace_selected_spec batch indexes risks
              (put_state (sr_thread_id request) st1 w1))
    as (res & Hrep & Hl & Hp); [congruence | now rewrite Hbl |].
  rewrite Hbl in Hl, Hp. change (Z.of_nat 5) with 5 in Hp.
  exists (regenerated_response (sr_thread_id request)
            (set_risks_output (Some res) st1)
            ("Regenerated " +:+ Py.str_of_nat (length indexes) +:+ " risks")),
         (put_state (sr_thread_id request) (set_risks_output (Some res) st1)
            (put_state (sr_thread_id request) st1 w1)),
         st1, w1, batch, res.
  split.
  - unfold regenerate_risks. rewrite route_guard_run.
    step. unfold lookup_state at 1. rewrite Hst, Hk, Hrisks.
    change (negb true) with false. cbv iota.
    step. rewrite Hrun. cbv iota.
    step. unfold store_state at 1. cbv iota.
    step. unfold risks_attr at 1. rewrite Hb. unfold ret at 1. cbv iota.
    step. rewrite Hidx. unfold iterable at 1. unfold ret at 1. cbv iota.
    step. rewrite Hrep. cbv iota.
    step. unfold store_state at 1. cbv iota. reflexivity.
  - split; [exact Hrun |]. split; [exact Hb |]. split; [exact Hcalls |].
    split; [exact Hr1 |]. split; [reflexivity |]. split; [exact Hl |].
    split; [exact Hp |].
    cbn [workflow_states put_state]. rewrite lookup_insert_eq. cbn.
    split; [exact Hr1 | reflexivity].
Qed.

Lemma regenerate_risks_replaces_selected_witness :
  exists resp w' st1 w1 batch risks',
    regenerate_risks {| sr_thread_id := "demo"; sr_requirement_indexes := None;
                        sr_risk_indexes := Some [0; -1; 9] |}
      (demo_world (fun _ => Returns new_risks_response)) = (Ok resp, w') /\
    generate_risks five_by_five_state (demo_world (fun _ => Returns new_risks_response))
    = (Ok st1, w1) /\
    risks_output st1 = Some batch /\
    calls w' = calls (demo_world (fun _ => Returns new_risks_response))
               ++ [RisksPrompt ["req zero"; "req one"; "req two"; "req three"; "req four"]] /\
    r_requirements resp = Some ["req zero"; "req one"; "req two"; "req three"; "req four"] /\
    r_risks resp = Some risks' /\
    length risks' = 5%nat /\
    (forall p : nat,
        risks' !! p = if selects 5 [0; -1; 9] p then batch !! p
                      else ["risk zero"; "risk one"; "risk two"; "risk three"; "risk four"] !! p) /\
    (workflow_states w' !! "demo") ≫= requirements_output
    = Some ["req zero"; "req one"; "req two"; "req three"; "req four"] /\
    (workflow_states w' !! "demo") ≫= risks_output = Some risks'.
Proof.
  apply (regenerate_risks_replaces_selected
           {| sr_thread_id := "demo"; sr_requirement_indexes := None;
              sr_risk_indexes := Some [0; -1; 9] |}
           (demo_world (fun _ => Returns new_risks_response)) five_by_five_state);
    try reflexivity.
  repeat constructor; lia.
Defined.

Lemma replace_selected_raises (new : list string) :
  forall (indexes : list Z) (current : list string) (w : World),
    length current = length new ->
    Exists (fun idx => idx < - Z.of_nat (length new)) indexes ->
    replace_selected indexes current new w = (Raise IndexError, w).
Proof.
  set (n := Z.of_nat (length new)).
  induction indexes as [|idx rest IH]; intros current w Hlen Hex.
  - inversion Hex.
  - cbn [replace_selected]. step. rewrite Hlen. fold n. rewrite andb_diag.
    destruct (Z.lt_ge_cases idx (- n)) as [Hlow|Hin].
    + destruct (Z.ltb_spec idx n); [| lia].
      step. unfold getitem_exn at 1. rewrite getitem_none by (fold n; lia).
      reflexivity.
    + apply Exists_cons in Hex as [Hbad|Hex]; [lia |].
      destruct (replace_selected_spec new [idx] current w Hlen) as (res & Hrun & Hl & _).
      { constructor; [exact Hin | constructor]. }
      cbn [replace_selected] in Hrun. rewrite bind_run in Hrun.
      rewrite Hlen in Hrun. fold n in Hrun. rewrite andb_diag in Hrun.
      destruct ((if idx <? n
                 then v <- getitem_exn new idx;; setitem_exn current idx v
                 else ret current) w) as [[c|e] w0] eqn:E;
        [| discriminate Hrun].
      unfold ret in Hrun. injection Hrun as -> ->.
      apply IH; [congruence | assumption].
Qed.

(** X5.  [regenerate_requirements] whose index list is missing, or holds an
    index below -5, on a session with a keyword and five requirements: the
    answer is a 500 with the text of the exception, and by then the stored
    session holds the whole fresh batch of the requirement stage in place of
    the five requirements it had. *)
Theorem regenerate_requirements_failure_replaces_all
    (request : SelectiveRegenerateRequest) (w : World) (state : KeywordState)
    (reqs : list string) (detail : string) :
  workflow_states w !! sr_thread_id request = Some state ->
  truthy_opt (selected_keyword state) = true ->
  requirements_output state = Some reqs ->
  length reqs = 5%nat ->
  breaks_replacement 5 (sr_requirement_indexes request) detail ->
  exists w' st1 w1 batch,
    regenerate_requirements request w = (Raise (HTTPException 500 detail), w') /\
    generate_requirements state w = (Ok st1, w1) /\
    requirements_output st1 = Some batch /\
    (workflow_states w' !! sr_thread_id request) ≫= requirements_output = Some batch /\
    calls w' = calls w ++ [RequirementsPrompt (selected_keyword state)
                             (requirement_description state)].
Proof.
  intros Hst Hk Hreqs Hlen Hbad.
  destruct (generate_requirements_ok state w)
    as (st1 & w1 & batch & Hrun & Hb & Hbl & _ & _ & Hcalls & _).
  unfold regenerate_requirements. rewrite route_guard_run.
  step. unfold lookup_state at 1. rewrite Hst, Hk, Hreqs.
  change (negb true) with false. cbv iota.
  step. rewrite Hrun. cbv iota.
  step. unfold store_state at 1. cbv iota.
  step. unfold requirements_attr at 1. rewrite Hb. unfold ret at 1. cbv iota.
  step. unfold breaks_replacement in Hbad.
  destruct (sr_requirement_indexes request) as [l|].
  - destruct Hbad as [Hex ->]. unfold iterable at 1. unfold ret at 1. cbv iota.
    step. rewrite (replace_selected_raises batch l reqs); [| congruence | now rewrite Hbl].
    cbv iota.
    eexists _, st1, w1, batch. split; [reflexivity |].
    split; [reflexivity |]. split; [exact Hb |].
    cbn [workflow_states put_state add_log]. rewrite lookup_insert_eq. cbn.
    split; [exact Hb | exact Hcalls].
  - subst detail. unfold iterable at 1. unfold raise at 1. cbv iota.
    eexists _, st1, w1, batch. split; [reflexivity |].
    split; [reflexivity |]. split; [exact Hb |].
    cbn [workflow_states put_state add_log]. rewrite lookup_insert_eq. cbn.
    split; [exact Hb | exact Hcalls].
Qed.

Lemma regenerate_requirements_failure_replaces_all_witness :
  exists w' st1 w1 batch,
    regenerate_requirements {| sr_thread_id := "demo"; sr_requirement_indexes := None;
                               sr_risk_indexes := None |}
      (demo_world (fun _ => Returns templated_response))
    = (Raise (HTTPException 500 (exn_text TypeError)), w') /\
    generate_requirements five_by_five_state
      (demo_world (fun _ => Returns templated_response)) = (Ok st1, w1) /\
    requirements_output st1 = Some batch /\
    (workflow_states w' !! "demo") ≫= requirements_output = Some batch /\
    calls w' = calls (demo_world (fun _ => Returns templated_response))
               ++ [RequirementsPrompt (selected_keyword five_by_five_state)
                     (requirement_description five_by_five_state)].
Proof.
  apply (regenerate_requirements_failure_replaces_all
           {| sr_thread_id := "demo"; sr_requirement_indexes := None;
              sr_risk_indexes := None |}
           (demo_world (fun _ => Returns templated_response)) five_by_five_state
           ["req zero"; "req one"; "req two"; "req three"; "req four"]);
    reflexivity.
Defined.

(** ** Feedback on risks *)

Ltac conj := repeat match goal with |- _ /\ _ => split end.

(** Closes the parts of a step that changed no position. *)
Ltac unchanged :=
  conj; try eassumption; try reflexivity;
  try (intros ? ?; congruence); try constructor.

Lemma feedback_risk_step_spec state feedback reqs0 risks0 idx cr n w :
  requirements_output state = Some reqs0 ->
  risks_output state = Some risks0 ->
  length reqs0 = length risks0 ->
  length cr = length risks0 ->
  exists cr1 n1 w1 tr,
    feedback_risk_step state feedback idx cr n w = (Ok (cr1, n1), w1) /\
    llm w1 = llm w /\ calls w1 = calls w ++ tr /\
    workflow_states w1 = workflow_states w /\
    length cr1 = length cr /\
    Forall2 (risk_prompt_for reqs0 risks0 feedback)
      (attempted (Z.of_nat (length risks0)) [idx]) tr /\
    (forall p : nat, cr1 !! p <> cr !! p ->
       in_range (Z.of_nat (length risks0)) idx /\
       pos_nat (Z.of_nat (length risks0)) idx = p).
Proof.
  intros Hreqs Hrisks Hl0 Hlen. unfold feedback_risk_step. rewrite Hlen.
  unfold attempted. cbn [List.filter].
  destruct (Z.ltb_spec idx (Z.of_nat (length risks0))) as [Hlt|Hge].
  2:{ rewrite andb_false_r. exists cr, n, w, []. rewrite app_nil_r. unchanged. }
  rewrite andb_true_r.
  destruct (Z.leb_spec (- Z.of_nat (length risks0)) idx) as [Hin|Hlow].
  - destruct (single_risk_attempt state idx feedback w reqs0 risks0 Hreqs Hrisks
                ltac:(lia) Hin)
      as (text & w1 & lg & cq & ck & Hrun & Hcq & Hck & Hcall).
    destruct Hcall as (Hl & Hc & _ & Hs & _).
    assert (Htr : Forall2 (risk_prompt_for reqs0 risks0 feedback) [idx]
                    [SingleRiskPrompt cq ck feedback (idx + 1)]).
    { constructor; [| constructor]. now exists cq, ck. }
    unfold try_except. step. rewrite Hrun. cbv iota.
    destruct (Py.truthy text).
    2:{ unfold logger, bind, ret. simpl.
        exists cr, n. eexists _, _. split; [reflexivity |]. simpl. unchanged. }
    destruct (getitem_some cr idx) as (old & Hget & Hlook); [lia |].
    rewrite Hlen in Hlook.
    step. unfold getitem_exn at 1. rewrite Hget. unfold ret at 1. cbv iota.
    destruct (String.eqb_spec text old) as [->|Hne]; cbv beta iota delta [negb].
    + unfold logger, bind, ret. simpl.
      exists cr, n. eexists _, _. split; [reflexivity |]. simpl. unchanged.
    + step. unfold setitem_exn at 1. rewrite setitem_position by lia.
      rewrite Hlen. unfold ret. cbv iota.
      eexists _, _, w1, _. split; [reflexivity |].
      split; [assumption |]. split; [eassumption |]. split; [assumption |].
      split; [now rewrite length_insert |]. split; [assumption |].
      intros p Hp. split; [split; assumption |].
      destruct (Nat.eq_dec (Z.to_nat (position_of (Z.of_nat (length risks0)) idx)) p)
        as [E|E]; [exact E |].
      now rewrite list_lookup_insert_ne in Hp.
  - unfold try_except. step.
    rewrite (single_risk_below state idx feedback w risks0 Hrisks Hlow).
    cbv iota. unfold logger, bind, ret. simpl.
    exists cr, n. eexists _, []. split; [reflexivity |]. simpl.
    rewrite app_nil_r. unchanged.
Qed.

Lemma attempted_cons n idx rest :
  attempted n (idx :: rest) = attempted n [idx] ++ attempted n rest.
Proof.
  unfold attempted. cbn [List.filter].
  now destruct ((- n <=? idx) && (idx <? n)).
Qed.

Lemma feedback_risks_loop_spec state feedback reqs0 risks0 :
  requirements_output state = Some reqs0 ->
  risks_output state = Some risks0 ->
  length reqs0 = length risks0 ->
  forall indexes cr n w,
    length cr = length risks0 ->
    exists cr' n' w' tr,
      feedback_risks_loop state feedback indexes cr n w = (Ok (cr', n'), w') /\
      llm w' = llm w /\ calls w' = calls w ++ tr /\
      workflow_states w' = workflow_states w /\
      length cr' = length cr /\
      Forall2 (risk_prompt_for reqs0 risks0 feedback)
        (attempted (Z.of_nat (length risks0)) indexes) tr /\
      (forall p : nat, cr' !! p <> cr !! p ->
         exists idx, idx ∈ attempted (Z.of_nat (length risks0)) indexes /\
                     pos_nat (Z.of_nat (length risks0)) idx = p).
Proof.
  intros Hreqs Hrisks Hl0.
  induction indexes as [|idx rest IH]; intros cr n w Hlen.
  - exists cr, n, w, []. rewrite app_nil_r. unchanged.
  - destruct (feedback_risk_step_spec state feedback reqs0 risks0 idx cr n w
                Hreqs Hrisks Hl0 Hlen)
      as (cr1 & n1 & w1 & tr1 & Hstep & Hl1 & Hc1 & Hs1 & Hlen1 & Htr1 & Hp1).
    destruct (IH cr1 n1 w1 ltac:(congruence))
      as (cr' & n' & w' & tr & Hloop & Hl & Hc & Hs & Hlen' & Htr & Hp).
    exists cr', n', w', (tr1 ++ tr).
    split; [cbn [feedback_risks_loop]; step; rewrite Hstep; cbv iota; exact Hloop |].
    split; [congruence |].
    split; [rewrite Hc, Hc1; now rewrite app_assoc |].
    split; [congruence |]. split; [congruence |].
    split; [rewrite attempted_cons; now apply Forall2_app |].
    intros p Hneq. rewrite attempted_cons.
    destruct (decide (cr1 !! p = cr !! p)) as [E|E].
    + rewrite <- E in Hneq. destruct (Hp p Hneq) as (i & Hi & Hpos).
      exists i. split; [| exact Hpos]. apply elem_of_app. now right.
    + destruct (Hp1 p E) as [Hin Hpos]. exists idx. split; [| exact Hpos].
      apply elem_of_app. left. unfold attempted. cbn [List.filter].
      destruct Hin as [Ha Hb].
      destruct (Z.leb_spec (- Z.of_nat (length risks0)) idx); [| lia].
      destruct (Z.ltb_spec idx (Z.of_nat (length risks0))); [| lia].
      cbn. apply list_elem_of_here.
Qed.

(** X6.  [regenerate_with_feedback] for risks, on a session with aligned
    requirements and risks: the generator is called once for each index of the
    request that denotes a position, in the request's order, each time with the
    requirement and the risk the session held at that index when the request
    came in and with the user's feedback; only risks at those positions can
    differ afterwards, and the requirements are untouched. *)
Theorem regenerate_with_feedback_risks (request : FeedbackRequest) (w : World)
    (state : KeywordState) (reqs risks : list string) :
  workflow_states w !! fb_thread_id request = Some state ->
  requirements_output state = Some reqs ->
  risks_output state = Some risks ->
  length reqs = length risks ->
  fb_regenerate_type request = "risks" ->
  exists resp w' risks' tr,
    regenerate_with_feedback request w = (Ok resp, w') /\
    r_status resp = "regenerated" /\
    r_requirements resp = Some reqs /\ r_risks resp = Some risks' /\
    length risks' = length risks /\
    calls w' = calls w ++ tr /\
    Forall2 (risk_prompt_for reqs risks (fb_feedback request))
      (attempted (Z.of_nat (length risks)) (fb_indexes request)) tr /\
    (forall p : nat, risks' !! p <> risks !! p ->
       exists idx, idx ∈ attempted (Z.of_nat (length risks)) (fb_indexes request) /\
                   pos_nat (Z.of_nat (length risks)) idx = p) /\
    (workflow_states w' !! fb_thread_id request) ≫= requirements_output = Some reqs /\
    (workflow_states w' !! fb_thread_id request) ≫= risks_output = Some risks'.
Proof.
  intros Hst Hreqs Hrisks Hl0 Hty.
  unfold regenerate_with_feedback. rewrite route_guard_run.
  step. unfold lookup_state at 1. rewrite Hst. cbv iota.
  destruct (ensure_keyword_run (fb_thread_id request) state w)
    as (st1 & w1 & Hens & Hq1 & Hk1 & Hl1 & Hc1).
  rewrite Hreqs in Hq1. rewrite Hrisks in Hk1.
  step. rewrite Hens. cbv iota. rewrite Hty.
  change ("risks" =? "requirement")%string with false.
  change ("risks" =? "risks")%string with true. cbv iota.
  destruct (feedback_risks_loop_spec st1 (fb_feedback request) reqs risks Hq1 Hk1 Hl0
              (fb_indexes request) risks 0%nat w1 eq_refl)
    as (cr' & n' & w' & tr & Hloop & Hl & Hc & Hs & Hlen' & Htr & Hp).
  step. unfold feedback_risk_branch. rewrite Hk1.
  step. rewrite Hloop. cbv iota. cbn [fst snd].
  step. unfold store_state at 1. unfold ret at 1. cbv iota.
  step. unfold store_state at 1. cbv iota.
  step. unfold requirements_attr at 1. cbn [requirements_output set_risks_output].
  rewrite Hq1. unfold ret at 1. cbv iota.
  step. unfold risks_attr at 1. cbn [risks_output set_risks_output].
  unfold ret. cbv iota.
  eexists _, _, cr', tr. split; [reflexivity |].
  cbn [r_status r_requirements r_risks regenerated_response requirements_output
       risks_output set_risks_output].
  split; [reflexivity |]. split; [exact Hq1 |]. split; [reflexivity |].
  split; [exact Hlen' |]. split; [cbn [calls put_state]; congruence |].
  split; [exact Htr |]. split; [exact Hp |].
  cbn [workflow_states put_state]. rewrite lookup_insert_eq. cbn.
  split; [exact Hq1 | reflexivity].
Qed.

Lemma regenerate_with_feedback_risks_witness :
  exists resp w' risks' tr,
    regenerate_with_feedback
      {| fb_thread_id := "demo"; fb_indexes := [1; 7; -1];
         fb_feedback := "be specific"; fb_regenerate_type := "risks" |}
      (demo_world varying_oracle) = (Ok resp, w') /\
    r_status resp = "regenerated" /\
    r_requirements resp = Some ["req zero"; "req one"; "req two"; "req three"; "req four"] /\
    r_risks resp = Some risks' /\
    length risks' = length ["risk zero"; "risk one"; "risk two"; "risk three"; "risk four"] /\
    calls w' = calls (demo_world varying_oracle) ++ tr /\
    Forall2 (risk_prompt_for ["req zero"; "req one"; "req two"; "req three"; "req four"]
               ["risk zero"; "risk one"; "risk two"; "risk three"; "risk four"]
               "be specific")
      (attempted 5 [1; 7; -1]) tr /\
    (forall p : nat,
        risks' !! p <> ["risk zero"; "risk one"; "risk two"; "risk three"; "risk four"] !! p ->
        exists idx, idx ∈ attempted 5 [1; 7; -1] /\ pos_nat 5 idx = p) /\
    (workflow_states w' !! "demo") ≫= requirements_output
    = Some ["req zero"; "req one"; "req two"; "req three"; "req four"] /\
    (workflow_states w' !! "demo") ≫= risks_output = Some risks'.
Proof.
  apply (regenerate_with_feedback_risks
           {| fb_thread_id := "demo"; fb_indexes := [1; 7; -1];
              fb_feedback := "be specific"; fb_regenerate_type := "risks" |}
           (demo_world varying_oracle) five_by_five_state);
    reflexivity.
Defined.

(** ** Whole-stage regeneration and manual edits *)

(** X7.  [regenerate] with the type [both], on a session with a selected
    keyword: the requirement stage runs first and the risk stage second, on
    the requirements the first has just produced; the answer carries five
    requirements and five risks, and the stored session holds the same. *)
Theorem regenerate_both_chains_stages (request : RegenerateRequest) (w : World)
    (state : KeywordState) :
  workflow_states w !! rg_thread_id request = Some state ->
  truthy_opt (selected_keyword state) = true ->
  rg_regenerate_type request = "both" ->
  exists resp w' reqs' risks',
    regenerate request w = (Ok resp, w') /\
    r_status resp = "regenerated" /\
    r_requirements resp = Some reqs' /\ length reqs' = 5%nat /\
    r_risks resp = Some risks' /\ length risks' = 5%nat /\
    calls w' = calls w ++ [RequirementsPrompt (selected_keyword state)
                             (requirement_description state);
                           RisksPrompt reqs'] /\
    (workflow_states w' !! rg_thread_id request) ≫= requirements_output = Some reqs' /\
    (workflow_states w' !! rg_thread_id request) ≫= risks_output = Some risks'.
Proof.
  intros Hst Hk Hty.
  destruct (generate_requirements_ok state w)
    as (st1 & w1 & reqs' & Hrun1 & Hq1 & Hl1 & _ & _ & Hc1 & _).
  destruct (generate_risks_run st1 (put_state (rg_thread_id request) st1 w1) reqs' Hq1)
    as (st2 & w2 & risks' & Hrun2 & Hk2 & Hl2 & Hq2 & _ & Hc2 & _).
  unfold regenerate. rewrite route_guard_run.
  step. unfold lookup_state at 1. rewrite Hst, Hk, Hty.
  change (negb true) with false.
  change (one_of "both" "requirements" "both") with true.
  change (one_of "both" "risks" "both") with true. cbv iota.
  step. step. rewrite Hrun1. cbv iota.
  step. unfold store_state at 1. unfold ret at 1. cbv iota.
  step. step. rewrite Hrun2. cbv iota.
  step. unfold store_state at 1. unfold ret at 1. cbv iota.
  step. unfold store_state at 1. unfold ret. cbv iota.
  eexists _, _, reqs', risks'. split; [reflexivity |].
  cbn [r_status r_requirements r_risks regenerated_response].
  split; [reflexivity |]. split; [exact Hq2 |]. split; [exact Hl1 |].
  split; [exact Hk2 |]. split; [exact Hl2 |].
  split.
  - cbn [calls put_state]. rewrite Hc2. cbn [calls put_state]. rewrite Hc1.
    now rewrite <- app_assoc.
  - cbn [workflow_states put_state]. rewrite lookup_insert_eq. cbn.
    split; assumption.
Qed.

Lemma regenerate_both_chains_stages_witness :
  exists resp w' reqs' risks',
    regenerate {| rg_thread_id := "demo"; rg_regenerate_type := "both" |}
      (demo_world (fun _ => Fails)) = (Ok resp, w') /\
    r_status resp = "regenerated" /\
    r_requirements resp = Some reqs' /\ length reqs' = 5%nat /\
    r_risks resp = Some risks' /\ length risks' = 5%nat /\
    calls w' = calls (demo_world (fun _ => Fails))
               ++ [RequirementsPrompt (selected_keyword five_by_five_state)
                     (requirement_description five_by_five_state);
                   RisksPrompt reqs'] /\
    (workflow_states w' !! "demo") ≫= requirements_output = Some reqs' /\
    (workflow_states w' !! "demo") ≫= risks_output = Some risks'.
Proof.
  apply (regenerate_both_chains_stages
           {| rg_thread_id := "demo"; rg_regenerate_type := "both" |}
           (demo_world (fun _ => Fails)) five_by_five_state);
    reflexivity.
Defined.

(** X8.  A request whose type is none of the values the handler compares
    with is not refused.  [regenerate_with_feedback] with a type other than
    [requirement] and [risks], on a session with requirements and risks,
    calls nothing, changes neither list and answers with the status
    [regenerated] and a message that counts the indexes as regenerated. *)
Theorem regenerate_with_feedback_other_type (request : FeedbackRequest) (w : World)
    (state : KeywordState) (reqs risks : list string) :
  workflow_states w !! fb_thread_id request = Some state ->
  requirements_output state = Some reqs ->
  risks_output state = Some risks ->
  fb_regenerate_type request <> "requirement" ->
  fb_regenerate_type request <> "risks" ->
  exists resp w',
    regenerate_with_feedback request w = (Ok resp, w') /\
    r_status resp = "regenerated" /\
    r_message resp
    = "Regenerated " +:+ Py.str_of_nat (length (fb_indexes request)) +:+ " "
        +:+ fb_regenerate_type request +:+ " with feedback" /\
    r_requirements resp = Some reqs /\ r_risks resp = Some risks /\
    calls w' = calls w /\
    (workflow_states w' !! fb_thread_id request) ≫= requirements_output = Some reqs /\
    (workflow_states w' !! fb_thread_id request) ≫= risks_output = Some risks.
Proof.
  intros Hst Hreqs Hrisks Hn1 Hn2.
  unfold regenerate_with_feedback. rewrite route_guard_run.
  step. unfold lookup_state at 1. rewrite Hst. cbv iota.
  destruct (ensure_keyword_run (fb_thread_id request) state w)
    as (st1 & w1 & Hens & Hq1 & Hk1 & _ & Hc1).
  rewrite Hreqs in Hq1. rewrite Hrisks in Hk1.
  step. rewrite Hens. cbv iota.
  destruct (String.eqb_spec (fb_regenerate_type request) "requirement"); [contradiction |].
  destruct (String.eqb_spec (fb_regenerate_type request) "risks"); [contradiction |].
  step. unfold ret at 1. cbv iota.
  step. unfold store_state at 1. cbv iota.
  step. unfold requirements_attr at 1. rewrite Hq1. unfold ret at 1. cbv iota.
  step. unfold risks_attr at 1. rewrite Hk1. unfold ret. cbv iota.
  eexists _, _. split; [reflexivity |].
  cbn [r_status r_message r_requirements r_risks regenerated_response].
  split; [reflexivity |]. split; [reflexivity |].
  split; [exact Hq1 |]. split; [exact Hk1 |]. split; [exact Hc1 |].
  cbn [workflow_states put_state]. rewrite lookup_insert_eq. cbn.
  split; assumption.
Qed.

Lemma regenerate_with_feedback_other_type_witness :
  exists resp w',
    regenerate_with_feedback
      {| fb_thread_id := "demo"; fb_indexes := [0; 1];
         fb_feedback := "shorter"; fb_regenerate_type := "requirements" |}
      (demo_world varying_oracle) = (Ok resp, w') /\
    r_status resp = "regenerated" /\
    r_message resp
    = "Regenerated " +:+ Py.str_of_nat 2 +:+ " " +:+ "requirements" +:+ " with feedback" /\
    r_requirements resp = Some ["req zero"; "req one"; "req two"; "req three"; "req four"] /\
    r_risks resp = Some ["risk zero"; "risk one"; "risk two"; "risk three"; "risk four"] /\
    calls w' = calls (demo_world varying_oracle) /\
    (workflow_states w' !! "demo") ≫= requirements_output
    = Some ["req zero"; "req one"; "req two"; "req three"; "req four"] /\
    (workflow_states w' !! "demo") ≫= risks_output
    = Some ["risk zero"; "risk one"; "risk two"; "risk three"; "risk four"].
Proof.
  apply (regenerate_with_feedback_other_type
           {| fb_thread_id := "demo"; fb_indexes := [0; 1];
              fb_feedback := "shorter"; fb_regenerate_type := "requirements" |}
           (demo_world varying_oracle) five_by_five_state);
    try reflexivity; discriminate.
Defined.

(** X9.  A manual edit without cascade.  [update_item] on a risk, or on a
    requirement when the cascade is switched off or the session has no risks,
    for an index that denotes a position: the item at that position becomes
    the new content, every other item of both lists is as before, the
    generator is not called, and the stored session holds what the answer
    shows. *)
Theorem update_item_overwrites_one (request : ItemUpdateRequest) (w : World)
    (state : KeywordState) (xs : list string) :
  workflow_states w !! iu_thread_id request = Some state ->
  (iu_type request = "requirement" /\ requirements_output state = Some xs /\
   (iu_update_related request = false \/ risks_output state = None)) \/
  (iu_type request = "risk" /\ risks_output state = Some xs) ->
  in_range (Z.of_nat (length xs)) (iu_index request) ->
  exists resp w' state',
    update_item request w = (Ok resp, w') /\
    r_status resp = "updated" /\
    (if String.eqb (iu_type request) "requirement"
     then r_requirements resp
          = Some (<[pos_nat (Z.of_nat (length xs)) (iu_index request)
                    := iu_new_content request]> xs) /\
          r_risks resp = risks_output state
     else r_risks resp
          = Some (<[pos_nat (Z.of_nat (length xs)) (iu_index request)
                    := iu_new_content request]> xs) /\
          r_requirements resp = requirements_output state) /\
    calls w' = calls w /\ graph_db w' = graph_db w /\
    workflow_states w' !! iu_thread_id request = Some state' /\
    requirements_output state' = r_requirements resp /\
    risks_output state' = r_risks resp.
Proof.
  intros Hst Hcase Hin. unfold in_range in Hin.
  unfold update_item. rewrite route_guard_run.
  step. unfold lookup_state at 1. rewrite Hst. cbv iota.
  destruct Hcase as [(Hty & Hxs & Hoff) | (Hty & Hxs)]; rewrite Hty.
  - change ("requirement" =? "requirement")%string with true. cbv iota.
    rewrite Hxs.
    destruct (Z.leb_spec (Z.of_nat (length xs)) (iu_index request)); [lia |].
    step. step. unfold setitem_exn at 1. rewrite setitem_position by lia.
    unfold ret at 1. cbv iota.
    step. unfold store_state at 1. cbv iota.
    assert (Hskip : iu_update_related request
                    && bool_decide (is_Some (risks_output
                         (set_requirements_output
                            (Some (<[Z.to_nat (position_of (Z.of_nat (length xs))
                                                (iu_index request))
                                     := iu_new_content request]> xs)) state)))
                    = false).
    { destruct Hoff as [-> | Hnone]; [reflexivity |].
      cbn [risks_output set_requirements_output]. rewrite Hnone.
      rewrite bool_decide_eq_false_2; [apply andb_false_r |].
      intros [? H']. discriminate H'. }
    rewrite Hskip. unfold ret at 1. cbv iota.
    step. unfold store_state at 1. unfold ret. cbv iota.
    eexists _, _, _. split; [reflexivity |].
    cbn [r_status r_risks r_requirements risks_output requirements_output
         set_requirements_output workflow_states calls graph_db put_state].
    rewrite lookup_insert_eq. repeat split.
  - change ("risk" =? "requirement")%string with false.
    change ("risk" =? "risk")%string with true. cbv iota.
    rewrite Hxs.
    destruct (Z.leb_spec (Z.of_nat (length xs)) (iu_index request)); [lia |].
    step. step. unfold setitem_exn at 1. rewrite setitem_position by lia.
    unfold ret at 1. cbv iota.
    step. unfold store_state at 1. unfold ret at 1. cbv iota.
    step. unfold store_state at 1. unfold ret. cbv iota.
    eexists _, _, _. split; [reflexivity |].
    cbn [r_status r_risks r_requirements risks_output requirements_output
         set_risks_output workflow_states calls graph_db put_state].
    rewrite lookup_insert_eq. repeat split.
Qed.

Lemma update_item_overwrites_one_witness :
  exists resp w' state',
    update_item {| iu_thread_id := "demo"; iu_index := -2; iu_type := "risk";
                   iu_new_content := "late delivery"; iu_update_related := true |}
      (demo_world varying_oracle) = (Ok resp, w') /\
    r_status resp = "updated" /\
    (r_risks resp
     = Some (<[pos_nat (Z.of_nat 5) (-2) := "late delivery"]>
               ["risk zero"; "risk one"; "risk two"; "risk three"; "risk four"]) /\
     r_requirements resp = requirements_output five_by_five_state) /\
    calls w' = calls (demo_world varying_oracle) /\
    graph_db w' = graph_db (demo_world varying_oracle) /\
    workflow_states w' !! "demo" = Some state' /\
    requirements_output state' = r_requirements resp /\
    risks_output state' = r_risks resp.
Proof.
  apply (update_item_overwrites_one
           {| iu_thread_id := "demo"; iu_index := -2; iu_type := "risk";
              iu_new_content := "late delivery"; iu_update_related := true |}
           (demo_world varying_oracle) five_by_five_state
           ["risk zero"; "risk one"; "risk two"; "risk three"; "risk four"]).
  - reflexivity.
  - right. split; reflexivity.
  - unfold in_range. simpl. lia.
Defined.

(** ** The regeneration flag *)

Lemma should_regenerate_cleared st :
  should_regenerate (clear_regenerate_flag st) = "save_to_db".
Proof.
  unfold clear_regenerate_flag, should_regenerate.
  destruct (regenerate_flag st) as [[|a f]|] eqn:E; simpl; rewrite ?E; reflexivity.
Qed.

Lemma regenerate_flag_cleared st :
  truthy_opt (regenerate_flag (clear_regenerate_flag st)) = false.
Proof.
  unfold clear_regenerate_flag.
  destruct (truthy_opt (regenerate_flag st)) eqn:E; [reflexivity | exact E].
Qed.

(** X10.  The two regenerating stages and the flag that asks for them.  A
    stage that runs to the end of its [try] block leaves no flag behind, so
    that [should_regenerate] then routes to the save; a stage that falls into
    its [except] branch, as it does whenever the call to the generator fails,
    leaves the flag as it was, so that after the risk stage
    [should_regenerate] routes as it did before. *)
Theorem stages_clear_flag_unless_failed (state : KeywordState) (w : World) :
  (exists st' w' lg,
      generate_requirements state w = (Ok st', w') /\ log w' = log w ++ lg /\
      (stage_failed Requirements lg /\ regenerate_flag st' = regenerate_flag state \/
       stage_completed Requirements lg /\
       truthy_opt (regenerate_flag st') = false) /\
      (llm w (length (calls w)) = Fails -> stage_failed Requirements lg)) /\
  (forall reqs, requirements_output state = Some reqs ->
     exists st' w' lg,
       generate_risks state w = (Ok st', w') /\ log w' = log w ++ lg /\
       (stage_failed Risks lg /\ should_regenerate st' = should_regenerate state \/
        stage_completed Risks lg /\ should_regenerate st' = "save_to_db") /\
       (llm w (length (calls w)) = Fails -> stage_failed Risks lg)).
Proof.
  split.
  - unfold generate_requirements, try_except, bind, invoke, lift.
    destruct (llm w (length (calls w))) as [content|].
    + destruct (parse_response "[" "]" (Py.strip content)) as [v|e].
      * destruct (not_five v).
        -- unfold logger, ret. cbv beta iota. rewrite validate_of_str_list.
           eexists _, _, [_]. split; [reflexivity |]. split; [reflexivity |].
           split; [| discriminate]. right. split; [now right |].
           apply regenerate_flag_cleared.
        -- unfold ret at 1. cbv beta iota.
           destruct (validate_str_list v) as [ss|e].
           ++ unfold ret. eexists _, _, []. split; [reflexivity |].
              split; [simpl; now rewrite app_nil_r |].
              split; [| discriminate]. right. split; [now left |].
              apply regenerate_flag_cleared.
           ++ unfold logger, ret. cbv beta iota.
              eexists _, _, [_]. split; [reflexivity |]. split; [reflexivity |].
              split; [| discriminate]. left. split; [now eexists | reflexivity].
      * unfold logger, ret. cbv beta iota.
        eexists _, _, [_]. split; [reflexivity |]. split; [reflexivity |].
        split; [| discriminate]. left. split; [now eexists | reflexivity].
    + unfold logger, ret. cbv beta iota.
      eexists _, _, [_]. split; [reflexivity |]. split; [reflexivity |].
      split; [| intros _; now eexists]. left. split; [now eexists | reflexivity].
  - intros reqs Hreqs.
    unfold generate_risks, try_except, bind, invoke, lift, requirements_attr.
    rewrite Hreqs. unfold ret at 1. cbv beta iota.
    destruct (llm w (length (calls w))) as [content|].
    + destruct (parse_response "{" "}" (Py.strip content)) as [v|e].
      * destruct (not_five (risks_of_data v)).
        -- unfold logger, ret. cbv beta iota. rewrite validate_of_str_list.
           eexists _, _, [_]. split; [reflexivity |]. split; [reflexivity |].
           split; [| discriminate]. right. split; [now right |].
           apply should_regenerate_cleared.
        -- unfold ret at 1. cbv beta iota.
           destruct (validate_str_list (risks_of_data v)) as [ss|e].
           ++ unfold ret. eexists _, _, []. split; [reflexivity |].
              split; [simpl; now rewrite app_nil_r |].
              split; [| discriminate]. right. split; [now left |].
              apply should_regenerate_cleared.
           ++ unfold logger, ret. cbv beta iota.
              eexists _, _, [_]. split; [reflexivity |]. split; [reflexivity |].
              split; [| discriminate]. left. split; [now eexists | reflexivity].
      * unfold logger, ret. cbv beta iota.
        eexists _, _, [_]. split; [reflexivity |]. split; [reflexivity |].
        split; [| discriminate]. left. split; [now eexists | reflexivity].
    + unfold logger, ret. cbv beta iota.
      eexists _, _, [_]. split; [reflexivity |]. split; [reflexivity |].
      split; [| intros _; now eexists]. left. split; [now eexists | reflexivity].
Qed.

Lemma stages_clear_flag_unless_failed_witness :
  exists st' w' lg,
    generate_risks flagged_state (demo_world (fun _ => Fails)) = (Ok st', w') /\
    log w' = log (demo_world (fun _ => Fails)) ++ lg /\
    (stage_failed Risks lg /\ should_regenerate st' = should_regenerate flagged_state \/
     stage_completed Risks lg /\ should_regenerate st' = "save_to_db") /\
    (llm (demo_world (fun _ => Fails))
       (length (calls (demo_world (fun _ => Fails)))) = Fails ->
     stage_failed Risks lg).
Proof.
  apply (proj2 (stages_clear_flag_unless_failed flagged_state
                  (demo_world (fun _ => Fails)))
           ["req zero"; "req one"; "req two"; "req three"; "req four"]).
  reflexivity.
Defined.

(** ** Saving into any graph *)

Lemma edge_eqb_eq e f : edge_eqb e f = true <-> e = f.
Proof.
  unfold edge_eqb. destruct e as [a b], f as [c d]. simpl.
  rewrite andb_true_iff, !Nat.eqb_eq. split; [intros [-> ->]; reflexivity |].
  intros [= -> ->]. split; reflexivity.
Qed.

Lemma existsb_edge e es : existsb (edge_eqb e) es = true <-> In e es.
Proof.
  rewrite existsb_exists. split.
  - intros (f & Hf & He). apply edge_eqb_eq in He. now subst.
  - intros H. exists e. split; [exact H | now apply edge_eqb_eq].
Qed.

Lemma merge_edge_present es e : In e es -> merge_edge es e = es.
Proof. intros H. unfold merge_edge. now rewrite (proj2 (existsb_edge e es) H). Qed.

Lemma merge_edge_prefix es e : es `prefix_of` merge_edge es e.
Proof.
  unfold merge_edge. destruct (existsb (edge_eqb e) es); [reflexivity |].
  now apply prefix_app_r.
Qed.

Lemma merge_edge_in es e : In e (merge_edge es e).
Proof.
  unfold merge_edge. destruct (existsb (edge_eqb e) es) eqn:E.
  - now apply existsb_edge.
  - apply in_or_app. right. now left.
Qed.

Lemma prefix_in {A} (l k : list A) x : l `prefix_of` k -> In x l -> In x k.
Proof. intros [t ->] H. apply in_or_app. now left. Qed.

Lemma merge_edges_prefix new : forall es, es `prefix_of` merge_edges es new.
Proof.
  unfold merge_edges. induction new as [|e new IH]; intros es; simpl; [reflexivity |].
  etransitivity; [apply merge_edge_prefix | apply IH].
Qed.

Lemma merge_edges_in new : forall es e, In e new -> In e (merge_edges es new).
Proof.
  unfold merge_edges. induction new as [|f new IH]; intros es e H; simpl; [contradiction |].
  destruct H as [-> | H].
  - eapply prefix_in; [apply (merge_edges_prefix new) | apply merge_edge_in].
  - now apply IH.
Qed.

Lemma merge_edges_present new : forall es,
  (forall e, In e new -> In e es) -> merge_edges es new = es.
Proof.
  unfold merge_edges. induction new as [|f new IH]; intros es H; simpl; [reflexivity |].
  rewrite merge_edge_present by (apply H; now left).
  apply IH. intros e He. apply H. now right.
Qed.

Lemma graph_eta g :
  {| next_id := next_id g; project_nodes := project_nodes g;
     requirement_nodes := requirement_nodes g; risk_nodes := risk_nodes g;
     has_requirement := has_requirement g; has_risk := has_risk g |} = g.
Proof. now destruct g. Qed.

Lemma grows_refl g : grows g g.
Proof. repeat split; reflexivity. Qed.

Lemma grows_trans g1 g2 g3 : grows g1 g2 -> grows g2 g3 -> grows g1 g3.
Proof.
  intros (? & ? & ? & ? & ? & ?) (? & ? & ? & ? & ? & ?).
  repeat split; [lia | etransitivity; eassumption ..].
Qed.

Lemma map_project_key_set name keyword l :
  map project_key
    (map (fun p => if name_is name p
                   then {| p_id := p_id p; p_name := p_name p; p_keyword := Some keyword |}
                   else p) l)
  = map project_key l.
Proof.
  rewrite map_map. apply map_ext. intros p. now destruct (name_is name p).
Qed.

Lemma merge_project_grows name keyword g : grows g (snd (merge_project name keyword g)).
Proof.
  unfold merge_project, grows.
  destruct (existsb (name_is name) (project_nodes g));
    cbn [snd next_id project_nodes requirement_nodes risk_nodes has_requirement has_risk].
  - repeat split; try reflexivity. now rewrite map_project_key_set.
  - repeat split; try reflexivity; [lia |].
    rewrite map_app. now apply prefix_app_r.
Qed.

Ltac graph_fields :=
  cbn [snd next_id project_nodes requirement_nodes risk_nodes has_requirement has_risk].

Lemma merge_requirement_grows name desc idx g :
  grows g (snd (merge_requirement name desc idx g)).
Proof.
  unfold merge_requirement. destruct (match_projects name g) as [|p ps]; [apply grows_refl |].
  destruct (map n_id (List.filter (node_is name idx desc) (requirement_nodes g)));
    unfold grows; graph_fields.
  - repeat split; try reflexivity;
      [lia | now apply prefix_app_r | apply merge_edges_prefix].
  - repeat split; try reflexivity. apply merge_edges_prefix.
Qed.

Lemma merge_risk_grows name desc idx g : grows g (snd (merge_risk name desc idx g)).
Proof.
  unfold merge_risk. destruct (match_projects name g) as [|p ps]; [apply grows_refl |].
  destruct (map n_id (List.filter (key_is name idx) (requirement_nodes g)));
    [apply grows_refl |].
  destruct (map n_id (List.filter (node_is name idx desc) (risk_nodes g)));
    unfold grows; graph_fields.
  - repeat split; try reflexivity;
      [lia | now apply prefix_app_r | apply merge_edges_prefix].
  - repeat split; try reflexivity. apply merge_edges_prefix.
Qed.

Lemma requirements_saved_grows name descs : forall idx g,
  grows g (requirements_saved name idx descs g).
Proof.
  induction descs as [|d r IH]; intros idx g; simpl; [apply grows_refl |].
  eapply grows_trans; [apply merge_requirement_grows | apply IH].
Qed.

Lemma risks_saved_grows name descs : forall idx g,
  grows g (risks_saved name idx descs g).
Proof.
  induction descs as [|d r IH]; intros idx g; simpl; [apply grows_refl |].
  eapply grows_trans; [apply merge_risk_grows | apply IH].
Qed.

Lemma save_to_neo4j_graph reqs risks name keyword w :
  save_to_neo4j reqs risks name keyword w
  = (Ok saved_text, put_graph (save_graph name keyword reqs risks (graph_db w)) w).
Proof.
  unfold save_to_neo4j, save_graph.
  step. unfold query at 1. cbv iota.
  step. rewrite save_requirements_run. cbv iota.
  step. rewrite save_risks_run. cbv iota. reflexivity.
Qed.

(** X11.  [save_to_neo4j] on any graph removes nothing and rewrites no
    requirement, risk or relationship: the graph it leaves extends the one it
    found, node by node and relationship by relationship, and project nodes
    keep their identity and name.  It always returns its success text, and it
    touches neither the sessions nor the generator. *)
Theorem save_never_removes (reqs risks : list string) (name keyword : string) (w : World) :
  exists w',
    save_to_neo4j reqs risks name keyword w = (Ok saved_text, w') /\
    grows (graph_db w) (graph_db w') /\
    workflow_states w' = workflow_states w /\ calls w' = calls w.
Proof.
  rewrite save_to_neo4j_graph. eexists. split; [reflexivity |].
  split; [| split; reflexivity]. cbn [graph_db put_graph]. unfold save_graph.
  eapply grows_trans; [apply merge_project_grows |].
  eapply grows_trans; [apply requirements_saved_grows | apply risks_saved_grows].
Qed.

Section SaveTwice.

Variable name : string.

Lemma merge_requirement_frame desc idx g :
  project_nodes (snd (merge_requirement name desc idx g)) = project_nodes g /\
  risk_nodes (snd (merge_requirement name desc idx g)) = risk_nodes g /\
  has_risk (snd (merge_requirement name desc idx g)) = has_risk g.
Proof.
  unfold merge_requirement. destruct (match_projects name g); [repeat split |].
  destruct (map n_id (List.filter (node_is name idx desc) (requirement_nodes g)));
    repeat split.
Qed.

Lemma merge_risk_frame desc idx g :
  project_nodes (snd (merge_risk name desc idx g)) = project_nodes g /\
  requirement_nodes (snd (merge_risk name desc idx g)) = requirement_nodes g /\
  has_requirement (snd (merge_risk name desc idx g)) = has_requirement g.
Proof.
  unfold merge_risk. destruct (match_projects name g); [repeat split |].
  destruct (map n_id (List.filter (key_is name idx) (requirement_nodes g)));
    [repeat split |].
  destruct (map n_id (List.filter (node_is name idx desc) (risk_nodes g)));
    repeat split.
Qed.

Lemma match_projects_frame g g' :
  project_nodes g' = project_nodes g -> match_projects name g' = match_projects name g.
Proof. unfold match_projects. now intros ->. Qed.

Lemma node_is_other_index desc idx desc' idx' id :
  idx <> idx' ->
  node_is name idx desc
    {| n_id := id; n_description := desc'; n_project := name; n_index := idx' |} = false.
Proof.
  intros H. unfold node_is, key_is. cbn [n_project n_index n_description].
  destruct (Z.eqb_spec idx' idx); [congruence |]. now rewrite andb_false_r.
Qed.

Lemma node_is_itself desc idx id :
  node_is name idx desc
    {| n_id := id; n_description := desc; n_project := name; n_index := idx |} = true.
Proof.
  unfold node_is, key_is. cbn [n_project n_index n_description].
  now rewrite !String.eqb_refl, Z.eqb_refl.
Qed.

Lemma map_nil_inv {A B} (f : A -> B) l : map f l = [] -> l = [].
Proof. now destruct l. Qed.

(** *** One requirement *)

Lemma merge_requirement_noop desc idx g :
  requirement_settled name desc idx g -> snd (merge_requirement name desc idx g) = g.
Proof.
  intros [Hne Hedges]. unfold merge_requirement.
  destruct (match_projects name g) as [|p ps] eqn:Ep; [reflexivity |].
  destruct (map n_id (List.filter (node_is name idx desc) (requirement_nodes g)))
    as [|r rs] eqn:Er.
  - apply map_nil_inv in Er. contradiction.
  - cbn [snd]. rewrite merge_edges_present; [apply graph_eta |].
    intros [a b] He. apply in_prod_iff in He as [Ha Hb]. now apply Hedges.
Qed.

Lemma merge_requirement_settles desc idx g :
  match_projects name g <> [] ->
  requirement_settled name desc idx (snd (merge_requirement name desc idx g)).
Proof.
  intros Hp. unfold requirement_settled.
  rewrite (match_projects_frame g _ (proj1 (merge_requirement_frame desc idx g))).
  unfold merge_requirement.
  destruct (match_projects name g) as [|p ps] eqn:Ep; [contradiction |].
  destruct (map n_id (List.filter (node_is name idx desc) (requirement_nodes g)))
    as [|r rs] eqn:Er; graph_fields.
  - apply map_nil_inv in Er.
    rewrite List.filter_app, Er. cbn [List.filter app]. rewrite node_is_itself.
    split; [discriminate |]. cbn [map n_id]. intros a b Ha Hb.
    apply merge_edges_in. apply in_prod_iff. split; assumption.
  - split.
    + intros E. rewrite E in Er. discriminate Er.
    + rewrite Er. intros a b Ha Hb.
      apply merge_edges_in. apply in_prod_iff. split; assumption.
Qed.

Lemma requirement_settled_after_requirement desc idx desc' idx' g :
  idx <> idx' ->
  requirement_settled name desc idx g ->
  requirement_settled name desc idx (snd (merge_requirement name desc' idx' g)).
Proof.
  intros Hi [Hne Hedges]. unfold requirement_settled.
  rewrite (match_projects_frame g _ (proj1 (merge_requirement_frame desc' idx' g))).
  unfold merge_requirement.
  destruct (match_projects name g) as [|p ps] eqn:Ep; [now split |].
  destruct (map n_id (List.filter (node_is name idx' desc') (requirement_nodes g)))
    as [|r rs] eqn:Er; graph_fields.
  - rewrite List.filter_app. cbn [List.filter].
    rewrite (node_is_other_index desc idx desc' idx' _ Hi), app_nil_r.
    split; [exact Hne |]. intros a b Ha Hb.
    eapply prefix_in; [apply merge_edges_prefix | now apply Hedges].
  - split; [exact Hne |]. intros a b Ha Hb.
    eapply prefix_in; [apply merge_edges_prefix | now apply Hedges].
Qed.

Lemma requirement_settled_after_risk desc idx desc' idx' g :
  requirement_settled name desc idx g ->
  requirement_settled name desc idx (snd (merge_risk name desc' idx' g)).
Proof.
  destruct (merge_risk_frame desc' idx' g) as (Hp & Hr & He).
  unfold requirement_settled. now rewrite (match_projects_frame g _ Hp), Hr, He.
Qed.

(** *** One risk *)

Lemma merge_risk_noop desc idx g :
  risk_settled name desc idx g -> snd (merge_risk name desc idx g) = g.
Proof.
  intros H. unfold merge_risk.
  destruct (match_projects name g) as [|p ps] eqn:Ep; [reflexivity |].
  destruct (map n_id (List.filter (key_is name idx) (requirement_nodes g)))
    as [|r rs] eqn:Er; [reflexivity |].
  destruct H as [H | [Hne Hedges]]; [rewrite H in Er; discriminate Er |].
  destruct (map n_id (List.filter (node_is name idx desc) (risk_nodes g)))
    as [|k ks] eqn:Ek.
  - apply map_nil_inv in Ek. contradiction.
  - cbn [snd]. rewrite merge_edges_present; [apply graph_eta |].
    intros [a b] He. apply in_prod_iff in He as [Ha Hb].
    apply Hedges; [rewrite ?Er | rewrite ?Ek]; assumption.
Qed.

Lemma merge_risk_settles desc idx g :
  match_projects name g <> [] ->
  risk_settled name desc idx (snd (merge_risk name desc idx g)).
Proof.
  intros Hp. unfold risk_settled.
  rewrite (proj1 (proj2 (merge_risk_frame desc idx g))).
  unfold merge_risk.
  destruct (match_projects name g) as [|p ps] eqn:Ep; [contradiction |].
  destruct (map n_id (List.filter (key_is name idx) (requirement_nodes g)))
    as [|r rs] eqn:Er.
  - left. now apply map_nil_inv in Er.
  - right.
    destruct (map n_id (List.filter (node_is name idx desc) (risk_nodes g)))
      as [|k ks] eqn:Ek; graph_fields.
    + apply map_nil_inv in Ek.
      rewrite List.filter_app, Ek. cbn [List.filter app]. rewrite node_is_itself.
      split; [discriminate |]. cbn [map n_id]. intros a b Ha Hb.
      apply merge_edges_in. apply in_prod_iff. split; assumption.
    + split.
      * intros E. rewrite E in Ek. discriminate Ek.
      * rewrite Ek. intros a b Ha Hb.
        apply merge_edges_in. apply in_prod_iff. split; assumption.
Qed.

Lemma risk_settled_after_risk desc idx desc' idx' g :
  idx <> idx' ->
  risk_settled name desc idx g ->
  risk_settled name desc idx (snd (merge_risk name desc' idx' g)).
Proof.
  intros Hi H. unfold risk_settled.
  rewrite (proj1 (proj2 (merge_risk_frame desc' idx' g))).
  destruct H as [H | [Hne Hedges]]; [now left | right].
  unfold merge_risk.
  destruct (match_projects name g) as [|p ps] eqn:Ep; [now split |].
  destruct (map n_id (List.filter (key_is name idx') (requirement_nodes g)))
    as [|r rs] eqn:Er; [now split |].
  destruct (map n_id (List.filter (node_is name idx' desc') (risk_nodes g)))
    as [|k ks] eqn:Ek; graph_fields.
  - rewrite List.filter_app. cbn [List.filter].
    rewrite (node_is_other_index desc idx desc' idx' _ Hi), app_nil_r.
    split; [exact Hne |]. intros a b Ha Hb.
    eapply prefix_in; [apply merge_edges_prefix | now apply Hedges].
  - split; [exact Hne |]. intros a b Ha Hb.
    eapply prefix_in; [apply merge_edges_prefix | now apply Hedges].
Qed.

(** *** The project *)

Variable keyword : string.

Lemma merge_project_settles g :
  project_settled name keyword (snd (merge_project name keyword g)).
Proof.
  unfold project_settled, merge_project, match_projects.
  destruct (existsb (name_is name) (project_nodes g)) eqn:E; graph_fields.
  - split.
    + apply existsb_exists in E as (p & Hin & Hp).
      intros Hnil. apply map_nil_inv in Hnil.
      assert (Hin' : In {| p_id := p_id p; p_name := p_name p; p_keyword := Some keyword |}
                       (List.filter (name_is name)
                          (map (fun p => if name_is name p
                                         then {| p_id := p_id p; p_name := p_name p;
                                                 p_keyword := Some keyword |}
                                         else p) (project_nodes g)))).
      { apply filter_In. split; [| exact Hp].
        apply in_map_iff. exists p. now rewrite Hp. }
      rewrite Hnil in Hin'. contradiction.
    + apply List.Forall_forall. intros q Hq. apply in_map_iff in Hq
        as (p & <- & _).
      destruct (name_is name p) eqn:Hp; [reflexivity | congruence].
  - split.
    + rewrite List.filter_app, map_app. cbn [List.filter].
      unfold name_is at 2. cbn [p_name]. rewrite String.eqb_refl. cbn [map].
      intros Hnil. apply app_eq_nil in Hnil as [_ Hnil]. discriminate Hnil.
    + apply Forall_app. split.
      * apply List.Forall_forall. intros p Hp Hn.
        assert (existsb (name_is name) (project_nodes g) = true)
          by (apply existsb_exists; now exists p).
        congruence.
      * constructor; [reflexivity | constructor].
Qed.

Lemma merge_project_noop g :
  project_settled name keyword g -> snd (merge_project name keyword g) = g.
Proof.
  intros [Hne Hkw]. unfold merge_project.
  assert (E : existsb (name_is name) (project_nodes g) = true).
  { unfold match_projects in Hne.
    destruct (List.filter (name_is name) (project_nodes g)) as [|p l] eqn:Ef;
      [contradiction |].
    assert (Hin : In p (List.filter (name_is name) (project_nodes g)))
      by (rewrite Ef; now left).
    apply filter_In in Hin as [Hin Hp]. apply existsb_exists. now exists p. }
  rewrite E. cbn [snd].
  assert (Hmap : map (fun p => if name_is name p
                               then {| p_id := p_id p; p_name := p_name p;
                                       p_keyword := Some keyword |}
                               else p) (project_nodes g) = project_nodes g).
  { clear Hne E. induction Hkw as [|p l Hp _ IH]; [reflexivity |]. cbn [map]. rewrite IH.
    destruct (name_is name p); [| reflexivity].
    destruct p as [i n k]. cbn in Hp |- *. now rewrite (Hp eq_refl). }
  rewrite Hmap. apply graph_eta.
Qed.

Lemma project_settled_frame g g' :
  project_nodes g' = project_nodes g ->
  project_settled name keyword g -> project_settled name keyword g'.
Proof.
  intros E. unfold project_settled. now rewrite (match_projects_frame g g' E), E.
Qed.

(** *** The two loops *)

Lemma requirements_saved_frame descs : forall idx g,
  project_nodes (requirements_saved name idx descs g) = project_nodes g.
Proof.
  induction descs as [|d r IH]; intros idx g; simpl; [reflexivity |].
  rewrite IH. apply merge_requirement_frame.
Qed.

Lemma risks_saved_frame descs : forall idx g,
  project_nodes (risks_saved name idx descs g) = project_nodes g /\
  requirement_nodes (risks_saved name idx descs g) = requirement_nodes g /\
  has_requirement (risks_saved name idx descs g) = has_requirement g.
Proof.
  induction descs as [|d r IH]; intros idx g; simpl; [repeat split |].
  destruct (IH (idx + 1) (snd (merge_risk name d idx g))) as (-> & -> & ->).
  apply merge_risk_frame.
Qed.

Lemma requirement_settled_kept desc i descs : forall idx g,
  i < idx ->
  requirement_settled name desc i g ->
  requirement_settled name desc i (requirements_saved name idx descs g).
Proof.
  induction descs as [|d r IH]; intros idx g Hi H; simpl; [exact H |].
  apply IH; [lia |]. apply requirement_settled_after_requirement; [lia | exact H].
Qed.

Lemma requirement_settled_through_risks desc i descs : forall idx g,
  requirement_settled name desc i g ->
  requirement_settled name desc i (risks_saved name idx descs g).
Proof.
  induction descs as [|d r IH]; intros idx g H; simpl; [exact H |].
  apply IH. now apply requirement_settled_after_risk.
Qed.

Lemma risk_settled_kept desc i descs : forall idx g,
  i < idx ->
  risk_settled name desc i g ->
  risk_settled name desc i (risks_saved name idx descs g).
Proof.
  induction descs as [|d r IH]; intros idx g Hi H; simpl; [exact H |].
  apply IH; [lia |]. apply risk_settled_after_risk; [lia | exact H].
Qed.

Lemma requirements_saved_settles descs : forall idx g (j : nat) desc,
  match_projects name g <> [] ->
  descs !! j = Some desc ->
  requirement_settled name desc (idx + Z.of_nat j) (requirements_saved name idx descs g).
Proof.
  induction descs as [|d r IH]; intros idx g j desc Hp Hj; [discriminate Hj |].
  simpl. destruct j as [|j].
  - injection Hj as ->. replace (idx + Z.of_nat 0) with idx by lia.
    apply requirement_settled_kept; [lia |]. now apply merge_requirement_settles.
  - replace (idx + Z.of_nat (S j)) with (idx + 1 + Z.of_nat j) by lia.
    apply IH; [| exact Hj].
    now rewrite (match_projects_frame g _ (proj1 (merge_requirement_frame d idx g))).
Qed.

Lemma risks_saved_settles descs : forall idx g (j : nat) desc,
  match_projects name g <> [] ->
  descs !! j = Some desc ->
  risk_settled name desc (idx + Z.of_nat j) (risks_saved name idx descs g).
Proof.
  induction descs as [|d r IH]; intros idx g j desc Hp Hj; [discriminate Hj |].
  simpl. destruct j as [|j].
  - injection Hj as ->. replace (idx + Z.of_nat 0) with idx by lia.
    apply risk_settled_kept; [lia |]. now apply merge_risk_settles.
  - replace (idx + Z.of_nat (S j)) with (idx + 1 + Z.of_nat j) by lia.
    apply IH; [| exact Hj].
    now rewrite (match_projects_frame g _ (proj1 (merge_risk_frame d idx g))).
Qed.

Lemma requirements_saved_noop descs g : forall idx,
  (forall (j : nat) desc, descs !! j = Some desc ->
                          requirement_settled name desc (idx + Z.of_nat j) g) ->
  requirements_saved name idx descs g = g.
Proof.
  induction descs as [|d r IH]; intros idx H; simpl; [reflexivity |].
  rewrite merge_requirement_noop.
  - apply IH. intros j desc Hj.
    replace (idx + 1 + Z.of_nat j) with (idx + Z.of_nat (S j)) by lia. now apply H.
  - replace idx with (idx + Z.of_nat 0) at 1 by lia. now apply H.
Qed.

Lemma risks_saved_noop descs g : forall idx,
  (forall (j : nat) desc, descs !! j = Some desc ->
                          risk_settled name desc (idx + Z.of_nat j) g) ->
  risks_saved name idx descs g = g.
Proof.
  induction descs as [|d r IH]; intros idx H; simpl; [reflexivity |].
  rewrite merge_risk_noop.
  - apply IH. intros j desc Hj.
    replace (idx + 1 + Z.of_nat j) with (idx + Z.of_nat (S j)) by lia. now apply H.
  - replace idx with (idx + Z.of_nat 0) at 1 by lia. now apply H.
Qed.

Lemma save_graph_idempotent reqs risks g :
  save_graph name keyword reqs risks (save_graph name keyword reqs risks g)
  = save_graph name keyword reqs risks g.
Proof.
  set (g0 := snd (merge_project name keyword g)).
  set (g1 := requirements_saved name 1 reqs g0).
  set (g2 := risks_saved name 1 risks g1).
  assert (H0 : project_settled name keyword g0) by apply merge_project_settles.
  assert (H1 : project_settled name keyword g1).
  { eapply project_settled_frame; [| exact H0]. apply requirements_saved_frame. }
  assert (H2 : project_settled name keyword g2).
  { eapply project_settled_frame; [| exact H1]. apply risks_saved_frame. }
  change (save_graph name keyword reqs risks g) with g2.
  unfold save_graph. rewrite (merge_project_noop g2 H2).
  rewrite (requirements_saved_noop reqs g2).
  - apply risks_saved_noop. intros j desc Hj.
    apply risks_saved_settles; [apply H1 | exact Hj].
  - intros j desc Hj. apply requirement_settled_through_risks.
    apply requirements_saved_settles; [apply H0 | exact Hj].
Qed.

End SaveTwice.

(** X12.  Saving is idempotent on any graph: a second [save_to_neo4j] with the
    same requirements, risks, project and keyword, run right after the first,
    finds every node and relationship it merges and leaves the graph exactly
    as the first left it. *)
Theorem save_twice_same_graph (reqs risks : list string) (name keyword : string)
    (w : World) :
  exists w1 w2,
    save_to_neo4j reqs risks name keyword w = (Ok saved_text, w1) /\
    save_to_neo4j reqs risks name keyword w1 = (Ok saved_text, w2) /\
    graph_db w2 = graph_db w1 /\ w2 = w1.
Proof.
  eexists _, _. split; [apply save_to_neo4j_graph |].
  split; [apply save_to_neo4j_graph |].
  cbn [graph_db put_graph]. rewrite save_graph_idempotent. split; [reflexivity |].
  now destruct w.
Qed.

(** ** Reading the graph *)

Lemma order_rows_nil l : order_rows l = [] -> l = [].
Proof.
  destruct l as [|r l]; [reflexivity |]. unfold order_rows. simpl.
  destruct (fold_right insert_row [] l); simpl; [discriminate |].
  destruct (row_leb r r0); discriminate.
Qed.

(** X13.  [load_project_from_neo4j] never falls back on the project name for
    the keyword.  Without a project node of that name it answers 404 and
    leaves the world as it was; whenever it succeeds, the keyword it returns
    and stores is the one on the first project node of that name, be it
    missing. *)
Theorem load_keyword_is_stored_keyword (name : string) (w : World) :
  (match_projects name (graph_db w) = [] ->
   load_project_from_neo4j name w
   = (Raise (HTTPException 404 "Project not found in Neo4j"), w)) /\
  (forall resp w',
     load_project_from_neo4j name w = (Ok resp, w') ->
     exists p state,
       head (List.filter (name_is name) (project_nodes (graph_db w))) = Some p /\
       ld_selected_keyword resp = p_keyword p /\
       workflow_states w' !! name = Some state /\
       selected_keyword state = p_keyword p).
Proof.
  split.
  - intros Hno. unfold load_project_from_neo4j. rewrite route_guard_run.
    step. unfold query at 1. cbv iota. unfold keyword_query. cbn [fst snd].
    step. unfold query at 1. cbv iota. unfold load_query. cbn [fst snd graph_db put_graph].
    unfold requirements_of. rewrite Hno. cbn [flat_map order_rows fold_right].
    unfold raise. now rewrite !put_graph_same.
  - intros resp w'. unfold load_project_from_neo4j. rewrite route_guard_run.
    step. unfold query at 1. cbv iota. unfold keyword_query. cbn [fst snd].
    step. unfold query at 1. cbv iota. unfold load_query. cbn [fst snd graph_db put_graph].
    destruct (order_rows (flat_map (rows_of (graph_db w)) (requirements_of (graph_db w) name)))
      as [|r0 rows] eqn:Erows; [discriminate |].
    destruct (List.filter (name_is name) (project_nodes (graph_db w))) as [|p ps] eqn:Ep.
    + unfold requirements_of, match_projects in Erows. rewrite Ep in Erows.
      discriminate Erows.
    + cbn [map]. destruct (collect_rows (r0 :: rows) [] []) as [requirements risks].
      step. unfold store_state at 1. cbv iota.
      step. unfold requirements_attr at 1. cbn [requirements_output]. unfold ret.
      cbv iota. intros [= <- <-].
      eexists p, _. split; [reflexivity |]. split; [reflexivity |].
      cbn [workflow_states put_state put_graph]. rewrite lookup_insert_eq.
      split; reflexivity.
Qed.

Lemma load_keyword_is_stored_keyword_witness :
  load_project_from_neo4j "demo" (fresh_world (fun _ => Fails))
  = (Raise (HTTPException 404 "Project not found in Neo4j"), fresh_world (fun _ => Fails)).
Proof.
  apply (proj1 (load_keyword_is_stored_keyword "demo" (fresh_world (fun _ => Fails)))).
  reflexivity.
Defined.

(** *** The order of the records *)

Lemma row_leb_total a b : row_leb a b = false -> row_leb b a = true.
Proof.
  unfold row_leb.
  destruct (Z.ltb_spec (req_index a) (req_index b)); [discriminate |].
  destruct (Z.ltb_spec (req_index b) (req_index a)); [reflexivity |].
  destruct (risk_index a) as [x|], (risk_index b) as [y|]; try discriminate;
    try reflexivity.
  intros Hxy. apply Z.leb_gt in Hxy. apply Z.leb_le. lia.
Qed.

Lemma row_leb_trans a b c : row_leb a b = true -> row_leb b c = true -> row_leb a c = true.
Proof.
  unfold row_leb.
  destruct (Z.ltb_spec (req_index a) (req_index b));
    destruct (Z.ltb_spec (req_index b) (req_index a));
    destruct (Z.ltb_spec (req_index b) (req_index c));
    destruct (Z.ltb_spec (req_index c) (req_index b));
    destruct (Z.ltb_spec (req_index a) (req_index c));
    destruct (Z.ltb_spec (req_index c) (req_index a));
    try lia; try discriminate; try reflexivity.
  destruct (risk_index a) as [x|], (risk_index b) as [y|], (risk_index c) as [z|];
    try discriminate; try reflexivity.
  intros Hxy Hyz. apply Z.leb_le in Hxy, Hyz. apply Z.leb_le. lia.
Qed.

Lemma all_after_insert r x l :
  row_leb r x = true -> all_after r l -> all_after r (insert_row x l).
Proof.
  intros Hx H. induction H as [|y l Hy Hl IH]; simpl.
  - constructor; [exact Hx | constructor].
  - destruct (row_leb x y).
    + constructor; [exact Hx |]. now constructor.
    + now constructor.
Qed.

Lemma ordered_insert x l : ordered l -> ordered (insert_row x l).
Proof.
  induction 1 as [|r l Hr Hl IH]; simpl.
  - constructor; constructor.
  - destruct (row_leb x r) eqn:E.
    + constructor; [| now constructor].
      constructor; [exact E |].
      eapply Forall_impl; [exact Hr |]. intros y Hy. simpl in Hy.
      now apply (row_leb_trans x r y).
    + constructor; [| exact IH].
      apply all_after_insert; [now apply row_leb_total | exact Hr].
Qed.

Lemma ordered_order_rows l : ordered (order_rows l).
Proof.
  unfold order_rows. induction l as [|r l IH]; simpl; [constructor |].
  now apply ordered_insert.
Qed.

Lemma insert_row_before r l :
  all_after r l -> insert_row r l = r :: l.
Proof. intros H. destruct H as [|x l Hx _]; simpl; [reflexivity | now rewrite Hx]. Qed.

Lemma all_after_filter (f : Row -> bool) r l :
  all_after r l -> all_after r (List.filter f l).
Proof.
  induction 1 as [|x l Hx _ IH]; simpl; [constructor |].
  destruct (f x); [now constructor | exact IH].
Qed.

Lemma filter_insert_row (f : Row -> bool) r l :
  ordered l ->
  List.filter f (insert_row r l)
  = if f r then insert_row r (List.filter f l) else List.filter f l.
Proof.
  induction 1 as [|x l Hx Hl IH]; simpl.
  - now destruct (f r).
  - destruct (row_leb r x) eqn:E; simpl.
    + destruct (f r) eqn:Fr; [| reflexivity].
      destruct (f x) eqn:Fx; simpl; [now rewrite E |].
      symmetry. apply insert_row_before. apply all_after_filter.
      eapply Forall_impl; [exact Hx |]. intros y Hy. simpl in Hy.
      now apply (row_leb_trans r x y).
    + rewrite IH. destruct (f x) eqn:Fx; destruct (f r); simpl; rewrite ?E; reflexivity.
Qed.

Lemma filter_order_rows (f : Row -> bool) l :
  List.filter f (order_rows l) = order_rows (List.filter f l).
Proof.
  unfold order_rows. induction l as [|r l IH]; simpl; [reflexivity |].
  rewrite filter_insert_row by apply ordered_order_rows.
  destruct (f r); simpl; now rewrite IH.
Qed.

Lemma with_risk_rows_of g r : List.filter with_risk (rows_of g r) = risk_rows g r.
Proof.
  unfold rows_of, risk_rows. destruct (risks_of g r) as [|k ks]; [reflexivity |].
  set (l := k :: ks). clearbody l.
  induction l as [|a l IH]; simpl; [reflexivity | now rewrite IH].
Qed.

Lemma filter_flat_map {A B} (f : B -> bool) (h : A -> list B) l :
  List.filter f (flat_map h l) = flat_map (fun x => List.filter f (h x)) l.
Proof.
  induction l as [|x l IH]; simpl; [reflexivity |].
  now rewrite List.filter_app, IH.
Qed.

Lemma truthy_risks_with_risk rows :
  truthy_risks (List.filter with_risk rows) = truthy_risks rows.
Proof.
  unfold truthy_risks. induction rows as [|r rows IH]; simpl; [reflexivity |].
  unfold with_risk at 1.
  destruct r as [qi q [ki|] [k|]]; simpl; rewrite ?IH; try reflexivity.
Qed.

Lemma collect_rows_risks rows : forall requirements risks,
  map rw_description (snd (collect_rows rows requirements risks))
  = map rw_description risks ++ truthy_risks rows.
Proof.
  induction rows as [|record rows IH]; intros requirements risks.
  - simpl. now rewrite app_nil_r.
  - cbn [collect_rows]. rewrite IH. unfold truthy_risks. cbn [flat_map].
    destruct (risk record) as [d|]; [| reflexivity].
    destruct (Py.truthy d); [| reflexivity].
    rewrite map_app. cbn [map rw_description]. now rewrite <- app_assoc.
Qed.

Lemma risk_records_of_loading_query g name :
  List.filter with_risk (order_rows (flat_map (rows_of g) (requirements_of g name)))
  = order_rows (flat_map (risk_rows g) (requirements_of g name)).
Proof.
  rewrite filter_order_rows, filter_flat_map. f_equal.
  apply flat_map_ext. intros r. apply with_risk_rows_of.
Qed.



(** ** Overwriting a saved risk *)

Lemma new_items_other_key name target : forall descs id idx,
  target < idx ->
  Forall (fun k => key_is name target k = false) (new_items name id idx descs).
Proof.
  induction descs as [|d r IH]; intros id idx H; simpl; constructor.
  - unfold key_is. cbn [n_project n_index].
    destruct (Z.eqb_spec idx target); [lia |]. now rewrite andb_false_r.
  - apply IH. lia.
Qed.

Lemma map_unchanged {A} (f : A -> A) (c : A -> bool) l :
  Forall (fun x => c x = false) l ->
  map (fun x => if c x then f x else x) l = l.
Proof.
  induction 1 as [|x l Hx _ IH]; simpl; [reflexivity |]. now rewrite Hx, IH.
Qed.

Lemma map_unchanged_and {A} (f : A -> A) (c e : A -> bool) l :
  Forall (fun x => c x = false) l ->
  map (fun x => if c x && e x then f x else x) l = l.
Proof.
  induction 1 as [|x l Hx _ IH]; simpl; [reflexivity |]. now rewrite Hx, IH.
Qed.

Lemma set_description_new_items name desc (e : ItemNode -> bool) :
  forall descs id idx (i : nat),
    (i < length descs)%nat ->
    (forall k, n_id k = (i + id)%nat -> e k = true) ->
    map (fun k => if key_is name (idx + Z.of_nat i) k && e k
                  then with_description desc k else k)
        (new_items name id idx descs)
    = new_items name id idx (<[i := desc]> descs).
Proof.
  induction descs as [|d r IH]; intros id idx i Hi He; [simpl in Hi; lia |].
  destruct i as [|i].
  - cbn [new_items map list_insert insert]. rewrite He by reflexivity.
    unfold key_is at 1. cbn [n_project n_index].
    rewrite String.eqb_refl. replace (idx + Z.of_nat 0) with idx by lia.
    rewrite Z.eqb_refl. cbn [andb]. unfold with_description.
    cbn [n_id n_project n_index]. f_equal.
    apply map_unchanged_and. apply new_items_other_key. lia.
  - cbn [new_items map]. unfold key_is at 1. cbn [n_project n_index].
    destruct (Z.eqb_spec idx (idx + Z.of_nat (S i))); [lia |].
    rewrite andb_false_r. cbn [andb].
    change (<[S i := desc]> (d :: r)) with (d :: <[i := desc]> r).
    cbn [new_items]. f_equal.
    replace (idx + Z.of_nat (S i)) with (idx + 1 + Z.of_nat i) by lia.
    apply IH; [simpl in Hi; lia |].
    intros k Hk. apply He. lia.
Qed.

Lemma in_pair_edges a b k j :
  (j < k)%nat -> In ((j + a)%nat, (j + b)%nat) (pair_edges a b k).
Proof.
  revert a b j. induction k as [|k IH]; intros a b j Hj; [lia |].
  destruct j as [|j]; simpl; [now left |]. right.
  replace (S (j + a)) with (j + S a)%nat by lia.
  replace (S (j + b)) with (j + S b)%nat by lia.
  apply IH. lia.
Qed.

Section FreshUpdate.

Variables (g : Graph) (name keyword : string).
Hypothesis Hwf : graph_wf g.
Hypothesis Hfresh : fresh_for name g.

Lemma old_risks_other_key idx :
  Forall (fun k => key_is name idx k = false) (risk_nodes g).
Proof.
  destruct Hfresh as (_ & _ & Hk).
  eapply Forall_impl; [exact Hk |]. intros k H. unfold key_is. now rewrite H.
Qed.

Lemma set_risk_description_saved reqs risks desc (i : nat) :
  (length risks <= length reqs)%nat ->
  (i < length risks)%nat ->
  set_risk_description name (1 + Z.of_nat i) desc (saved_graph g name keyword reqs risks)
  = (tt, saved_graph g name keyword reqs (<[i := desc]> risks)).
Proof.
  intros Hlen Hi. unfold set_risk_description.
  unfold saved_graph at 1. rewrite (match_projects_saving g name keyword Hfresh).
  f_equal. unfold saved_graph, saving_graph.
  cbn [next_id project_nodes requirement_nodes risk_nodes has_requirement has_risk].
  rewrite length_insert. f_equal.
  rewrite map_app. f_equal.
  - apply map_unchanged_and. apply old_risks_other_key.
  - apply set_description_new_items; [exact Hi |].
    intros k Hk. unfold risk_of_one.
    rewrite List.filter_app, (old_requirements_other_key g name Hfresh), app_nil_l.
    destruct (lookup_lt_is_Some_2 reqs i ltac:(lia)) as [q Hq].
    rewrite (key_in_new_items name reqs (S (next_id g)) 1 i q Hq).
    cbn [map n_id existsb]. rewrite orb_false_r.
    apply existsb_edge. apply in_or_app. right. rewrite Hk.
    now apply in_pair_edges.
Qed.

End FreshUpdate.

Lemma length_new_items name descs : forall id idx,
  length (new_items name id idx descs) = length descs.
Proof. induction descs as [|d r IH]; intros id idx; simpl; [reflexivity | now rewrite IH]. Qed.

Lemma call_save_tool_graph state w reqs risks keyword :
  requirements_output state = Some reqs ->
  risks_output state = Some risks ->
  selected_keyword state = Some keyword ->
  call_save_tool state w
  = (Ok (append_message (SavedMessage saved_text) state),
     put_graph (save_graph (project_name state) keyword reqs risks (graph_db w)) w).
Proof.
  intros Hreqs Hrisks Hkw.
  unfold call_save_tool, try_except, requirements_attr, risks_attr.
  rewrite Hreqs, Hrisks, Hkw. unfold bind at 1. unfold ret at 1.
  unfold bind at 1. unfold ret at 1. unfold bind at 1. unfold ret at 1.
  unfold bind. now rewrite save_to_neo4j_graph.
Qed.

Lemma saved_graph_is_save_graph g name keyword reqs risks :
  graph_wf g -> fresh_for name g -> (length risks <= length reqs)%nat ->
  save_graph name keyword reqs risks g = saved_graph g name keyword reqs risks.
Proof.
  intros Hwf Hfresh Hlen.
  pose (w := {| llm := fun _ => Fails; calls := []; log := []; workflow_states := ∅;
                graph_db := g |}).
  pose proof (save_to_neo4j_graph reqs risks name keyword w) as H1.
  rewrite (save_to_neo4j_fresh g name keyword Hwf Hfresh w reqs risks eq_refl Hlen) in H1.
  now injection H1.
Qed.

Lemma save_project_run thread w state reqs risks keyword :
  workflow_states w !! thread = Some state ->
  requirements_output state = Some reqs ->
  risks_output state = Some risks ->
  selected_keyword state = Some keyword ->
  save_project thread w
  = (Ok {| sv_thread_id := thread; sv_status := "saved";
           sv_message := "Saved to Neo4j successfully" |},
     put_state thread (append_message (SavedMessage saved_text) state)
       (put_graph (save_graph (project_name state) keyword reqs risks (graph_db w)) w)).
Proof.
  intros Hst Hreqs Hrisks Hkw. unfold save_project. rewrite route_guard_run.
  step. unfold lookup_state at 1. rewrite Hst, Hreqs, Hrisks. cbv iota.
  rewrite !bool_decide_eq_true_2 by (eexists; reflexivity).
  cbn [negb orb]. step.
  rewrite (call_save_tool_graph state w reqs risks keyword Hreqs Hrisks Hkw).
  cbv iota. step. unfold store_state at 1. unfold ret. cbv iota. reflexivity.
Qed.

(** X15.  A saved risk is overwritten in place.  After a session with five
    requirements and five non-empty risks is saved into a graph that did not
    hold its project, [update_single_risk] with a non-empty text for position
    [i] rewrites the description of the one saved risk node and the risk of
    the session; loading the project then returns the requirements as saved
    and the risks with the new text at position [i], and saving the session
    again leaves the graph as it is. *)
Theorem saved_risk_overwritten_in_place (w : World) (thread : string)
    (state : KeywordState) (reqs risks : list string) (keyword text : string) (i : nat) :
  workflow_states w !! thread = Some state ->
  project_name state = thread ->
  graph_wf (graph_db w) ->
  fresh_for thread (graph_db w) ->
  requirements_output state = Some reqs ->
  risks_output state = Some risks ->
  selected_keyword state = Some keyword ->
  length reqs = 5%nat -> length risks = 5%nat ->
  Forall non_empty risks -> non_empty text -> non_empty thread ->
  (i < 5)%nat ->
  exists saved w1 answer w2 resp w3 saved' w4,
    save_project thread w = (Ok saved, w1) /\
    update_single_risk {| us_thread_id := Some thread;
                          us_risk_index := Some (Z.of_nat i);
                          us_risk := Some text |} w1 = (Ok answer, w2) /\
    (workflow_states w2 !! thread) ≫= risks_output = Some (<[i := text]> risks) /\
    length (risk_nodes (graph_db w2)) = length (risk_nodes (graph_db w1)) /\
    load_project_from_neo4j thread w2 = (Ok resp, w3) /\
    ld_requirements resp = reqs /\
    ld_risks resp = <[i := text]> risks /\
    save_project thread w2 = (Ok saved', w4) /\
    graph_db w4 = graph_db w2.
Proof.
  intros Hst Hname Hwf Hfresh Hreqs Hrisks Hkw Hlq Hlk Hne Htext Hthread Hi.
  set (g := graph_db w).
  set (st1 := append_message (SavedMessage saved_text) state).
  set (risks' := <[i := text]> risks).
  set (st2 := set_risks_output (Some risks') st1).
  assert (Hlk' : length risks' = 5%nat) by (unfold risks'; now rewrite length_insert).
  assert (Hsave : save_graph thread keyword reqs risks g
                  = saved_graph g thread keyword reqs risks)
    by (apply saved_graph_is_save_graph; try assumption; lia).
  assert (Hsave' : save_graph thread keyword reqs risks' g
                   = saved_graph g thread keyword reqs risks')
    by (apply saved_graph_is_save_graph; try assumption; lia).
  pose proof (save_project_run thread w state reqs risks keyword Hst Hreqs Hrisks Hkw)
    as Hrun1.
  rewrite Hname in Hrun1. fold g st1 in Hrun1. rewrite Hsave in Hrun1.
  set (w1 := put_state thread st1 (put_graph (saved_graph g thread keyword reqs risks) w))
    in *.
  set (w2 := put_state thread st2
               (put_graph (saved_graph g thread keyword reqs risks') w1)).
  assert (Hrun2 :
    update_single_risk {| us_thread_id := Some thread; us_risk_index := Some (Z.of_nat i);
                          us_risk := Some text |} w1
    = (Ok {| ur_thread_id := thread; ur_status := "updated";
             ur_risk_index := Z.of_nat i;
             ur_message := "Risk updated successfully in Neo4j" |}, w2)).
  { unfold update_single_risk. rewrite route_guard_run.
    cbn [us_thread_id us_risk_index us_risk].
    destruct thread as [|c thread]; [now contradiction Hthread |].
    destruct text as [|c' text]; [now contradiction Htext |].
    cbn [Py.truthy negb orb].
    step. unfold lookup_state at 1. unfold w1 at 1. cbn [workflow_states put_state].
    rewrite lookup_insert_eq. cbv iota.
    step. unfold query at 1. cbv iota. unfold w1 at 1 2. cbn [graph_db put_state put_graph].
    replace (Z.of_nat i + 1) with (1 + Z.of_nat i) by lia.
    rewrite (set_risk_description_saved g _ keyword Hfresh reqs risks _ i) by lia.
    cbn [fst snd].
    step. unfold st1 at 1. cbn [risks_output append_message set_messages].
    rewrite Hrisks.
    destruct risks as [|k0 risks0]; [discriminate Hlk |]. cbn [nonempty_list andb].
    destruct (Z.ltb_spec (Z.of_nat i) (Z.of_nat (length (k0 :: risks0)))); [| lia].
    step. unfold setitem_exn at 1. rewrite setitem_position by lia.
    unfold position_of. destruct (Z.ltb_spec (Z.of_nat i) 0); [lia |].
    rewrite Nat2Z.id. unfold ret at 1. cbv iota. unfold ret at 1. cbv iota.
    step. unfold store_state at 1. unfold ret. cbv iota. reflexivity. }
  assert (Hg2 : graph_db w2 = saved_graph g thread keyword reqs risks') by reflexivity.
  assert (Hne' : Forall non_empty risks').
  { unfold risks'. apply Forall_insert; assumption. }
  assert (Hcount : length (risk_nodes (graph_db w2)) = length (risk_nodes (graph_db w1))).
  { rewrite Hg2. unfold w1. cbn [graph_db put_state put_graph].
    unfold saved_graph, saving_graph. cbn [risk_nodes].
    rewrite !length_app, !length_new_items. unfold risks'. now rewrite length_insert. }
  destruct reqs as [|a0 [|a1 [|a2 [|a3 [|a4 [|]]]]]]; try discriminate Hlq.
  destruct risks' as [|k0 [|k1 [|k2 [|k3 [|k4 [|]]]]]] eqn:Ek; try discriminate Hlk'.
  destruct (load_saved g thread keyword Hwf Hfresh a0 a1 a2 a3 a4 k0 k1 k2 k3 k4 w2 Hg2 Hne')
    as (resp & w3 & Hload & Hq & Hk & _).
  assert (Hst2 : workflow_states w2 !! thread = Some st2)
    by (unfold w2; cbn [workflow_states put_state]; apply lookup_insert_eq).
  pose proof (save_project_run thread w2 st2 [a0; a1; a2; a3; a4] [k0; k1; k2; k3; k4]
                keyword Hst2 Hreqs eq_refl Hkw) as Hrun4.
  eexists _, w1, _, w2, resp, w3, _, _.
  split; [exact Hrun1 |]. split; [exact Hrun2 |].
  split; [rewrite Hst2; reflexivity |].
  split; [exact Hcount |].
  split; [exact Hload |]. split; [exact Hq |]. split; [exact Hk |].
  split; [exact Hrun4 |].
  cbn [graph_db put_state put_graph]. change (project_name st2) with (project_name state).
  rewrite Hname, Hg2, <- Hsave'. apply save_graph_idempotent.
Qed.

Lemma saved_risk_overwritten_in_place_witness :
  exists saved w1 answer w2 resp w3 saved' w4,
    save_project "demo" (demo_world (fun _ => Fails)) = (Ok saved, w1) /\
    update_single_risk {| us_thread_id := Some "demo"; us_risk_index := Some (Z.of_nat 2);
                          us_risk := Some "late delivery" |} w1 = (Ok answer, w2) /\
    (workflow_states w2 !! "demo") ≫= risks_output
    = Some (<[2%nat := "late delivery"]>
              ["risk zero"; "risk one"; "risk two"; "risk three"; "risk four"]) /\
    length (risk_nodes (graph_db w2)) = length (risk_nodes (graph_db w1)) /\
    load_project_from_neo4j "demo" w2 = (Ok resp, w3) /\
    ld_requirements resp = ["req zero"; "req one"; "req two"; "req three"; "req four"] /\
    ld_risks resp
    = <[2%nat := "late delivery"]>
        ["risk zero"; "risk one"; "risk two"; "risk three"; "risk four"] /\
    save_project "demo" w2 = (Ok saved', w4) /\
    graph_db w4 = graph_db w2.
Proof.
  apply (saved_risk_overwritten_in_place (demo_world (fun _ => Fails)) "demo"
           five_by_five_state
           ["req zero"; "req one"; "req two"; "req three"; "req four"]
           ["risk zero"; "risk one"; "risk two"; "risk three"; "risk four"]
           "k" "late delivery" 2);
    try reflexivity.
  - repeat split; constructor.
  - repeat split; constructor.
  - repeat constructor; discriminate.
  - discriminate.
  - discriminate.
  - lia.
Defined.

(** ** Risks without a requirement *)

Lemma risks_saved_app name l1 l2 : forall idx g,
  risks_saved name idx (l1 ++ l2) g
  = risks_saved name (idx + Z.of_nat (length l1)) l2 (risks_saved name idx l1 g).
Proof.
  induction l1 as [|d r IH]; intros idx g; simpl.
  - now rewrite Z.add_0_r.
  - rewrite IH. f_equal. lia.
Qed.

Lemma risks_saved_no_requirement name l : forall idx g,
  no_requirement_beyond name (idx - 1) g -> risks_saved name idx l g = g.
Proof.
  induction l as [|d r IH]; intros idx g H; simpl; [reflexivity |].
  rewrite merge_risk_noop by (left; apply H; lia).
  apply IH. intros i Hi. apply H. lia.
Qed.

Lemma key_is_other_index name idx desc idx' id :
  idx <> idx' ->
  key_is name idx
    {| n_id := id; n_description := desc; n_project := name; n_index := idx' |} = false.
Proof.
  intros H. unfold key_is. cbn [n_project n_index].
  destruct (Z.eqb_spec idx' idx); [congruence |]. apply andb_false_r.
Qed.

Lemma merge_requirement_other_key name desc idx i g :
  i <> idx ->
  List.filter (key_is name i) (requirement_nodes (snd (merge_requirement name desc idx g)))
  = List.filter (key_is name i) (requirement_nodes g).
Proof.
  intros Hi. unfold merge_requirement.
  destruct (match_projects name g); [reflexivity |].
  destruct (map n_id (List.filter (node_is name idx desc) (requirement_nodes g)));
    cbn [snd requirement_nodes]; [| reflexivity].
  rewrite List.filter_app. cbn [List.filter].
  now rewrite key_is_other_index, app_nil_r.
Qed.

Lemma requirements_saved_other_key name descs : forall idx g i,
  idx + Z.of_nat (length descs) <= i ->
  List.filter (key_is name i) (requirement_nodes (requirements_saved name idx descs g))
  = List.filter (key_is name i) (requirement_nodes g).
Proof.
  induction descs as [|d r IH]; intros idx g i Hi; simpl; [reflexivity |].
  simpl in Hi. rewrite IH by lia. apply merge_requirement_other_key. lia.
Qed.

Lemma merge_project_requirement_nodes name keyword g :
  requirement_nodes (snd (merge_project name keyword g)) = requirement_nodes g.
Proof. unfold merge_project. now destruct (existsb (name_is name) (project_nodes g)). Qed.

(** X16.  [save_to_neo4j] with more risks than requirements, on a graph that
    holds no requirement of the project beyond the last index it is about to
    write: the risks past the last requirement are not written at all, so the
    call leaves the graph it would leave without them, and still returns its
    success text. *)
Theorem surplus_risks_not_saved (reqs risks : list string) (name keyword : string)
    (w : World) :
  no_requirement_beyond name (Z.of_nat (length reqs)) (graph_db w) ->
  save_to_neo4j reqs risks name keyword w
  = save_to_neo4j reqs (take (length reqs) risks) name keyword w.
Proof.
  intros Hno.
  destruct (Nat.le_gt_cases (length risks) (length reqs)) as [Hle|Hgt];
    [now rewrite take_ge |].
  rewrite !save_to_neo4j_graph. do 2 f_equal. unfold save_graph.
  set (g1 := requirements_saved name 1 reqs (snd (merge_project name keyword (graph_db w)))).
  rewrite <- (take_drop (length reqs) risks) at 1. rewrite risks_saved_app.
  apply risks_saved_no_requirement.
  intros i Hi. rewrite length_take in Hi.
  rewrite (proj1 (proj2 (risks_saved_frame name _ 1 g1))).
  unfold g1. rewrite requirements_saved_other_key, merge_project_requirement_nodes
    by lia.
  apply Hno. lia.
Qed.

Lemma surplus_risks_not_saved_witness :
  save_to_neo4j ["req zero"; "req one"] ["risk zero"; "risk one"; "risk two"] "demo" "k"
    (fresh_world (fun _ => Fails))
  = save_to_neo4j ["req zero"; "req one"]
      (take (length ["req zero"; "req one"]) ["risk zero"; "risk one"; "risk two"])
      "demo" "k" (fresh_world (fun _ => Fails)).
Proof.
  apply (surplus_risks_not_saved ["req zero"; "req one"]
           ["risk zero"; "risk one"; "risk two"] "demo" "k" (fresh_world (fun _ => Fails))).
  intros i Hi. reflexivity.
Defined.

(** ** Messages for the log *)

Lemma safe_char_chain c :
  fold_left (fun x r => if N.eqb x (fst r) then snd r else x) replacements c = safe_char c.
Proof.
  unfold safe_char, replacements. cbn [fold_left List.find fst snd].
  repeat match goal with
         | |- context [N.eqb c ?k] =>
             destruct (N.eqb_spec c k); [subst c; reflexivity |]
         end.
  reflexivity.
Qed.

Lemma fold_replace_char rs : forall message,
  fold_left (fun m r => replace_char (fst r) (snd r) m) rs message
  = map (fun c => fold_left (fun x r => if N.eqb x (fst r) then snd r else x) rs c) message.
Proof.
  induction rs as [|r rs IH]; intros message; simpl.
  - now rewrite map_id.
  - rewrite IH. unfold replace_char. now rewrite map_map.
Qed.

(** X17.  [safe_log_message] acts character by character: the eight
    replacements, made one after the other, amount to one pass in which each
    of the eight characters becomes its plain counterpart and every other
    character stays.  So the result has the length of the message, none of
    the eight characters is left in it, and a second pass changes nothing. *)
Theorem safe_log_message_one_pass (message : list N) :
  safe_log_message message = map safe_char message /\
  length (safe_log_message message) = length message /\
  Forall (fun c => ~ In c (map fst replacements)) (safe_log_message message) /\
  safe_log_message (safe_log_message message) = safe_log_message message.
Proof.
  assert (Hmap : forall m, safe_log_message m = map safe_char m).
  { intros m. unfold safe_log_message. rewrite fold_replace_char.
    apply map_ext. intros c. apply safe_char_chain. }
  assert (Hclean : forall c, ~ In (safe_char c) (map fst replacements)).
  { intros c. unfold safe_char, replacements. cbn [List.find fst snd map].
    repeat match goal with
           | |- context [N.eqb c ?k] =>
               destruct (N.eqb_spec c k);
               [intros H; repeat (destruct H as [H | H]; [discriminate H |]); exact H |]
           end.
    intros H. repeat (destruct H as [H | H]; [congruence |]). exact H. }
  assert (Hfix : forall c, safe_char (safe_char c) = safe_char c).
  { intros c. pose proof (Hclean c) as H.
    unfold safe_char at 1. 
    destruct (List.find (fun r => N.eqb (safe_char c) (fst r)) replacements) as [r|] eqn:E;
      [| reflexivity].
    apply find_some in E as [Hin Heq]. apply N.eqb_eq in Heq.
    exfalso. apply H. rewrite Heq. now apply in_map. }
  split; [apply Hmap |]. rewrite !Hmap.
  split; [apply length_map |].
  split; [apply Forall_map, Forall_forall; intros c _; apply Hclean |].
  rewrite map_map. apply map_ext. exact Hfix.
Qed.

(** ** Feedback requests always answer *)

Lemma ensure_keyword_keyword thread_id state w :
  exists st1 w1,
    ensure_keyword thread_id state w = (Ok st1, w1) /\
    requirements_output st1 = requirements_output state /\
    risks_output st1 = risks_output state /\
    selected_keyword st1 = keyword_or_thread thread_id state.
Proof.
  unfold ensure_keyword, keyword_or_thread.
  destruct (truthy_opt (selected_keyword state)); simpl.
  - exists state, w. repeat split; reflexivity.
  - eexists _, _. repeat split; reflexivity.
Qed.

(** X19.  [regenerate_with_feedback] on a session with aligned requirements
    and risks never fails: for every type, every list of indexes and every
    behaviour of the generator it answers with the status [regenerated], both
    lists keep their lengths, and the keyword it reports and stores is the
    selected one, or the thread identifier when none was selected. *)
Theorem regenerate_with_feedback_always_answers (request : FeedbackRequest) (w : World)
    (state : KeywordState) (reqs risks : list string) :
  workflow_states w !! fb_thread_id request = Some state ->
  requirements_output state = Some reqs ->
  risks_output state = Some risks ->
  length reqs = length risks ->
  exists resp w' state' reqs' risks',
    regenerate_with_feedback request w = (Ok resp, w') /\
    r_status resp = "regenerated" /\
    r_requirements resp = Some reqs' /\ length reqs' = length reqs /\
    r_risks resp = Some risks' /\ length risks' = length risks /\
    r_selected_keyword resp = keyword_or_thread (fb_thread_id request) state /\
    workflow_states w' !! fb_thread_id request = Some state' /\
    requirements_output state' = Some reqs' /\
    risks_output state' = Some risks' /\
    selected_keyword state' = keyword_or_thread (fb_thread_id request) state.
Proof.
  intros Hst Hreqs Hrisks Hlen.
  unfold regenerate_with_feedback. rewrite route_guard_run.
  step. unfold lookup_state at 1. rewrite Hst. cbv iota.
  destruct (ensure_keyword_keyword (fb_thread_id request) state w)
    as (st1 & w1 & Hens & Hq1 & Hk1 & Hkw1).
  rewrite Hreqs in Hq1. rewrite Hrisks in Hk1.
  step. rewrite Hens. cbv iota.
  assert (Hbranch : exists st2 w2 reqs' risks',
    (if (fb_regenerate_type request =? "requirement")%string
     then feedback_requirement_branch request (fb_thread_id request) st1
     else if (fb_regenerate_type request =? "risks")%string
          then feedback_risk_branch request (fb_thread_id request) st1
          else ret st1) w1 = (Ok st2, w2) /\
    requirements_output st2 = Some reqs' /\ length reqs' = length reqs /\
    risks_output st2 = Some risks' /\ length risks' = length risks /\
    selected_keyword st2 = selected_keyword st1).
  { destruct (fb_regenerate_type request =? "requirement")%string.
    - destruct (feedback_requirement_branch_spec request (fb_thread_id request) st1 w1
                  reqs risks Hq1 Hk1 Hlen)
        as (st2 & w2 & cr' & risks' & cm & t1 & t2 & Hrun & Hq2 & Hk2 & Hkw2 & Hl1 & Hl2 & _).
      exists st2, w2, cr', risks'. repeat split; assumption.
    - destruct (fb_regenerate_type request =? "risks")%string.
      + destruct (feedback_risks_loop_spec st1 (fb_feedback request) reqs risks Hq1 Hk1 Hlen
                    (fb_indexes request) risks 0%nat w1 eq_refl)
          as (cr' & n' & w2 & tr & Hloop & _ & _ & _ & Hlen' & _).
        unfold feedback_risk_branch. rewrite Hk1.
        eexists _, _, reqs, cr'. split.
        * step. rewrite Hloop. cbv iota. cbn [fst snd].
          step. unfold store_state at 1. unfold ret. cbv iota. reflexivity.
        * cbn [requirements_output risks_output selected_keyword set_risks_output].
          repeat split; assumption.
      + exists st1, w1, reqs, risks. repeat split; try assumption; reflexivity. }
  destruct Hbranch as (st2 & w2 & reqs' & risks' & Hrun & Hq2 & Hl1 & Hk2 & Hl2 & Hkw2).
  step. rewrite Hrun. cbv iota.
  step. unfold store_state at 1. cbv iota.
  step. unfold requirements_attr at 1. rewrite Hq2. unfold ret at 1. cbv iota.
  step. unfold risks_attr at 1. rewrite Hk2. unfold ret. cbv iota.
  eexists _, _, st2, reqs', risks'. split; [reflexivity |].
  cbn [r_status r_requirements r_risks r_selected_keyword regenerated_response
       workflow_states put_state].
  rewrite lookup_insert_eq.
  repeat split; try assumption; congruence.
Qed.

Lemma regenerate_with_feedback_always_answers_witness :
  exists resp w' state' reqs' risks',
    regenerate_with_feedback
      {| fb_thread_id := "demo"; fb_indexes := [3; -9; 40];
         fb_feedback := "shorter"; fb_regenerate_type := "requirement" |}
      (demo_world (fun _ => Fails)) = (Ok resp, w') /\
    r_status resp = "regenerated" /\
    r_requirements resp = Some reqs' /\
    length reqs' = length ["req zero"; "req one"; "req two"; "req three"; "req four"] /\
    r_risks resp = Some risks' /\
    length risks' = length ["risk zero"; "risk one"; "risk two"; "risk three"; "risk four"] /\
    r_selected_keyword resp = keyword_or_thread "demo" five_by_five_state /\
    workflow_states w' !! "demo" = Some state' /\
    requirements_output state' = Some reqs' /\
    risks_output state' = Some risks' /\
    selected_keyword state' = keyword_or_thread "demo" five_by_five_state.
Proof.
  apply (regenerate_with_feedback_always_answers
           {| fb_thread_id := "demo"; fb_indexes := [3; -9; 40];
              fb_feedback := "shorter"; fb_regenerate_type := "requirement" |}
           (demo_world (fun _ => Fails)) five_by_five_state);
    reflexivity.
Defined.

(** ** One requirement with feedback *)

(** X20.  [generate_single_requirement_with_feedback] on a session with
    requirements, for an index not below [-len]: it never raises and calls
    the generator exactly once, with the requirement now at the index (the
    empty text beyond the end), the feedback and the index plus one; it
    returns the cleaned response when that has ten characters or more, and
    the requirement itself when the response is shorter or the call fails.
    It stores nothing. *)
Theorem single_requirement_result (state : KeywordState) (index : Z) (feedback : string)
    (w : World) (reqs : list string) :
  requirements_output state = Some reqs ->
  - Z.of_nat (length reqs) <= index ->
  exists current w',
    item_or_empty reqs index = ret current /\
    generate_single_requirement_with_feedback state index feedback w
    = (Ok (regenerated_text current (llm w (length (calls w)))), w') /\
    calls w' = calls w ++ [SingleRequirementPrompt (selected_keyword state)
                             (requirement_description state) current feedback
                             (index + 1)] /\
    llm w' = llm w /\ workflow_states w' = workflow_states w /\
    graph_db w' = graph_db w.
Proof.
  intros Hreqs Hidx.
  destruct (item_or_empty_ok reqs index Hidx) as [current Hcur].
  assert (Hrun : exists w',
    generate_single_requirement_with_feedback state index feedback w
    = (Ok (regenerated_text current (llm w (length (calls w)))), w') /\
    calls w' = calls w ++ [SingleRequirementPrompt (selected_keyword state)
                             (requirement_description state) current feedback
                             (index + 1)] /\
    llm w' = llm w /\ workflow_states w' = workflow_states w /\
    graph_db w' = graph_db w).
  { unfold generate_single_requirement_with_feedback, try_except, bind, requirements_attr.
    rewrite Hreqs. unfold ret at 1. rewrite Hcur. unfold ret at 1.
    unfold invoke, regenerated_text.
    destruct (llm w (length (calls w))) as [content|].
    - destruct (Py.len (clean_quotes (Py.strip content)) <? 10).
      + eexists. split; [reflexivity |]. repeat split.
      + eexists. split; [reflexivity |]. repeat split.
    - unfold logger, ret. simpl. rewrite Hcur.
      eexists. split; [reflexivity |]. repeat split. }
  destruct Hrun as (w' & Hrun & Hrest).
  exists current, w'. split; [exact Hcur |]. split; [exact Hrun | exact Hrest].
Qed.

Lemma single_requirement_result_witness :
  exists current w',
    item_or_empty ["req zero"; "req one"; "req two"; "req three"; "req four"] (-1)
    = ret current /\
    generate_single_requirement_with_feedback five_by_five_state (-1) "shorter"
      (demo_world (fun _ => Returns "'too short'"))
    = (Ok (regenerated_text current
             (llm (demo_world (fun _ => Returns "'too short'"))
                (length (calls (demo_world (fun _ => Returns "'too short'")))))), w') /\
    calls w' = calls (demo_world (fun _ => Returns "'too short'"))
               ++ [SingleRequirementPrompt (selected_keyword five_by_five_state)
                     (requirement_description five_by_five_state) current "shorter"
                     (-1 + 1)] /\
    llm w' = llm (demo_world (fun _ => Returns "'too short'")) /\
    workflow_states w' = workflow_states (demo_world (fun _ => Returns "'too short'")) /\
    graph_db w' = graph_db (demo_world (fun _ => Returns "'too short'")).
Proof.
  apply (single_requirement_result five_by_five_state (-1) "shorter"
           (demo_world (fun _ => Returns "'too short'"))
           ["req zero"; "req one"; "req two"; "req three"; "req four"] eq_refl).
  simpl. lia.
Defined.

(** ** A project without risks *)

Lemma flat_map_nil_all {A B} (f : A -> list B) l :
  Forall (fun x => f x = []) l -> flat_map f l = [].
Proof. induction 1 as [|x l Hx _ IH]; simpl; [reflexivity | now rewrite Hx]. Qed.

Lemma rows_of_nonempty g r : rows_of g r <> [].
Proof.
  unfold rows_of. destruct (risks_of g r); [discriminate |]. simpl. discriminate.
Qed.

Lemma insert_row_nonempty r l : insert_row r l <> [].
Proof. destruct l; simpl; [discriminate |]. destruct (row_leb r r0); discriminate. Qed.

Lemma order_rows_nonempty l : l <> [] -> order_rows l <> [].
Proof.
  destruct l as [|r l]; [contradiction |]. intros _. unfold order_rows. simpl.
  apply insert_row_nonempty.
Qed.

Lemma collect_rows_keeps rows : forall requirements risks,
  requirements <> [] -> fst (collect_rows rows requirements risks) <> [].
Proof.
  induction rows as [|record rows IH]; intros requirements risks H; [exact H |].
  cbn [collect_rows]. apply IH.
  destruct (dict_lookup (req_index record) requirements); [exact H |].
  intros E. apply app_eq_nil in E as [E _]. contradiction.
Qed.

Lemma insert_key_nonempty k l : insert_key k l <> [].
Proof. destruct l; simpl; [discriminate |]. destruct (k <=? z); discriminate. Qed.

Lemma sorted_keys_nonempty d : d <> [] -> sorted_keys d <> [].
Proof.
  destruct d as [|p d]; [contradiction |]. intros _. unfold sorted_keys. simpl.
  apply insert_key_nonempty.
Qed.

(** X21.  A project that is in the graph with requirements but without any
    risk: [get_risks_from_neo4j] answers 404 with the text that the project was
    not found, while [load_project_from_neo4j] succeeds on the same graph and
    returns an empty list of risks. *)
Theorem risks_endpoint_hides_riskless_project (name : string) (w : World) :
  requirements_without_risks name (graph_db w) ->
  get_risks_from_neo4j name w
  = (Raise (HTTPException 404 "Project not found in Neo4j"), w) /\
  exists resp w',
    load_project_from_neo4j name w = (Ok resp, w') /\
    ld_risks resp = [] /\ ld_requirements resp <> [].
Proof.
  intros [Hne Hall].
  assert (Hm : flat_map (risk_rows (graph_db w)) (requirements_of (graph_db w) name) = []).
  { apply flat_map_nil_all. eapply Forall_impl; [exact Hall |].
    intros r Hr. simpl in Hr. unfold risk_rows. now rewrite Hr. }
  split.
  - unfold get_risks_from_neo4j. rewrite route_guard_run.
    step. unfold query at 1. cbv iota. unfold risks_query. cbn [fst snd].
    rewrite Hm. cbn [order_rows fold_right]. unfold raise. now rewrite put_graph_same.
  - pose proof (risk_records_of_loading_query (graph_db w) name) as Hrows.
    rewrite Hm in Hrows. cbn [order_rows fold_right] in Hrows.
    unfold load_project_from_neo4j. rewrite route_guard_run.
    step. unfold query at 1. cbv iota. unfold keyword_query. cbn [fst snd].
    step. unfold query at 1. cbv iota. unfold load_query.
    cbn [fst snd graph_db put_graph].
    destruct (order_rows (flat_map (rows_of (graph_db w)) (requirements_of (graph_db w) name)))
      as [|r0 rows] eqn:Er.
    { exfalso. revert Er. apply order_rows_nonempty.
      destruct (requirements_of (graph_db w) name) as [|q qs]; [contradiction |].
      simpl. pose proof (rows_of_nonempty (graph_db w) q).
      destruct (rows_of (graph_db w) q); [contradiction | discriminate]. }
    pose proof (collect_rows_risks (r0 :: rows) [] []) as Hc.
    assert (Hq : fst (collect_rows (r0 :: rows) [] []) <> []).
    { cbn [collect_rows dict_lookup app]. apply collect_rows_keeps. discriminate. }
    destruct (collect_rows (r0 :: rows) [] []) as [requirements risks].
    cbn [snd map app fst] in Hc, Hq.
    step. unfold store_state at 1. cbv iota.
    step. unfold requirements_attr at 1. cbn [requirements_output]. unfold ret. cbv iota.
    eexists _, _. split; [reflexivity |]. cbn [ld_risks ld_requirements].
    split.
    + rewrite Hc, <- truthy_risks_with_risk, Hrows. reflexivity.
    + intros Hnil. apply map_eq_nil in Hnil. revert Hnil.
      now apply sorted_keys_nonempty.
Qed.

Lemma risks_endpoint_hides_riskless_project_witness :
  get_risks_from_neo4j "demo" riskless_world
  = (Raise (HTTPException 404 "Project not found in Neo4j"), riskless_world) /\
  exists resp w',
    load_project_from_neo4j "demo" riskless_world = (Ok resp, w') /\
    ld_risks resp = [] /\ ld_requirements resp <> [].
Proof.
  apply (risks_endpoint_hides_riskless_project "demo" riskless_world).
  split; [discriminate | repeat constructor].
Defined.

(** ** Regenerating after a load *)

Lemma load_stores name w resp w1 :
  load_project_from_neo4j name w = (Ok resp, w1) ->
  exists st,
    workflow_states w1 !! name = Some st /\
    requirements_output st = Some (ld_requirements resp) /\
    risks_output st = Some (ld_risks resp) /\
    selected_keyword st = ld_selected_keyword resp /\
    calls w1 = calls w /\ llm w1 = llm w.
Proof.
  unfold load_project_from_neo4j. rewrite route_guard_run.
  step. unfold query at 1. cbv iota. unfold keyword_query. cbn [fst snd].
  step. unfold query at 1. cbv iota. unfold load_query. cbn [fst snd graph_db put_graph].
  destruct (order_rows (flat_map (rows_of (graph_db w)) (requirements_of (graph_db w) name)))
    as [|r0 rows]; [discriminate |].
  destruct (collect_rows (r0 :: rows) [] []) as [requirements risks].
  step. unfold store_state at 1. cbv iota.
  step. unfold requirements_attr at 1. cbn [requirements_output]. unfold ret. cbv iota.
  intros [= <- <-]. eexists. cbn [workflow_states put_state put_graph].
  rewrite lookup_insert_eq. repeat split.
Qed.

(** X22.  A loaded project can be regenerated.  After
    [load_project_from_neo4j] has succeeded with a keyword that is not empty,
    [regenerate] with the type [risks] on the thread of that name succeeds: it
    calls the risk stage once, on the requirements that were loaded, keeps
    those requirements and returns five risks, however many requirements the
    project has. *)
Theorem loaded_project_regenerates (name : string) (w : World) (resp : LoadResponse)
    (w1 : World) :
  load_project_from_neo4j name w = (Ok resp, w1) ->
  truthy_opt (ld_selected_keyword resp) = true ->
  exists answer w2 risks',
    regenerate {| rg_thread_id := name; rg_regenerate_type := "risks" |} w1
    = (Ok answer, w2) /\
    r_status answer = "regenerated" /\
    r_requirements answer = Some (ld_requirements resp) /\
    r_risks answer = Some risks' /\ length risks' = 5%nat /\
    calls w2 = calls w ++ [RisksPrompt (ld_requirements resp)].
Proof.
  intros Hload Hkw.
  destruct (load_stores name w resp w1 Hload) as (st & Hst & Hq & Hk & Hsel & Hc & _).
  destruct (generate_risks_run st w1 (ld_requirements resp) Hq)
    as (st2 & w2 & risks' & Hrun & Hk2 & Hl2 & Hq2 & _ & Hc2 & _).
  unfold regenerate. rewrite route_guard_run. cbn [rg_thread_id rg_regenerate_type].
  step. unfold lookup_state at 1. rewrite Hst, Hsel, Hkw.
  change (negb true) with false.
  change (one_of "risks" "requirements" "both") with false.
  change (one_of "risks" "risks" "both") with true. cbv iota.
  step. unfold ret at 1. cbv iota.
  step. step. rewrite Hrun. cbv iota.
  step. unfold store_state at 1. unfold ret at 1. cbv iota.
  step. unfold store_state at 1. unfold ret. cbv iota.
  eexists _, _, risks'. split; [reflexivity |].
  cbn [r_status r_requirements r_risks regenerated_response calls put_state].
  split; [reflexivity |]. split; [exact Hq2 |]. split; [exact Hk2 |].
  split; [exact Hl2 |]. now rewrite Hc2, Hc.
Qed.

Lemma loaded_project_regenerates_witness :
  exists answer w2 risks',
    regenerate {| rg_thread_id := "demo"; rg_regenerate_type := "risks" |}
      (snd (load_project_from_neo4j "demo" riskless_world))
    = (Ok answer, w2) /\
    r_status answer = "regenerated" /\
    r_requirements answer = Some ["req zero"; "req one"] /\
    r_risks answer = Some risks' /\ length risks' = 5%nat /\
    calls w2 = calls riskless_world ++ [RisksPrompt ["req zero"; "req one"]].
Proof.
  apply (loaded_project_regenerates "demo" riskless_world
           {| ld_thread_id := "demo"; ld_status := "loaded";
              ld_selected_keyword := Some "k";
              ld_requirements := ["req zero"; "req one"];
              ld_risks := [];
              ld_risks_with_requirements := [] |}
           (snd (load_project_from_neo4j "demo" riskless_world)));
    reflexivity.
Defined.

(** X23.  The risk stage needs requirements.  [regenerate] with the type
    [risks] on a session that has a keyword but no requirements answers 500
    with the text of the attribute error: the stage fails inside its own
    [except] branch, before any call to the generator, and the session is left
    as it was. *)
Theorem regenerate_risks_needs_requirements (request : RegenerateRequest) (w : World)
    (state : KeywordState) :
  workflow_states w !! rg_thread_id request = Some state ->
  truthy_opt (selected_keyword state) = true ->
  requirements_output state = None ->
  rg_regenerate_type request = "risks" ->
  exists w',
    regenerate request w = (Raise (HTTPException 500 (exn_text AttributeError)), w') /\
    calls w' = calls w /\ workflow_states w' = workflow_states w /\
    log w' = log w ++ [StageError Risks AttributeError; RouteError AttributeError].
Proof.
  intros Hst Hk Hnone Hty.
  unfold regenerate. rewrite route_guard_run.
  step. unfold lookup_state at 1. rewrite Hst, Hk, Hty.
  change (negb true) with false.
  change (one_of "risks" "requirements" "both") with false.
  change (one_of "risks" "risks" "both") with true. cbv iota.
  step. unfold ret at 1. cbv iota.
  step. step. rewrite (generate_risks_no_requirements state w Hnone). cbv iota.
  eexists. split; [reflexivity |]. cbn [calls workflow_states log add_log].
  repeat split. now rewrite <- app_assoc.
Qed.

Lemma regenerate_risks_needs_requirements_witness :
  exists w',
    regenerate {| rg_thread_id := "demo"; rg_regenerate_type := "risks" |}
      (selected_world varying_oracle)
    = (Raise (HTTPException 500 (exn_text AttributeError)), w') /\
    calls w' = calls (selected_world varying_oracle) /\
    workflow_states w' = workflow_states (selected_world varying_oracle) /\
    log w' = log (selected_world varying_oracle)
             ++ [StageError Risks AttributeError; RouteError AttributeError].
Proof.
  apply (regenerate_risks_needs_requirements
           {| rg_thread_id := "demo"; rg_regenerate_type := "risks" |}
           (selected_world varying_oracle) keyword_selected_state);
    reflexivity.
Defined.
